(** * Order reconciliation and ticketing core of the table-ordering backend

    A shallow embedding of [backend/src/routes/orders.js] and
    [backend/src/models/Order.js]: the pricing helper, the two reconciliation
    policies of [PATCH /:orderId/update], the kitchen-ticket generator of
    [POST /:orderId/print-kot] and the status routes, followed by the
    properties the specification states about them.

    Conventions of the embedding.
    - JavaScript numbers that hold quantities and counters are integers ([Z]);
      prices are exact rationals ([Q]), so the binary rounding noise of IEEE
      doubles is outside the model.
    - A MongoDB [ObjectId] is a natural number ([N]); equality of the
      [toString()] renderings is equality of the numbers.
    - A JavaScript [Map] is an association list in insertion order, which is
      also the iteration order of [Map.prototype.forEach].
    - Every route is a function from the loaded order document to an
      [Outcome]: the HTTP reply together with the document as it is persisted
      when the handler returns.  Authentication, the queries that load the
      order and the active menu, and failures of the database itself are not
      represented.
    - Time stamps ([new Date()]) and the free-text [details] of a change
      event are not represented.
    - What [save()] and [Map.set] decide belongs to Mongoose: the routes that
      store data of the request body (create, update, batch status) take
      these decisions from the class [Mongoose] and answer 500 when [save()]
      or [set] refuses; [orderSchema] is the instance read off
      [models/Order.js].  The other routes set statuses, flags and tickets
      on a stored document; there the stored document is taken to be one
      that [save()] accepts.
    - A line that the handler builds as a plain object has no [_id] until
      Mongoose casts it; the model keeps such a line with [_id = None] and
      gives it the schema default [status = pending].  The trimming that
      casting applies to the strings of a line is not represented.
    - A ticket is answered as the plain object the handler built and stored
      as the [kots] sub-schema keeps it, without the [specialInstructions]
      of its items.
    - Strings are ASCII, so that the code-unit order of [Array.prototype.sort]
      is the byte order of [String.compare]. *)

From Stdlib Require Import ZArith QArith Qround List String Ascii Bool Lia.
From Stdlib Require Import Permutation Sorted DecimalString.
From Stdlib Require Import DecimalPos DecimalZ.
Import ListNotations.

Local Open Scope string_scope.
Local Open Scope list_scope.
Local Open Scope Z_scope.

Set Implicit Arguments.

(** ** Data model ([models/Order.js]) *)

Definition ObjectId := N.

(** [orderItemSchema.status] *)
Inductive ItemStatus :=
| IPending | IPreparing | IReady | IServed | ICancelled.

(** [orderSchema.status] *)
Inductive OrderStatus :=
| Pending | Preparing | Ready | Served | Paid | Cancelled.

(** An addon is either an object [{name, price}] or a legacy bare name.
    A missing [price] property is [None]. *)
Inductive Addon :=
| AddonObj (name : string) (price : option Q)
| AddonStr (name : string).

Module MenuItem.
Record t := mk { _id : ObjectId; name : string; price : Q }.
End MenuItem.

(** One element of the [items] array of a request body. *)
Module ReqItem.
Record t := mk {
  menuItemId : ObjectId;
  quantity : Z;
  addons : list Addon;
  specialInstructions : string }.
End ReqItem.

(** [orderItemSchema].  [_id = None] is a plain object that Mongoose has not
    yet cast to a subdocument (it receives a fresh id when it is). *)
Module OrderLine.
Record t := mk {
  _id : option ObjectId;
  menuItemId : ObjectId;
  name : string;
  price : Q;
  quantity : Z;
  addons : list Addon;
  specialInstructions : string;
  isNew : bool;
  isRemoved : bool;
  status : ItemStatus }.

Definition setQuantity (q : Z) (l : t) : t :=
  mk (_id l) (menuItemId l) (name l) (price l) q (addons l)
     (specialInstructions l) (isNew l) (isRemoved l) (status l).

Definition setAddons (a : list Addon) (l : t) : t :=
  mk (_id l) (menuItemId l) (name l) (price l) (quantity l) a
     (specialInstructions l) (isNew l) (isRemoved l) (status l).

Definition setIsNew (b : bool) (l : t) : t :=
  mk (_id l) (menuItemId l) (name l) (price l) (quantity l) (addons l)
     (specialInstructions l) b (isRemoved l) (status l).

Definition setStatus (s : ItemStatus) (l : t) : t :=
  mk (_id l) (menuItemId l) (name l) (price l) (quantity l) (addons l)
     (specialInstructions l) (isNew l) (isRemoved l) s.

(** [{ ...item.toObject(), quantity: item.quantity, isRemoved: true,
       isNew: false }] *)
Definition markRemoved (l : t) : t :=
  mk (_id l) (menuItemId l) (name l) (price l) (quantity l) (addons l)
     (specialInstructions l) false true (status l).
End OrderLine.

Inductive ChangeType :=
| item_added | item_removed | quantity_increased | quantity_decreased
| item_modified.

Inductive Actor := customer | staff.

(** [updateHistorySchema] *)
Module ChangeEvent.
Record t := mk {
  changeType : ChangeType;
  itemName : string;
  oldQuantity : option Z;
  newQuantity : option Z;
  changedBy : Actor }.
End ChangeEvent.

(** A ticket item.  The plain object of the reply carries the line's
    [specialInstructions]; the [kots] sub-schema has no such path, so the
    stored item has none ([None]). *)
Module KotItem.
Record t := mk {
  itemId : ObjectId;
  name : string;
  quantity : Z;
  addons : list Addon;
  specialInstructions : option string }.
End KotItem.

Module Kot.
Record t := mk {
  kotNumber : Z;
  items : list KotItem.t;
  printedBy : string }.
End Kot.

Inductive PaymentMethod := upi | card | cash.

(** [orderSchema], restricted to the fields the routes below read or write. *)
Module Order.
Record t := mk {
  items : list OrderLine.t;
  totalPrice : Q;
  customerName : string;
  specialInstructions : string;
  status : OrderStatus;
  paymentMethod : option PaymentMethod;
  isUpdated : bool;
  updateCount : Z;
  originalItems : list OrderLine.t;
  updateHistory : list ChangeEvent.t;
  kots : list Kot.t;
  batchStatus : list (string * OrderStatus);
  hasUnseenChanges : bool }.

Definition setKots (k : list Kot.t) (o : t) : t :=
  mk (items o) (totalPrice o) (customerName o) (specialInstructions o)
     (status o) (paymentMethod o) (isUpdated o) (updateCount o)
     (originalItems o) (updateHistory o) k (batchStatus o)
     (hasUnseenChanges o).

Definition setStatus (s : OrderStatus) (o : t) : t :=
  mk (items o) (totalPrice o) (customerName o) (specialInstructions o)
     s (paymentMethod o) (isUpdated o) (updateCount o)
     (originalItems o) (updateHistory o) (kots o) (batchStatus o)
     (hasUnseenChanges o).

Definition setBatchStatus (b : list (string * OrderStatus)) (o : t) : t :=
  mk (items o) (totalPrice o) (customerName o) (specialInstructions o)
     (status o) (paymentMethod o) (isUpdated o) (updateCount o)
     (originalItems o) (updateHistory o) (kots o) b
     (hasUnseenChanges o).

Definition setItems (l : list OrderLine.t) (o : t) : t :=
  mk l (totalPrice o) (customerName o) (specialInstructions o)
     (status o) (paymentMethod o) (isUpdated o) (updateCount o)
     (originalItems o) (updateHistory o) (kots o) (batchStatus o)
     (hasUnseenChanges o).
End Order.

(** ** Replies *)

Inductive Reply (A : Type) :=
| Success (code : nat) (data : A)
| Failure (code : nat) (message : string) (noNewItems : bool).
Arguments Success {A} code data.
Arguments Failure {A} code message noNewItems.

Record Outcome (A : Type) := mkOutcome {
  reply : Reply A;
  persisted : Order.t }.
Arguments mkOutcome {A} reply persisted.

(** A handler that returns before [order.save()] leaves the document alone. *)
Definition reject {A} (code : nat) (message : string) (o : Order.t) : Outcome A :=
  mkOutcome (Failure code message false) o.

(** ** What Mongoose decides *)

(** Two decisions in the handlers are taken by Mongoose and not by the code
    of the routes: whether [await doc.save()] resolves for the document it is
    given (it rejects when casting or a schema validator refuses the
    document, and the route then answers 500 from its [catch]), and whether
    [set] on a Mongoose [Map] accepts a key (it throws otherwise).  The
    routes that store data taken from the request are embedded over any such
    pair of decisions; [orderSchema] below is the pair read off
    [models/Order.js]. *)
Class Mongoose := {
  saves : Order.t -> bool;
  validKey : string -> bool }.

Definition orderStatusName (s : OrderStatus) : string :=
  match s with
  | Pending => "pending" | Preparing => "preparing" | Ready => "ready"
  | Served => "served" | Paid => "paid" | Cancelled => "cancelled"
  end.

(** [validStatuses.includes(status)] of the order-status route. *)
Definition parseOrderStatus (s : string) : option OrderStatus :=
  if String.eqb s "pending" then Some Pending
  else if String.eqb s "preparing" then Some Preparing
  else if String.eqb s "ready" then Some Ready
  else if String.eqb s "served" then Some Served
  else if String.eqb s "paid" then Some Paid
  else if String.eqb s "cancelled" then Some Cancelled
  else None.

(** [validStatuses.includes(status)] of the item-status routes. *)
Definition parseItemStatus (s : string) : option ItemStatus :=
  if String.eqb s "pending" then Some IPending
  else if String.eqb s "preparing" then Some IPreparing
  else if String.eqb s "ready" then Some IReady
  else if String.eqb s "served" then Some IServed
  else if String.eqb s "cancelled" then Some ICancelled
  else None.

Definition itemStatus_eqb (a b : ItemStatus) : bool :=
  match a, b with
  | IPending, IPending | IPreparing, IPreparing | IReady, IReady
  | IServed, IServed | ICancelled, ICancelled => true
  | _, _ => false
  end.

Definition orderStatus_eqb (a b : OrderStatus) : bool :=
  match a, b with
  | Pending, Pending | Preparing, Preparing | Ready, Ready
  | Served, Served | Paid, Paid | Cancelled, Cancelled => true
  | _, _ => false
  end.

(** Item statuses are a subset of order statuses (same strings). *)
Definition orderStatusOfItem (s : ItemStatus) : OrderStatus :=
  match s with
  | IPending => Pending | IPreparing => Preparing | IReady => Ready
  | IServed => Served | ICancelled => Cancelled
  end.

(** ** Pricing helper *)

Local Open Scope Q_scope.

(** [addon.price || 0] for an object, [0] for a bare name. *)
Definition addonUnitPrice (a : Addon) : Q :=
  match a with
  | AddonObj _ (Some p) => p
  | AddonObj _ None => 0
  | AddonStr _ => 0
  end.

(** [calculateAddonPrice(addons, quantity)] *)
Definition calculateAddonPrice (addons : list Addon) (quantity : Z) : Q :=
  match addons with
  | [] => 0
  | _ =>
      let addonTotal :=
        fold_left (fun sum addon => sum + addonUnitPrice addon) addons 0 in
      addonTotal * inject_Z quantity
  end.

(** [item.price * item.quantity + calculateAddonPrice(item.addons, item.quantity)] *)
Definition linePrice (l : OrderLine.t) : Q :=
  OrderLine.price l * inject_Z (OrderLine.quantity l)
  + calculateAddonPrice (OrderLine.addons l) (OrderLine.quantity l).

(** [newOrderItems.forEach(item => totalPrice += ...)] starting from [0]. *)
Definition sumLinePrices (ls : list OrderLine.t) : Q :=
  fold_left (fun total l => total + linePrice l) ls 0.

(** [Math.round(totalPrice * 100) / 100]; [Math.round] is [floor(x + 1/2)]. *)
Definition round2 (x : Q) : Q :=
  inject_Z (Qfloor (x * 100 + (1 # 2))) / 100.

Local Close Scope Q_scope.

(** ** JavaScript [Map] as an insertion-ordered association list *)

Section JsMap.
Variables K V : Type.
Variable K_eq_dec : forall a b : K, {a = b} + {a <> b}.

(** [m.get(key)]; [m.has(key)] is whether this is [Some]. *)
Fixpoint mapGet (key : K) (m : list (K * V)) : option V :=
  match m with
  | [] => None
  | (k, v) :: m' => if K_eq_dec key k then Some v else mapGet key m'
  end.

(** [m.set(key, v)]: an existing key keeps its position. *)
Fixpoint mapSet (key : K) (v : V) (m : list (K * V)) : list (K * V) :=
  match m with
  | [] => [(key, v)]
  | (k, v') :: m' =>
      if K_eq_dec key k then (k, v) :: m' else (k, v') :: mapSet key v m'
  end.

(** [Array.from(m.values())] *)
Definition mapValues (m : list (K * V)) : list V := map snd m.

Definition mapKeys (m : list (K * V)) : list K := map fst m.
End JsMap.

(** ** Identity keys *)

(** [Array.prototype.sort()] without a comparator orders the elements by
    their [ToString] rendering; every object renders as below. *)
Definition addonSortString (a : Addon) : string :=
  match a with
  | AddonObj _ _ => "[object Object]"
  | AddonStr s => s
  end.

Fixpoint insertAddon (a : Addon) (l : list Addon) : list Addon :=
  match l with
  | [] => [a]
  | b :: l' =>
      if String.leb (addonSortString a) (addonSortString b)
      then a :: l
      else b :: insertAddon a l'
  end.

(** [addons.sort()]: stable, so equal renderings keep their order. *)
Definition sortAddons (l : list Addon) : list Addon :=
  fold_right insertAddon [] l.

(** What [JSON.stringify] shows of one addon; the number is printed from its
    value, hence the reduced fraction. *)
Inductive AddonJson :=
| JObj (name : string) (price : option Q)
| JStr (s : string).

Definition addonJson (a : Addon) : AddonJson :=
  match a with
  | AddonObj n p => JObj n (option_map Qred p)
  | AddonStr s => JStr s
  end.

(** [`${menuItemId}-${JSON.stringify((addons || []).sort())}`] *)
Definition Key : Type := ObjectId * list AddonJson.

Definition keyOf (menuItemId : ObjectId) (addons : list Addon) : Key :=
  (menuItemId, map addonJson (sortAddons addons)).

Definition Q_eq_dec (a b : Q) : {a = b} + {a <> b}.
Proof. decide equality; [apply Pos.eq_dec | apply Z.eq_dec]. Defined.

Definition AddonJson_eq_dec (a b : AddonJson) : {a = b} + {a <> b}.
Proof.
  decide equality; try apply string_dec.
  decide equality. apply Q_eq_dec.
Defined.

Definition Key_eq_dec (a b : Key) : {a = b} + {a <> b}.
Proof.
  decide equality; [apply (list_eq_dec AddonJson_eq_dec) | apply N.eq_dec].
Defined.

Arguments Key_eq_dec : simpl never.

Definition lineKey (l : OrderLine.t) : Key :=
  keyOf (OrderLine.menuItemId l) (OrderLine.addons l).

Definition reqKey (r : ReqItem.t) : Key :=
  keyOf (ReqItem.menuItemId r) (ReqItem.addons r).

(** The key is computed on [item.addons.sort()], which sorts the array of the
    visited object in place. *)
Definition sortLineAddons (l : OrderLine.t) : OrderLine.t :=
  OrderLine.setAddons (sortAddons (OrderLine.addons l)) l.

Definition sortReqAddons (r : ReqItem.t) : ReqItem.t :=
  ReqItem.mk (ReqItem.menuItemId r) (ReqItem.quantity r)
    (sortAddons (ReqItem.addons r)) (ReqItem.specialInstructions r).

(** ** The menu lookup of the update and create routes *)

(** [menuItemMap[id]] over the active menu items of the restaurant. *)
Definition menuItemMap (catalog : list MenuItem.t) (id : ObjectId)
  : option MenuItem.t :=
  find (fun m => N.eqb (MenuItem._id m) id) catalog.

(** ** Staff policy ("smart reconciliation") *)

Module Incoming.
Record t := mk { qty : Z; data : ReqItem.t }.
End Incoming.

(** Step 1: [items.forEach] filling [incomingMap]. *)
Definition incomingStep (m : list (Key * Incoming.t)) (item : ReqItem.t)
  : list (Key * Incoming.t) :=
  let item := sortReqAddons item in
  let key := reqKey item in
  match mapGet Key_eq_dec key m with
  | Some inc =>
      mapSet Key_eq_dec key
        (Incoming.mk (Incoming.qty inc + ReqItem.quantity item)
                     (Incoming.data inc)) m
  | None =>
      mapSet Key_eq_dec key (Incoming.mk (ReqItem.quantity item) item) m
  end.

Definition buildIncomingMap (items : list ReqItem.t)
  : list (Key * Incoming.t) :=
  fold_left incomingStep items [].

(** Step 2: [oldItems.forEach] filling [existingMap]. *)
Definition existingStep (m : list (Key * list OrderLine.t))
  (item : OrderLine.t) : list (Key * list OrderLine.t) :=
  let item := sortLineAddons item in
  let key := lineKey item in
  match mapGet Key_eq_dec key m with
  | Some ls => mapSet Key_eq_dec key (ls ++ [item]) m
  | None => mapSet Key_eq_dec key [item] m
  end.

Definition buildExistingMap (oldItems : list OrderLine.t)
  : list (Key * list OrderLine.t) :=
  fold_left existingStep oldItems [].

(** [existingList.reduce((sum, i) => sum + i.quantity, 0)] *)
Definition totalQuantity (ls : list OrderLine.t) : Z :=
  fold_left (fun sum i => sum + OrderLine.quantity i) ls 0.

(** [statusPriority[status] || 0] *)
Definition statusPriority (s : ItemStatus) : Z :=
  match s with
  | IPending => 0 | IPreparing => 1 | IReady => 2 | IServed => 3
  | ICancelled => 4
  end.

Fixpoint insertByPriority (a : OrderLine.t) (l : list OrderLine.t)
  : list OrderLine.t :=
  match l with
  | [] => [a]
  | b :: l' =>
      if statusPriority (OrderLine.status a)
         <=? statusPriority (OrderLine.status b)
      then a :: l
      else b :: insertByPriority a l'
  end.

(** [[...existingList].sort((a, b) => priority(a) - priority(b))], stable. *)
Definition sortByPriority (l : list OrderLine.t) : list OrderLine.t :=
  fold_right insertByPriority [] l.

(** The [for (const item of sortedExisting)] loop of case C; the result is
    what the loop pushes on [newOrderItems]. *)
Fixpoint removeFromExisting (sortedExisting : list OrderLine.t)
  (amountToRemove : Z) : list OrderLine.t :=
  match sortedExisting with
  | [] => []
  | item :: rest =>
      if amountToRemove <=? 0 then
        item :: removeFromExisting rest amountToRemove
      else if amountToRemove <? OrderLine.quantity item then
        OrderLine.setQuantity (OrderLine.quantity item - amountToRemove) item
        :: removeFromExisting rest 0
      else
        OrderLine.markRemoved item
        :: removeFromExisting rest (amountToRemove - OrderLine.quantity item)
  end.

(** The body of [incomingMap.forEach((incoming, key) => ...)] once the menu
    item is at hand: the lines pushed on [newOrderItems] and the events pushed
    on [currentUpdateHistory]. *)
Definition staffKey (changedBy : Actor) (menuItem : MenuItem.t)
  (incoming : Incoming.t) (existingList : list OrderLine.t)
  : list OrderLine.t * list ChangeEvent.t :=
  let desiredQty := Incoming.qty incoming in
  let existingTotalQty := totalQuantity existingList in
  if desiredQty =? existingTotalQty then
    (existingList, [])
  else if desiredQty >? existingTotalQty then
    let diff := desiredQty - existingTotalQty in
    (existingList ++
       [OrderLine.mk None (MenuItem._id menuItem) (MenuItem.name menuItem)
          (MenuItem.price menuItem) diff
          (ReqItem.addons (Incoming.data incoming))
          (ReqItem.specialInstructions (Incoming.data incoming))
          true false IPending],
     if existingTotalQty =? 0 then
       [ChangeEvent.mk item_added (MenuItem.name menuItem)
          None (Some desiredQty) changedBy]
     else
       [ChangeEvent.mk quantity_increased (MenuItem.name menuItem)
          (Some existingTotalQty) (Some desiredQty) changedBy])
  else
    let amountToRemove := existingTotalQty - desiredQty in
    (removeFromExisting (sortByPriority existingList) amountToRemove,
     [ChangeEvent.mk quantity_decreased (MenuItem.name menuItem)
        (Some existingTotalQty) (Some desiredQty) changedBy]).

(** [existingMap.get(key) || []] *)
Definition existingFor (existingMap : list (Key * list OrderLine.t))
  (key : Key) : list OrderLine.t :=
  match mapGet Key_eq_dec key existingMap with
  | Some ls => ls
  | None => []
  end.

(** One iteration of [incomingMap.forEach]; [None] is the [TypeError] of
    reading a property of an [undefined] menu item. *)
Definition staffStep (catalog : list MenuItem.t) (changedBy : Actor)
  (existingMap : list (Key * list OrderLine.t))
  (acc : option (list OrderLine.t * list ChangeEvent.t))
  (entry : Key * Incoming.t)
  : option (list OrderLine.t * list ChangeEvent.t) :=
  match acc with
  | None => None
  | Some (newOrderItems, currentUpdateHistory) =>
      let (key, incoming) := entry in
      match menuItemMap catalog
              (ReqItem.menuItemId (Incoming.data incoming)) with
      | None => None
      | Some menuItem =>
          let (ls, evs) :=
            staffKey changedBy menuItem incoming
              (existingFor existingMap key) in
          Some (newOrderItems ++ ls, currentUpdateHistory ++ evs)
      end
  end.

(** The staff branch up to the price total: [newOrderItems] and
    [currentUpdateHistory].  Step 4 of the source only logs the keys that are
    in [existingMap] and not in [incomingMap]; it pushes nothing. *)
Definition staffReconcile (catalog : list MenuItem.t) (changedBy : Actor)
  (oldItems : list OrderLine.t) (items : list ReqItem.t)
  : option (list OrderLine.t * list ChangeEvent.t) :=
  let incomingMap := buildIncomingMap items in
  let existingMap := buildExistingMap oldItems in
  fold_left (staffStep catalog changedBy existingMap) incomingMap
    (Some ([], [])).

(** ** Customer policy *)

(** [oldItems.forEach(item => existingItemsMap.set(key, item))]: the last
    line of a key wins. *)
Definition existingItemsStep (m : list (Key * OrderLine.t))
  (item : OrderLine.t) : list (Key * OrderLine.t) :=
  let item := sortLineAddons item in
  mapSet Key_eq_dec (lineKey item) item m.

Definition buildExistingItemsMap (oldItems : list OrderLine.t)
  : list (Key * OrderLine.t) :=
  fold_left existingItemsStep oldItems [].

(** The object stored in [consolidatedMap] for a key seen for the first
    time.  A line without [status] gets the schema default [pending]. *)
Definition consolidatedLine (menuItem : MenuItem.t) (item : ReqItem.t)
  (existingItem : option OrderLine.t) : OrderLine.t :=
  OrderLine.mk
    (match existingItem with Some e => OrderLine._id e | None => None end)
    (MenuItem._id menuItem) (MenuItem.name menuItem) (MenuItem.price menuItem)
    (ReqItem.quantity item) (ReqItem.addons item)
    (ReqItem.specialInstructions item) false false
    (match existingItem with
     | Some e => OrderLine.status e
     | None => IPending
     end).

(** One iteration of [items.forEach] filling [consolidatedMap]. *)
Definition consolidateStep (catalog : list MenuItem.t)
  (existingItemsMap : list (Key * OrderLine.t))
  (acc : option (list (Key * OrderLine.t))) (item : ReqItem.t)
  : option (list (Key * OrderLine.t)) :=
  match acc with
  | None => None
  | Some consolidatedMap =>
      let item := sortReqAddons item in
      let key := reqKey item in
      match mapGet Key_eq_dec key consolidatedMap with
      | Some existing =>
          Some (mapSet Key_eq_dec key
                  (OrderLine.setQuantity
                     (OrderLine.quantity existing + ReqItem.quantity item)
                     existing)
                  consolidatedMap)
      | None =>
          match menuItemMap catalog (ReqItem.menuItemId item) with
          | None => None
          | Some menuItem =>
              Some (mapSet Key_eq_dec key
                      (consolidatedLine menuItem item
                         (mapGet Key_eq_dec key existingItemsMap))
                      consolidatedMap)
          end
      end
  end.

(** [ls.find(l => same menuItemId and same sorted addon JSON)] *)
Definition findByKey (key : Key) (ls : list OrderLine.t)
  : option OrderLine.t :=
  find (fun l => if Key_eq_dec (lineKey l) key then true else false) ls.

(** One iteration of the change-log loop over [newOrderItems]. *)
Definition customerLogStep (changedBy : Actor) (oldItems : list OrderLine.t)
  (acc : list OrderLine.t * list ChangeEvent.t) (newItem : OrderLine.t)
  : list OrderLine.t * list ChangeEvent.t :=
  let (done, history) := acc in
  match findByKey (lineKey newItem) oldItems with
  | None =>
      (done ++ [OrderLine.setIsNew true newItem],
       history ++
         [ChangeEvent.mk item_added (OrderLine.name newItem) None
            (Some (OrderLine.quantity newItem)) changedBy])
  | Some oldItem =>
      if OrderLine.quantity newItem >? OrderLine.quantity oldItem then
        (done ++ [OrderLine.setIsNew true newItem],
         history ++
           [ChangeEvent.mk quantity_increased (OrderLine.name newItem)
              (Some (OrderLine.quantity oldItem))
              (Some (OrderLine.quantity newItem)) changedBy])
      else if OrderLine.quantity newItem <? OrderLine.quantity oldItem then
        (done ++ [newItem],
         history ++
           [ChangeEvent.mk quantity_decreased (OrderLine.name newItem)
              (Some (OrderLine.quantity oldItem))
              (Some (OrderLine.quantity newItem)) changedBy])
      else
        (done ++ [newItem], history)
  end.

(** The line pushed for an old line whose key is no longer submitted. *)
Definition removedCopy (oldItem : OrderLine.t) : OrderLine.t :=
  OrderLine.mk None (OrderLine.menuItemId oldItem) (OrderLine.name oldItem)
    (OrderLine.price oldItem) (OrderLine.quantity oldItem)
    (OrderLine.addons oldItem) (OrderLine.specialInstructions oldItem)
    false true IPending.

(** One iteration of the removal loop over [oldItems]; the search runs over
    [newOrderItems] as it stands, copies pushed earlier included. *)
Definition customerRemovedStep (changedBy : Actor)
  (acc : list OrderLine.t * list ChangeEvent.t) (oldItem : OrderLine.t)
  : list OrderLine.t * list ChangeEvent.t :=
  let (newOrderItems, history) := acc in
  match findByKey (lineKey oldItem) newOrderItems with
  | Some _ => acc
  | None =>
      (newOrderItems ++ [removedCopy oldItem],
       history ++
         [ChangeEvent.mk item_removed (OrderLine.name oldItem)
            (Some (OrderLine.quantity oldItem)) None changedBy])
  end.

(** The customer branch: [newOrderItems], [currentUpdateHistory] and the
    price total, which is summed before the removed copies are pushed. *)
Definition customerReconcile (catalog : list MenuItem.t) (changedBy : Actor)
  (oldItems : list OrderLine.t) (items : list ReqItem.t)
  : option (list OrderLine.t * list ChangeEvent.t * Q) :=
  let existingItemsMap := buildExistingItemsMap oldItems in
  let oldItems := map sortLineAddons oldItems in
  match fold_left (consolidateStep catalog existingItemsMap) items (Some [])
  with
  | None => None
  | Some consolidatedMap =>
      let newOrderItems := mapValues consolidatedMap in
      let totalPrice := sumLinePrices newOrderItems in
      let logged :=
        fold_left (customerLogStep changedBy oldItems) newOrderItems ([], [])
      in
      let (newOrderItems, history) :=
        fold_left (customerRemovedStep changedBy) oldItems logged in
      Some (newOrderItems, history, totalPrice)
  end.

(** The staff branch with its price total, summed over all of
    [newOrderItems]. *)
Definition staffReconcileTotal (catalog : list MenuItem.t)
  (changedBy : Actor) (oldItems : list OrderLine.t) (items : list ReqItem.t)
  : option (list OrderLine.t * list ChangeEvent.t * Q) :=
  match staffReconcile catalog changedBy oldItems items with
  | None => None
  | Some (newOrderItems, history) =>
      Some (newOrderItems, history, sumLinePrices newOrderItems)
  end.

(** ** [PATCH /:orderId/update] *)

Module UpdateReq.
Record t := mk {
  items : list ReqItem.t;
  customerName : option string;
  specialInstructions : option string }.
End UpdateReq.

Definition isWhiteSpace (c : ascii) : bool :=
  let n := nat_of_ascii c in
  ((9 <=? n) && (n <=? 13))%nat || (n =? 32)%nat.

Fixpoint trimStart (s : string) : string :=
  match s with
  | EmptyString => EmptyString
  | String c s' => if isWhiteSpace c then trimStart s' else s
  end.

Fixpoint reverseString (s acc : string) : string :=
  match s with
  | EmptyString => acc
  | String c s' => reverseString s' (String c acc)
  end.

(** [s.trim()] on ASCII text. *)
Definition trim (s : string) : string :=
  reverseString (trimStart (reverseString (trimStart s) EmptyString)) EmptyString.

(** [value?.trim() || fallback] *)
Definition trimmedOr (value : option string) (fallback : string) : string :=
  match value with
  | None => fallback
  | Some s => if String.eqb (trim s) EmptyString then fallback else trim s
  end.

Definition isTerminal (s : OrderStatus) : bool :=
  match s with Paid | Cancelled => true | _ => false end.

(** [['item_added', 'quantity_increased'].includes(h.changeType)] *)
Definition isNewWork (h : ChangeEvent.t) : bool :=
  match ChangeEvent.changeType h with
  | item_added | quantity_increased => true
  | _ => false
  end.

(** [['served', 'ready', 'preparing'].includes(order.status)] *)
Definition isReopenable (s : OrderStatus) : bool :=
  match s with Served | Ready | Preparing => true | _ => false end.

(** [`update-${n}`] *)
Definition updateBatchId (n : Z) : string :=
  ("update-" ++ NilZero.string_of_int (Z.to_int n))%string.

(** [order.originalItems = order.items.map(item =>
      ({...item.toObject(), isNew: false, isRemoved: false}))] *)
Definition snapshotLine (l : OrderLine.t) : OrderLine.t :=
  OrderLine.mk (OrderLine._id l) (OrderLine.menuItemId l) (OrderLine.name l)
    (OrderLine.price l) (OrderLine.quantity l) (OrderLine.addons l)
    (OrderLine.specialInstructions l) false false (OrderLine.status l).

(** The assignments between the reconciliation and [order.save()]. *)
Definition applyUpdate (req : UpdateReq.t) (order : Order.t)
  (newOrderItems : list OrderLine.t) (history : list ChangeEvent.t)
  (totalPrice : Q) : Order.t :=
  let originalItems :=
    if Order.isUpdated order then Order.originalItems order
    else map snapshotLine (Order.items order) in
  let updateCount := Order.updateCount order + 1 in
  let customerName :=
    trimmedOr (UpdateReq.customerName req) (Order.customerName order) in
  let specialInstructions :=
    trimmedOr (UpdateReq.specialInstructions req)
      (Order.specialInstructions order) in
  match history with
  | [] =>
      Order.mk newOrderItems (round2 totalPrice) customerName
        specialInstructions (Order.status order) (Order.paymentMethod order)
        true updateCount originalItems (Order.updateHistory order)
        (Order.kots order) (Order.batchStatus order)
        (Order.hasUnseenChanges order)
  | _ =>
      let hasNewWork := existsb isNewWork history in
      let status :=
        if hasNewWork && isReopenable (Order.status order) then Pending
        else Order.status order in
      let batchStatus :=
        if updateCount =? 0
        then mapSet string_dec "original" status (Order.batchStatus order)
        else Order.batchStatus order in
      let batchStatus :=
        mapSet string_dec (updateBatchId updateCount) status batchStatus in
      Order.mk newOrderItems (round2 totalPrice) customerName
        specialInstructions status (Order.paymentMethod order)
        true updateCount originalItems
        (Order.updateHistory order ++ history)
        (Order.kots order) batchStatus true
  end.

(** The handler, from the loaded order on.  [isStaffEdit] is whether the
    request carried a verifiable bearer token; [catalog] is the active menu of
    the order's restaurant.  When [order.save()] rejects, the [catch] answers
    500 and the stored document is the one that was loaded. *)
Definition updateOrder {M : Mongoose} (isStaffEdit : bool)
  (catalog : list MenuItem.t) (req : UpdateReq.t) (order : Order.t)
  : Outcome Order.t :=
  let items := UpdateReq.items req in
  match items with
  | [] => reject 400 "Order must contain at least one item" order
  | _ =>
      if isTerminal (Order.status order) then
        reject 400
          ("Order cannot be updated. This order has been "
             ++ orderStatusName (Order.status order) ++ ".")%string order
      else if existsb (fun item => ReqItem.quantity item <? 1) items then
        reject 400 "Each item must have a valid quantity (minimum 1)" order
      else if existsb
                (fun item =>
                   match menuItemMap catalog (ReqItem.menuItemId item) with
                   | Some _ => false
                   | None => true
                   end) items then
        reject 404 "One or more menu items not found or inactive" order
      else
        let oldItems :=
          filter (fun item => negb (OrderLine.isRemoved item))
            (Order.items order) in
        let changedBy := if isStaffEdit then staff else customer in
        match (if isStaffEdit
               then staffReconcileTotal catalog changedBy oldItems items
               else customerReconcile catalog changedBy oldItems items) with
        | None => reject 500 "Server error while updating order" order
        | Some (newOrderItems, history, totalPrice) =>
            let order' :=
              applyUpdate req order newOrderItems history totalPrice in
            if saves order' then mkOutcome (Success 200 order') order'
            else reject 500 "Server error while updating order" order
        end
  end.

(** ** [POST /table/:tableId/order] *)

(** [items.map(item => ({menuItemId, name, price, quantity, addons,
    specialInstructions}))]; the flags and the status take the schema
    defaults. *)
Definition createLine (menuItem : MenuItem.t) (item : ReqItem.t)
  : OrderLine.t :=
  OrderLine.mk None (MenuItem._id menuItem) (MenuItem.name menuItem)
    (MenuItem.price menuItem) (ReqItem.quantity item) (ReqItem.addons item)
    (ReqItem.specialInstructions item) false false IPending.

(** One iteration of the [items.map] callback, which also adds to
    [totalPrice]. *)
Definition createStep (catalog : list MenuItem.t)
  (acc : option (list OrderLine.t * Q)) (item : ReqItem.t)
  : option (list OrderLine.t * Q) :=
  match acc with
  | None => None
  | Some (orderItems, totalPrice) =>
      match menuItemMap catalog (ReqItem.menuItemId item) with
      | None => None
      | Some menuItem =>
          let itemBasePrice :=
            (MenuItem.price menuItem * inject_Z (ReqItem.quantity item))%Q in
          let addonPrice :=
            calculateAddonPrice (ReqItem.addons item) (ReqItem.quantity item)
          in
          let itemTotal := (itemBasePrice + addonPrice)%Q in
          Some (orderItems ++ [createLine menuItem item],
                (totalPrice + itemTotal)%Q)
      end
  end.

(** The handler from the menu lookup on; the reply carries the new order. *)
Definition placeOrder {M : Mongoose} (catalog : list MenuItem.t)
  (customerName : string) (specialInstructions : string)
  (items : list ReqItem.t) : Reply Order.t :=
  match items with
  | [] => Failure 400 "Order must contain at least one item" false
  | _ =>
      if existsb (fun item => ReqItem.quantity item <? 1) items then
        Failure 400 "Each item must have a valid quantity (minimum 1)" false
      else if existsb
                (fun item =>
                   match menuItemMap catalog (ReqItem.menuItemId item) with
                   | Some _ => false
                   | None => true
                   end) items then
        Failure 404 "One or more menu items not found or inactive" false
      else
        match fold_left (createStep catalog) items (Some ([], 0%Q)) with
        | None => Failure 500 "Server error while creating order" false
        | Some (orderItems, totalPrice) =>
            let order :=
              Order.mk orderItems (round2 totalPrice)
                (trimmedOr (Some customerName) "Guest")
                (trim specialInstructions) Pending None false 0 [] [] []
                [("original", Pending)] false in
            if saves order then Success 201 order
            else Failure 500 "Server error while creating order" false
        end
  end.

(** ** [POST /:orderId/print-kot] *)

(** [printedQtyByItemId]: one [get]/[set] per ticket item. *)
Definition printedStep (m : list (ObjectId * Z)) (kotItem : KotItem.t)
  : list (ObjectId * Z) :=
  let id := KotItem.itemId kotItem in
  let qty :=
    match mapGet N.eq_dec id m with Some q => q | None => 0 end in
  mapSet N.eq_dec id (qty + KotItem.quantity kotItem) m.

Definition printedQtyByItemId (kots : list Kot.t) : list (ObjectId * Z) :=
  fold_left (fun m kot => fold_left printedStep (Kot.items kot) m) kots [].

(** [printedQtyByItemId.get(id) || 0] *)
Definition printedQty (printed : list (ObjectId * Z)) (id : ObjectId) : Z :=
  match mapGet N.eq_dec id printed with Some q => q | None => 0 end.

(** One iteration of [order.items.forEach]; [None] is the [TypeError] of
    [item._id.toString()] on a line without id. *)
Definition kotStep (printed : list (ObjectId * Z))
  (acc : option (list KotItem.t)) (item : OrderLine.t)
  : option (list KotItem.t) :=
  match acc with
  | None => None
  | Some itemsToPrint =>
      if OrderLine.isRemoved item then Some itemsToPrint
      else
        match OrderLine._id item with
        | None => None
        | Some id =>
            let remainingQty :=
              OrderLine.quantity item - printedQty printed id in
            if remainingQty >? 0 then
              Some (itemsToPrint ++
                      [KotItem.mk id (OrderLine.name item) remainingQty
                         (OrderLine.addons item)
                         (Some (OrderLine.specialInstructions item))])
            else Some itemsToPrint
        end
  end.

Definition itemsToPrint (order : Order.t) : option (list KotItem.t) :=
  fold_left (kotStep (printedQtyByItemId (Order.kots order)))
    (Order.items order) (Some []).

(** What [order.kots.push(newKot)] stores of the plain object: the paths of
    the [kots] sub-schema. *)
Definition storedKotItem (kotItem : KotItem.t) : KotItem.t :=
  KotItem.mk (KotItem.itemId kotItem) (KotItem.name kotItem)
    (KotItem.quantity kotItem) (KotItem.addons kotItem) None.

Definition storedKot (kot : Kot.t) : Kot.t :=
  Kot.mk (Kot.kotNumber kot) (map storedKotItem (Kot.items kot))
    (Kot.printedBy kot).

(** The reply carries the plain object [newKot]; the ledger keeps what the
    sub-schema stores of it. *)
Definition generateTicket (order : Order.t) : Outcome Kot.t :=
  match itemsToPrint order with
  | None => reject 500 "Error generating KOT" order
  | Some [] => mkOutcome (Failure 400 "No new items to print" true) order
  | Some toPrint =>
      let nextKotNumber := Z.of_nat (List.length (Order.kots order)) + 1 in
      let newKot := Kot.mk nextKotNumber toPrint "Staff" in
      mkOutcome (Success 200 newKot)
        (Order.setKots (Order.kots order ++ [storedKot newKot]) order)
  end.

(** ** [PATCH /:orderId/status] *)

(** The [batchIds] property of the body. *)
Inductive BatchIds :=
| BatchIdsAbsent
| BatchIdsArray (ids : list string)
| BatchIdsString (id : string).

(** [Array.isArray(batchIds) ? batchIds.length > 0 : !!batchIds] *)
Definition hasBatchSelection (b : BatchIds) : bool :=
  match b with
  | BatchIdsAbsent => false
  | BatchIdsArray ids => match ids with [] => false | _ => true end
  | BatchIdsString id => negb (String.eqb id EmptyString)
  end.

Definition batchIdArray (b : BatchIds) : list string :=
  match b with
  | BatchIdsAbsent => []
  | BatchIdsArray ids => ids
  | BatchIdsString id => [id]
  end.

(** [new Set(order.batchStatus.values()).size === 1] *)
Definition allOneStatus (m : list (string * OrderStatus)) : bool :=
  match mapValues m with
  | [] => false
  | s :: rest => forallb (orderStatus_eqb s) rest
  end.

(** One iteration of [batchIdArray.forEach]; [None] is the error that
    [order.batchStatus.set] throws for a key the map does not accept. *)
Definition batchStep {M : Mongoose} (status : OrderStatus)
  (acc : option (list (string * OrderStatus))) (batchId : string)
  : option (list (string * OrderStatus)) :=
  match acc with
  | None => None
  | Some m =>
      if negb (String.eqb (trim batchId) EmptyString) then
        if validKey batchId then Some (mapSet string_dec batchId status m)
        else None
      else Some m
  end.

Definition setOrderStatus {M : Mongoose} (status : string)
  (batchIds : BatchIds) (order : Order.t) : Outcome Order.t :=
  match parseOrderStatus status with
  | None =>
      reject 400
        "Invalid status. Valid values: pending, preparing, ready, served, paid, cancelled"
        order
  | Some status =>
      if hasBatchSelection batchIds then
        match fold_left (batchStep status) (batchIdArray batchIds)
                (Some (Order.batchStatus order)) with
        | None =>
            reject 500 "Server error while updating order status" order
        | Some batchStatus =>
            let order1 := Order.setBatchStatus batchStatus order in
            let order' :=
              if allOneStatus batchStatus then Order.setStatus status order1
              else order1 in
            mkOutcome (Success 200 order') order'
        end
      else
        let order' :=
          Order.setBatchStatus [("all", status)]
            (Order.setStatus status order) in
        mkOutcome (Success 200 order') order'
  end.

(** ** [PATCH /:orderId/payment] and [DELETE /:orderId] *)

Definition recordPayment (method : PaymentMethod) (order : Order.t)
  : Outcome Order.t :=
  if orderStatus_eqb (Order.status order) Served then
    let order' :=
      Order.mk (Order.items order) (Order.totalPrice order)
        (Order.customerName order) (Order.specialInstructions order)
        Paid (Some method) (Order.isUpdated order) (Order.updateCount order)
        (Order.originalItems order) (Order.updateHistory order)
        (Order.kots order) (Order.batchStatus order)
        (Order.hasUnseenChanges order) in
    mkOutcome (Success 200 order') order'
  else
    reject 400
      ("Cannot mark order as paid. Order must be in 'served' status. Current status: "
         ++ orderStatusName (Order.status order))%string order.

Definition cancelOrder (order : Order.t) : Outcome Order.t :=
  if orderStatus_eqb (Order.status order) Pending then
    let order' := Order.setStatus Cancelled order in
    mkOutcome (Success 200 order') order'
  else
    reject 400
      ("Cannot cancel order with status '"
         ++ orderStatusName (Order.status order)
         ++ "'. Only pending orders can be cancelled.")%string order.

(** ** [PATCH /:orderId/items/:itemId/status] *)

(** [order.items.id(itemId)] followed by [item.status = status]: the first
    line with that id is the one updated. *)
Fixpoint setLineStatus (itemId : ObjectId) (status : ItemStatus)
  (ls : list OrderLine.t) : option (list OrderLine.t) :=
  match ls with
  | [] => None
  | l :: rest =>
      match OrderLine._id l with
      | Some id =>
          if N.eqb id itemId then Some (OrderLine.setStatus status l :: rest)
          else option_map (cons l) (setLineStatus itemId status rest)
      | None => option_map (cons l) (setLineStatus itemId status rest)
      end
  end.

(** The derivation of the order status from the item statuses. *)
Definition deriveStatus (status : ItemStatus) (ls : list OrderLine.t)
  (current : OrderStatus) : OrderStatus :=
  let activeItems :=
    filter (fun i => negb (itemStatus_eqb (OrderLine.status i) ICancelled)
                     && negb (OrderLine.isRemoved i)) ls in
  match activeItems with
  | [] => current
  | _ =>
      if forallb (fun i => itemStatus_eqb (OrderLine.status i) status)
           activeItems
      then orderStatusOfItem status
      else if itemStatus_eqb status IPreparing
              && orderStatus_eqb current Pending
      then Preparing
      else current
  end.

Definition setItemStatus (itemId : ObjectId) (status : string)
  (order : Order.t) : Outcome Order.t :=
  match parseItemStatus status with
  | None =>
      reject 400
        "Invalid status. Valid values: pending, preparing, ready, served, cancelled"
        order
  | Some status =>
      match setLineStatus itemId status (Order.items order) with
      | None => reject 404 "Item not found in order" order
      | Some ls =>
          let order' :=
            Order.setStatus (deriveStatus status ls (Order.status order))
              (Order.setItems ls order) in
          mkOutcome (Success 200 order') order'
      end
  end.

(** ** [PATCH /:orderId/items/bulk-status] *)

Module BulkResult.
Record t := mk {
  data : Order.t;
  updatedCount : Z;
  notFoundIds : list ObjectId }.
End BulkResult.

(** One iteration of [itemIds.forEach]: the lines, [updatedCount] and
    [notFoundIds] as they stand. *)
Definition bulkStep (status : ItemStatus)
  (acc : list OrderLine.t * Z * list ObjectId) (itemId : ObjectId)
  : list OrderLine.t * Z * list ObjectId :=
  let '(ls, updatedCount, notFoundIds) := acc in
  match setLineStatus itemId status ls with
  | Some ls' => (ls', updatedCount + 1, notFoundIds)
  | None => (ls, updatedCount, notFoundIds ++ [itemId])
  end.

Definition setItemsStatusBulk (itemIds : list ObjectId) (status : string)
  (order : Order.t) : Outcome BulkResult.t :=
  match itemIds with
  | [] => reject 400 "No items provided" order
  | _ =>
      match parseItemStatus status with
      | None => reject 400 "Invalid status" order
      | Some status =>
          let '(ls, updatedCount, notFoundIds) :=
            fold_left (bulkStep status) itemIds (Order.items order, 0, []) in
          let order' :=
            if updatedCount >? 0 then
              Order.setStatus (deriveStatus status ls (Order.status order))
                (Order.setItems ls order)
            else Order.setItems ls order in
          mkOutcome
            (Success 200 (BulkResult.mk order' updatedCount notFoundIds))
            order'
      end
  end.

(** ** [PATCH /:orderId/mark-seen] *)

(** [order.items.map(item => ({...item.toObject(), isNew: false,
    isRemoved: item.isRemoved}))] and [order.hasUnseenChanges = false]. *)
Definition markSeen (order : Order.t) : Outcome Order.t :=
  let order' :=
    Order.mk (map (OrderLine.setIsNew false) (Order.items order))
      (Order.totalPrice order) (Order.customerName order)
      (Order.specialInstructions order) (Order.status order)
      (Order.paymentMethod order) (Order.isUpdated order)
      (Order.updateCount order) (Order.originalItems order)
      (Order.updateHistory order) (Order.kots order)
      (Order.batchStatus order) false in
  mkOutcome (Success 200 order') order'.

(** ** The kitchen routes [PATCH /orders/:orderId/start-preparing] and
    [PATCH /orders/:orderId/mark-ready] *)

Definition startPreparing (order : Order.t) : Outcome Order.t :=
  if orderStatus_eqb (Order.status order) Pending then
    let order' := Order.setStatus Preparing order in
    mkOutcome (Success 200 order') order'
  else
    reject 400
      ("Cannot start preparing. Order is "
         ++ orderStatusName (Order.status order))%string order.

Definition markReady (order : Order.t) : Outcome Order.t :=
  if orderStatus_eqb (Order.status order) Preparing then
    let order' := Order.setStatus Ready order in
    mkOutcome (Success 200 order') order'
  else
    reject 400
      ("Cannot mark as ready. Order is "
         ++ orderStatusName (Order.status order))%string order.

(** ** The [itemCount] of the socket payloads *)

(** [order.items.filter(item => !item.isRemoved)
      .reduce((sum, item) => sum + item.quantity, 0)] of [order-updated]. *)
Definition updatedItemCount (order : Order.t) : Z :=
  fold_left (fun sum item => sum + OrderLine.quantity item)
    (filter (fun item => negb (OrderLine.isRemoved item)) (Order.items order))
    0.

(** [order.items.reduce((sum, item) => sum + item.quantity, 0)] of
    [new-order]. *)
Definition newOrderItemCount (order : Order.t) : Z :=
  fold_left (fun sum item => sum + OrderLine.quantity item)
    (Order.items order) 0.

(** ** The schema of [models/Order.js] *)

(** [orderItemSchema]: [name] is required and trimmed, [price] has
    [min: 0.01], [quantity] has [min: 1], [specialInstructions] is trimmed and
    has [maxlength: 200]. *)
Definition lineAccepted (l : OrderLine.t) : bool :=
  negb (String.eqb (trim (OrderLine.name l)) EmptyString)
  && Qle_bool (1 # 100) (OrderLine.price l)
  && (1 <=? OrderLine.quantity l)
  && Nat.leb (String.length (trim (OrderLine.specialInstructions l))) 200.

(** [updateHistorySchema]: [itemName] is required. *)
Definition eventAccepted (h : ChangeEvent.t) : bool :=
  negb (String.eqb (ChangeEvent.itemName h) EmptyString).

(** The [kots] sub-schema: the [name] of a ticket item is required. *)
Definition kotAccepted (kot : Kot.t) : bool :=
  forallb
    (fun kotItem => negb (String.eqb (KotItem.name kotItem) EmptyString))
    (Kot.items kot).

(** The keys a Mongoose [Map] accepts: no leading [$] and no dot. *)
Definition keyAccepted (key : string) : bool :=
  negb (String.prefix "$" key)
  && match String.index 0 "." key with
     | Some _ => false
     | None => true
     end.

(** [orderSchema], for the fields of the model: [items] is not empty and
    every line passes [orderItemSchema], [totalPrice] has [min: 0.01],
    [customerName] is trimmed with [maxlength: 100], [specialInstructions]
    trimmed with [maxlength: 500], [updateCount] has [min: 0]. *)
Definition schemaAccepts (o : Order.t) : bool :=
  match Order.items o with [] => false | _ => true end
  && forallb lineAccepted (Order.items o)
  && Qle_bool (1 # 100) (Order.totalPrice o)
  && Nat.leb (String.length (trim (Order.customerName o))) 100
  && Nat.leb (String.length (trim (Order.specialInstructions o))) 500
  && (0 <=? Order.updateCount o)
  && forallb lineAccepted (Order.originalItems o)
  && forallb eventAccepted (Order.updateHistory o)
  && forallb kotAccepted (Order.kots o)
  && forallb (fun entry => keyAccepted (fst entry)) (Order.batchStatus o).

#[export] Instance orderSchema : Mongoose :=
  {| saves := schemaAccepts; validKey := keyAccepted |}.

(** ** Vocabulary of the specification *)

Definition hasKey (k : Key) (l : OrderLine.t) : bool :=
  if Key_eq_dec (lineKey l) k then true else false.

(** The lines of a list that carry a given identity key. *)
Definition linesWithKey (k : Key) (ls : list OrderLine.t)
  : list OrderLine.t :=
  filter (hasKey k) ls.

(** [items.filter(item => !item.isRemoved)] *)
Definition nonRemoved (ls : list OrderLine.t) : list OrderLine.t :=
  filter (fun item => negb (OrderLine.isRemoved item)) ls.

(** "the sum over the pre-edit non-removed lines with that key" *)
Definition existingTotalQty (k : Key) (ls : list OrderLine.t) : Z :=
  totalQuantity (linesWithKey k (nonRemoved ls)).

(** "the sum over the submitted items with that key" *)
Definition desiredQty (k : Key) (items : list ReqItem.t) : Z :=
  fold_right
    (fun item acc =>
       if Key_eq_dec (reqKey item) k then ReqItem.quantity item + acc
       else acc)
    0 items.

Definition submitted (k : Key) (items : list ReqItem.t) : Prop :=
  exists item, In item items /\ reqKey item = k.

(** ** The two policies, key by key *)

(** The keys of the submission, in the order [incomingMap] iterates. *)
Definition submittedKeys (items : list ReqItem.t) : list Key :=
  mapKeys (buildIncomingMap items).

(** What the [incomingMap.forEach] iteration of key [k] pushes on
    [newOrderItems] and on [currentUpdateHistory]. *)
Definition staffKeyOutput (catalog : list MenuItem.t) (changedBy : Actor)
  (oldItems : list OrderLine.t) (items : list ReqItem.t) (k : Key)
  : option (list OrderLine.t * list ChangeEvent.t) :=
  match mapGet Key_eq_dec k (buildIncomingMap items) with
  | None => None
  | Some incoming =>
      match menuItemMap catalog
              (ReqItem.menuItemId (Incoming.data incoming)) with
      | None => None
      | Some menuItem =>
          Some (staffKey changedBy menuItem incoming
                  (existingFor (buildExistingMap oldItems) k))
      end
  end.

Definition staffKeyLines (catalog : list MenuItem.t) (changedBy : Actor)
  (oldItems : list OrderLine.t) (items : list ReqItem.t) (k : Key)
  : list OrderLine.t :=
  match staffKeyOutput catalog changedBy oldItems items k with
  | Some (ls, _) => ls
  | None => []
  end.

Definition staffKeyEvents (catalog : list MenuItem.t) (changedBy : Actor)
  (oldItems : list OrderLine.t) (items : list ReqItem.t) (k : Key)
  : list ChangeEvent.t :=
  match staffKeyOutput catalog changedBy oldItems items k with
  | Some (_, evs) => evs
  | None => []
  end.

(** The last line of a key in a list: the one [existingItemsMap] keeps. *)
Definition lastWithKey (k : Key) (ls : list OrderLine.t)
  : option OrderLine.t :=
  fold_left (fun acc l => if hasKey k l then Some l else acc) ls None.

(** The line [consolidatedMap] holds for key [k] once all items are in. *)
Definition consolidatedFor (catalog : list MenuItem.t)
  (existingItemsMap : list (Key * OrderLine.t)) (items : list ReqItem.t)
  (k : Key) : option OrderLine.t :=
  match find (fun item => if Key_eq_dec (reqKey item) k then true else false)
          items with
  | None => None
  | Some first =>
      match menuItemMap catalog (ReqItem.menuItemId first) with
      | None => None
      | Some menuItem =>
          Some (OrderLine.setQuantity (desiredQty k items)
                  (consolidatedLine menuItem (sortReqAddons first)
                     (mapGet Key_eq_dec k existingItemsMap)))
      end
  end.

(** What the change-log loop leaves of one line of [newOrderItems]. *)
Definition logLine (oldItems : list OrderLine.t) (newItem : OrderLine.t)
  : OrderLine.t :=
  match findByKey (lineKey newItem) oldItems with
  | None => OrderLine.setIsNew true newItem
  | Some oldItem =>
      if OrderLine.quantity newItem >? OrderLine.quantity oldItem
      then OrderLine.setIsNew true newItem
      else newItem
  end.

(** ** Tickets and totals in the words of the specification *)

(** The quantity a list of ticket items holds for one line id. *)
Definition sumFor (id : ObjectId) (kotItems : list KotItem.t) : Z :=
  fold_right
    (fun kotItem acc =>
       if N.eq_dec (KotItem.itemId kotItem) id
       then KotItem.quantity kotItem + acc else acc)
    0 kotItems.

(** "the quantities already printed for that line id across all prior
    tickets" *)
Definition alreadyPrinted (kots : list Kot.t) (id : ObjectId) : Z :=
  sumFor id (flat_map Kot.items kots).

(** "the line's current quantity minus the quantities already printed" *)
Definition remainingQty (kots : list Kot.t) (l : OrderLine.t) : Z :=
  match OrderLine._id l with
  | Some id => OrderLine.quantity l - alreadyPrinted kots id
  | None => OrderLine.quantity l
  end.

(** "exactly the lines with positive remaining quantity", as ticket items. *)
Definition ticketLines (kots : list Kot.t) (ls : list OrderLine.t)
  : list KotItem.t :=
  flat_map
    (fun l =>
       match OrderLine._id l with
       | Some id =>
           if negb (OrderLine.isRemoved l) && (remainingQty kots l >? 0)
           then [KotItem.mk id (OrderLine.name l) (remainingQty kots l)
                   (OrderLine.addons l)
                   (Some (OrderLine.specialInstructions l))]
           else []
       | None => []
       end)
    ls.

(** Every line that is not flagged removed carries an id, as every persisted
    line does. *)
Definition activeLinesHaveIds (ls : list OrderLine.t) : Prop :=
  Forall
    (fun l => OrderLine.isRemoved l = false -> OrderLine._id l <> None) ls.

(** "the sum of all non-removed lines' prices, rounded to 2 decimal places" *)
Definition specTotal (ls : list OrderLine.t) : Q :=
  round2 (sumLinePrices (nonRemoved ls)).

(** ** Orders and relations used in the statements *)

(** The order [addons.sort()] sorts by. *)
Definition addonLe (a b : Addon) : Prop :=
  String.leb (addonSortString a) (addonSortString b) = true.

(** The first submitted item of a key. *)
Definition firstSubmitted (k : Key) (items : list ReqItem.t)
  : option ReqItem.t :=
  find (fun item => if Key_eq_dec (reqKey item) k then true else false) items.

(** What one entry of [incomingMap] makes its iteration push. *)
Definition entryOutput (catalog : list MenuItem.t) (changedBy : Actor)
  (existingMap : list (Key * list OrderLine.t)) (entry : Key * Incoming.t)
  : option (list OrderLine.t * list ChangeEvent.t) :=
  match menuItemMap catalog
          (ReqItem.menuItemId (Incoming.data (snd entry))) with
  | None => None
  | Some menuItem =>
      Some (staffKey changedBy menuItem (snd entry)
              (existingFor existingMap (fst entry)))
  end.

(** What the case-C loop may do to one line: leave it, lower its quantity
    in place to a smaller positive one, or flag it removed. *)
Inductive lineEdit (l : OrderLine.t) : OrderLine.t -> Prop :=
| edit_kept : lineEdit l l
| edit_reduced q :
    0 < q < OrderLine.quantity l -> lineEdit l (OrderLine.setQuantity q l)
| edit_removed : lineEdit l (OrderLine.markRemoved l).

(** The order the case-C sort sorts by. *)
Definition priorityLe (a b : OrderLine.t) : Prop :=
  statusPriority (OrderLine.status a) <= statusPriority (OrderLine.status b).

(** The removal order in the words of the specification: "pending before
    preparing before ready before served before cancelled". *)
Definition lessAdvanced (a b : ItemStatus) : bool :=
  match a, b with
  | IPending, (IPreparing | IReady | IServed | ICancelled) => true
  | IPreparing, (IReady | IServed | ICancelled) => true
  | IReady, (IServed | ICancelled) => true
  | IServed, ICancelled => true
  | _, _ => false
  end.

(** [l] is the stored line [e] as far as its identity goes: same id, menu
    item, name, price, text, status and identity key. *)
Definition sameLine (e l : OrderLine.t) : Prop :=
  OrderLine._id l = OrderLine._id e
  /\ OrderLine.menuItemId l = OrderLine.menuItemId e
  /\ OrderLine.name l = OrderLine.name e
  /\ OrderLine.price l = OrderLine.price e
  /\ OrderLine.specialInstructions l = OrderLine.specialInstructions e
  /\ OrderLine.status l = OrderLine.status e
  /\ lineKey l = lineKey e.

(** "retained unchanged": the same line, quantity and flags as they were. *)
Definition keptFrom (e l : OrderLine.t) : Prop :=
  sameLine e l
  /\ OrderLine.quantity l = OrderLine.quantity e
  /\ OrderLine.isRemoved l = OrderLine.isRemoved e
  /\ OrderLine.isNew l = OrderLine.isNew e.

(** "reduced in place": the same line, lower by [r], still positive. *)
Definition loweredFrom (r : Z) (e l : OrderLine.t) : Prop :=
  sameLine e l
  /\ 0 < r < OrderLine.quantity e
  /\ OrderLine.quantity l = OrderLine.quantity e - r
  /\ OrderLine.isRemoved l = OrderLine.isRemoved e
  /\ OrderLine.isNew l = OrderLine.isNew e.

(** "retained with isRemoved=true": the same line at its quantity, flagged
    removed and no longer new. *)
Definition flaggedFrom (e l : OrderLine.t) : Prop :=
  sameLine e l
  /\ OrderLine.quantity l = OrderLine.quantity e
  /\ OrderLine.isRemoved l = true
  /\ OrderLine.isNew l = false.

(** A copy of [e] without id, flagged removed: menu item, name, price,
    quantity, text and identity key of [e]. *)
Definition flaggedCopyOf (e l : OrderLine.t) : Prop :=
  OrderLine.isRemoved l = true
  /\ OrderLine.isNew l = false
  /\ OrderLine._id l = None
  /\ OrderLine.menuItemId l = OrderLine.menuItemId e
  /\ OrderLine.name l = OrderLine.name e
  /\ OrderLine.price l = OrderLine.price e
  /\ OrderLine.quantity l = OrderLine.quantity e
  /\ OrderLine.specialInstructions l = OrderLine.specialInstructions e
  /\ lineKey l = lineKey e.

(** [e] is the first line of key [k] in [ls]. *)
Definition firstOfKey (k : Key) (ls : list OrderLine.t) (e : OrderLine.t)
  : Prop :=
  exists pre post,
    ls = pre ++ e :: post
    /\ lineKey e = k
    /\ Forall (fun x => lineKey x <> k) pre.

(** ** Vocabulary of the further properties *)

(** [menuItemMap.get(item.menuItemId)] finds the item. *)
Definition menuFound (catalog : list MenuItem.t) (item : ReqItem.t) : Prop :=
  menuItemMap catalog (ReqItem.menuItemId item) <> None.

(** The four guards of the update handler, as one condition. *)
Definition updateAccepted (catalog : list MenuItem.t) (req : UpdateReq.t)
  (order : Order.t) : Prop :=
  UpdateReq.items req <> []
  /\ isTerminal (Order.status order) = false
  /\ Forall (fun item => 1 <= ReqItem.quantity item) (UpdateReq.items req)
  /\ Forall (menuFound catalog) (UpdateReq.items req).

(** The document the update handler hands to [order.save()] once its guards
    have passed; [None] is the [TypeError] of a missing menu item. *)
Definition updateDocument (isStaffEdit : bool) (catalog : list MenuItem.t)
  (req : UpdateReq.t) (order : Order.t) : option Order.t :=
  let oldItems := nonRemoved (Order.items order) in
  match (if isStaffEdit
         then staffReconcileTotal catalog staff oldItems (UpdateReq.items req)
         else customerReconcile catalog customer oldItems
                (UpdateReq.items req)) with
  | Some (newOrderItems, history, totalPrice) =>
      Some (applyUpdate req order newOrderItems history totalPrice)
  | None => None
  end.

(** Every event of a log names the given actor in [changedBy]. *)
Definition attributedTo (actor : Actor) (log : list ChangeEvent.t) : Prop :=
  Forall (fun h => ChangeEvent.changedBy h = actor) log.

(** The total quantity of a submission. *)
Definition submittedTotal (items : list ReqItem.t) : Z :=
  fold_right (fun item acc => ReqItem.quantity item + acc) 0 items.

(** A sum over a list of keys. *)
Definition sumOverKeys (g : Key -> Z) (keys : list Key) : Z :=
  fold_right (fun k acc => g k + acc) 0 keys.

(** The three guards of the create handler, as one condition. *)
Definition placeAccepted (catalog : list MenuItem.t)
  (items : list ReqItem.t) : Prop :=
  items <> []
  /\ Forall (fun item => 1 <= ReqItem.quantity item) items
  /\ Forall (menuFound catalog) items.

(** The document the create handler hands to [order.save()] once its
    guards have passed. *)
Definition placedDocument (catalog : list MenuItem.t) (customerName : string)
  (specialInstructions : string) (items : list ReqItem.t) : option Order.t :=
  match fold_left (createStep catalog) items (Some ([], 0%Q)) with
  | Some (orderItems, totalPrice) =>
      Some (Order.mk orderItems (round2 totalPrice)
              (trimmedOr (Some customerName) "Guest")
              (trim specialInstructions) Pending None false 0 [] [] []
              [("original", Pending)] false)
  | None => None
  end.

(** A line as the create handler builds it from a submitted item. *)
Definition placedFrom (catalog : list MenuItem.t) (item : ReqItem.t)
  (l : OrderLine.t) : Prop :=
  exists menuItem,
    menuItemMap catalog (ReqItem.menuItemId item) = Some menuItem
    /\ l = createLine menuItem item.

(** The line of a new order for a submitted item, field by field: the menu
    item's id, name and price, the item's quantity, addons and text, no id
    yet, and the schema defaults for the flags and the status. *)
Definition placedLine (catalog : list MenuItem.t) (item : ReqItem.t)
  (l : OrderLine.t) : Prop :=
  exists menuItem,
    menuItemMap catalog (ReqItem.menuItemId item) = Some menuItem
    /\ OrderLine._id l = None
    /\ OrderLine.menuItemId l = ReqItem.menuItemId item
    /\ OrderLine.name l = MenuItem.name menuItem
    /\ OrderLine.price l = MenuItem.price menuItem
    /\ OrderLine.quantity l = ReqItem.quantity item
    /\ OrderLine.addons l = ReqItem.addons item
    /\ OrderLine.specialInstructions l = ReqItem.specialInstructions item
    /\ OrderLine.isNew l = false
    /\ OrderLine.isRemoved l = false
    /\ OrderLine.status l = IPending
    /\ lineKey l = reqKey item.

(** [validStatuses] of the order-status route. *)
Definition validOrderStatuses : list string :=
  ["pending"; "preparing"; "ready"; "served"; "paid"; "cancelled"].

(** A batch id of the body that the [forEach] of the status route sets:
    a string with something left after trimming, equal to [id]. *)
Definition selectedBatch (batchIds : BatchIds) (id : string) : bool :=
  existsb
    (fun batchId =>
       negb (String.eqb (trim batchId) EmptyString) && String.eqb batchId id)
    (batchIdArray batchIds).

(** Every batch id that the [forEach] of the status route sets is a key the
    map accepts. *)
Definition batchKeysValid {M : Mongoose} (batchIds : BatchIds) : bool :=
  forallb
    (fun batchId =>
       String.eqb (trim batchId) EmptyString || validKey batchId)
    (batchIdArray batchIds).

(** The routes that check the current status before they change it. *)
Inductive GuardedRoute :=
| StartPreparing
| MarkReady
| Payment (method : PaymentMethod)
| Cancel.

Definition runGuarded (route : GuardedRoute) (order : Order.t)
  : Outcome Order.t :=
  match route with
  | StartPreparing => startPreparing order
  | MarkReady => markReady order
  | Payment method => recordPayment method order
  | Cancel => cancelOrder order
  end.

(** A sequence of requests to guarded routes, each on the document the
    previous one left. *)
Definition runGuardedAll (routes : list GuardedRoute) (order : Order.t)
  : Order.t :=
  fold_left (fun o route => persisted (runGuarded route o)) routes order.

(** [order.items.id(itemId)] finds a line. *)
Definition hasLine (itemId : ObjectId) (ls : list OrderLine.t) : bool :=
  existsb
    (fun l =>
       match OrderLine._id l with
       | Some id => N.eqb id itemId
       | None => false
       end) ls.

(** The ids of the lines of a list. *)
Definition lineIds (ls : list OrderLine.t) : list ObjectId :=
  flat_map
    (fun l => match OrderLine._id l with Some id => [id] | None => [] end)
    ls.

(** The line's id is one of [itemIds]. *)
Definition lineSelected (itemIds : list ObjectId) (l : OrderLine.t) : bool :=
  match OrderLine._id l with
  | Some id => existsb (N.eqb id) itemIds
  | None => false
  end.

(** [order.items.filter(i => i.status !== 'cancelled' && !i.isRemoved)] *)
Definition activeItems (ls : list OrderLine.t) : list OrderLine.t :=
  filter (fun i => negb (itemStatus_eqb (OrderLine.status i) ICancelled)
                   && negb (OrderLine.isRemoved i)) ls.

(** The tickets of a ledger are numbered 1, 2, ... in the order they were
    printed. *)
Definition kotsNumbered (kots : list Kot.t) : Prop :=
  map Kot.kotNumber kots = map Z.of_nat (seq 1 (List.length kots)).

(** No ticket of a ledger is empty and every ticket line has a positive
    quantity. *)
Definition kotsPositive (kots : list Kot.t) : Prop :=
  Forall
    (fun kot =>
       Kot.items kot <> []
       /\ Forall (fun kotItem => 0 < KotItem.quantity kotItem)
            (Kot.items kot)) kots.

(** ** Sample data for the worked examples *)

Module Sample.
Definition burger : MenuItem.t := MenuItem.mk 1%N "Burger" 10.
Definition fries : MenuItem.t := MenuItem.mk 2%N "Fries" 5.
Definition catalog : list MenuItem.t := [burger; fries].

(** A persisted line without addons. *)
Definition line (id : N) (m : MenuItem.t) (quantity : Z)
  (status : ItemStatus) (isRemoved : bool) : OrderLine.t :=
  OrderLine.mk (Some id) (MenuItem._id m) (MenuItem.name m)
    (MenuItem.price m) quantity [] EmptyString false isRemoved status.

(** A stored order that was never edited and never printed; its total is
    the one of its lines that are not flagged removed. *)
Definition order (ls : list OrderLine.t) (status : OrderStatus)
  : Order.t :=
  Order.mk ls (specTotal ls) "Guest" EmptyString status None false 0 [] []
    [] [("original", Pending)] false.

Definition item (m : MenuItem.t) (quantity : Z) : ReqItem.t :=
  ReqItem.mk (MenuItem._id m) quantity [] EmptyString.

Definition request (items : list ReqItem.t) : UpdateReq.t :=
  UpdateReq.mk items None None.

(** A customer name of 101 characters, one more than the schema allows. *)
Definition longName : string :=
  "aaaaaaaaaaaaaaaaaaaaaaaaaaaaaaaaaaaaaaaaaaaaaaaaaaaaaaaaaaaaaaaaaaaaaaaaaaaaaaaaaaaaaaaaaaaaaaaaaaaaa".

Definition burgerKey : Key := keyOf (MenuItem._id burger) [].
Definition friesKey : Key := keyOf (MenuItem._id fries) [].
End Sample.

(** * Properties *)

Unset Implicit Arguments.

(** ** The update handler: what a successful reply says *)

Lemma updateOrder_success {M : Mongoose} isStaffEdit catalog req order code order' :
  reply (updateOrder isStaffEdit catalog req order) = Success code order' ->
  exists newOrderItems history totalPrice,
    (if isStaffEdit
     then staffReconcileTotal catalog staff (nonRemoved (Order.items order))
            (UpdateReq.items req)
     else customerReconcile catalog customer (nonRemoved (Order.items order))
            (UpdateReq.items req))
    = Some (newOrderItems, history, totalPrice)
    /\ order' = applyUpdate req order newOrderItems history totalPrice
    /\ persisted (updateOrder isStaffEdit catalog req order) = order'
    /\ isTerminal (Order.status order) = false
    /\ Forall (fun item => 1 <= ReqItem.quantity item) (UpdateReq.items req)
    /\ UpdateReq.items req <> [].
Proof.
  unfold updateOrder, nonRemoved.
  destruct (UpdateReq.items req) as [|i0 items] eqn:Hitems;
    [discriminate|].
  destruct (isTerminal (Order.status order)); [discriminate|].
  destruct (existsb _ (i0 :: items)) eqn:Hq; [discriminate|].
  destruct (existsb _ (i0 :: items)) eqn:Hm in |- *; [discriminate|].
  intros H.
  assert (Hvalid : Forall (fun item => 1 <= ReqItem.quantity item)
                     (i0 :: items)).
  { apply Forall_forall. intros x Hx.
    destruct (Z.ltb_spec (ReqItem.quantity x) 1) as [Hlt|]; [|assumption].
    assert (existsb (fun item => ReqItem.quantity item <? 1) (i0 :: items)
            = true) as Habs.
    { apply existsb_exists. exists x. split; [assumption|].
      now apply Z.ltb_lt. }
    rewrite Habs in Hq. discriminate. }
  destruct isStaffEdit.
  - destruct (staffReconcileTotal _ _ _ _) as [[[L Hs] T]|];
      [|discriminate].
    cbv zeta in *. destruct (saves _); [|discriminate].
    simpl in H. injection H as <- <-.
    exists L, Hs, T. repeat split; auto. discriminate.
  - destruct (customerReconcile _ _ _ _) as [[[L Hs] T]|];
      [|discriminate].
    cbv zeta in *. destruct (saves _); [|discriminate].
    simpl in H. injection H as <- <-.
    exists L, Hs, T. repeat split; auto. discriminate.
Qed.

Lemma updateOrder_saved {M : Mongoose} isStaffEdit catalog req order code
  order' :
  reply (updateOrder isStaffEdit catalog req order) = Success code order' ->
  saves order' = true /\ code = 200%nat.
Proof.
  unfold updateOrder.
  destruct (UpdateReq.items req) as [|i0 items]; [discriminate|].
  destruct (isTerminal (Order.status order)); [discriminate|].
  destruct (existsb _ (i0 :: items)); [discriminate|].
  destruct (existsb _ (i0 :: items)); [discriminate|].
  destruct (if isStaffEdit then _ else _) as [[[L Hs] T]|]; [|discriminate].
  cbv zeta. destruct (saves _) eqn:Hsave; [|discriminate].
  cbn. intros H. injection H as <- <-. split; [assumption | reflexivity].
Qed.

Lemma applyUpdate_items req order L H T :
  Order.items (applyUpdate req order L H T) = L.
Proof. unfold applyUpdate. destruct H; reflexivity. Qed.

Lemma applyUpdate_totalPrice req order L H T :
  Order.totalPrice (applyUpdate req order L H T) = round2 T.
Proof. unfold applyUpdate. destruct H; reflexivity. Qed.

Lemma applyUpdate_updateHistory req order L H T :
  Order.updateHistory (applyUpdate req order L H T)
  = Order.updateHistory order ++ H.
Proof.
  unfold applyUpdate. destruct H; simpl; [now rewrite app_nil_r | reflexivity].
Qed.

Lemma applyUpdate_reopen req order L H T :
  existsb isNewWork H = true ->
  isReopenable (Order.status order) = true ->
  Order.status (applyUpdate req order L H T) = Pending
  /\ Order.hasUnseenChanges (applyUpdate req order L H T) = true.
Proof.
  intros Hw Hr. unfold applyUpdate.
  destruct H as [|h H']; [discriminate|].
  rewrite Hw, Hr. simpl. split; reflexivity.
Qed.

(** ** Reopening rule *)

(** C6. Whenever an update is applied whose change log (the events it
    appends to [updateHistory]) contains an [item_added] or
    [quantity_increased] event while the order is [served], [ready] or
    [preparing], the persisted order is [pending] and has
    [hasUnseenChanges = true]. *)
Theorem reopening_rule {M : Mongoose} :
  forall isStaffEdit catalog req order code order' changeLog h,
    reply (updateOrder isStaffEdit catalog req order) = Success code order' ->
    Order.updateHistory order' = Order.updateHistory order ++ changeLog ->
    In h changeLog ->
    ChangeEvent.changeType h = item_added
    \/ ChangeEvent.changeType h = quantity_increased ->
    Order.status order = Served \/ Order.status order = Ready
    \/ Order.status order = Preparing ->
    Order.status order' = Pending
    /\ Order.hasUnseenChanges order' = true
    /\ persisted (updateOrder isStaffEdit catalog req order) = order'.
Proof.
  intros isStaffEdit catalog req order code order' changeLog h
    Hok Hlog Hin Hkind Hstatus.
  destruct (updateOrder_success _ _ _ _ _ _ Hok)
    as (L & H & T & _ & -> & Hp & _).
  rewrite applyUpdate_updateHistory in Hlog.
  apply app_inv_head in Hlog. subst H.
  assert (Hw : existsb isNewWork changeLog = true).
  { apply existsb_exists. exists h. split; [assumption|].
    unfold isNewWork. destruct Hkind as [-> | ->]; reflexivity. }
  assert (Hr : isReopenable (Order.status order) = true).
  { destruct Hstatus as [-> | [-> | ->]]; reflexivity. }
  destruct (applyUpdate_reopen req order L _ T Hw Hr) as [Hs Hu].
  repeat split; assumption.
Qed.

Lemma reopening_rule_witness :
  let order :=
    Sample.order [Sample.line 11 Sample.burger 3 IServed false] Served in
  let req :=
    Sample.request [Sample.item Sample.burger 3; Sample.item Sample.fries 1]
  in
  let order' := persisted (updateOrder true Sample.catalog req order) in
  Order.status order' = Pending
  /\ Order.hasUnseenChanges order' = true
  /\ persisted (updateOrder true Sample.catalog req order) = order'.
Proof.
  intros order req order'.
  apply (reopening_rule true Sample.catalog req order 200 order'
           [ChangeEvent.mk item_added "Fries" None (Some 1) staff]
           (ChangeEvent.mk item_added "Fries" None (Some 1) staff)).
  - vm_compute. reflexivity.
  - vm_compute. reflexivity.
  - left. reflexivity.
  - left. reflexivity.
  - left. reflexivity.
Defined.

(** ** Terminal states *)

(** C8, as stated, fails on the order-status route: it applies no guard, so
    a [paid] order is set back to [pending], and an order that was never
    served is set to [paid].  Both stored orders and both results pass the
    validators of the schema. *)
Lemma terminal_rejection_counterexample :
  let paidOrder :=
    Sample.order [Sample.line 11 Sample.burger 1 IServed false] Paid in
  let pendingOrder :=
    Sample.order [Sample.line 11 Sample.burger 1 IPending false] Pending in
  schemaAccepts paidOrder = true
  /\ schemaAccepts pendingOrder = true
  /\ (exists order',
        setOrderStatus "pending" BatchIdsAbsent paidOrder
        = mkOutcome (Success 200 order') order'
        /\ schemaAccepts order' = true
        /\ Order.status order' = Pending)
  /\ (exists order',
        setOrderStatus "paid" BatchIdsAbsent pendingOrder
        = mkOutcome (Success 200 order') order'
        /\ schemaAccepts order' = true
        /\ Order.status order' = Paid).
Proof.
  split; [reflexivity|]. split; [reflexivity|].
  split; eexists; (split; [reflexivity|]); split; reflexivity.
Qed.

(** C8, amended. On an order that is [paid] or [cancelled] the update
    handler replies 400 and leaves the order as it was, and so do the payment
    and the cancel handlers; the payment handler reaches [paid] from [served]
    only.  The order-status route is a plain override: on any order, in any
    state, a request without a batch selection (no [batchIds], an empty
    array or an empty string) succeeds with the order set to whichever valid
    status it names, its batch map replaced by the single entry [all], and
    nothing else changed. *)
Theorem terminal_rejection {M : Mongoose} :
  forall order,
    Order.status order = Paid \/ Order.status order = Cancelled ->
    (forall isStaffEdit catalog req,
        exists message,
          updateOrder isStaffEdit catalog req order
          = reject 400 message order)
    /\ (forall method,
           exists message, recordPayment method order
                           = reject 400 message order)
    /\ (exists message, cancelOrder order = reject 400 message order)
    /\ (forall method any code order',
           reply (recordPayment method any) = Success code order' ->
           Order.status any = Served /\ Order.status order' = Paid)
    /\ (forall any text status batchIds,
           parseOrderStatus text = Some status ->
           hasBatchSelection batchIds = false ->
           exists order',
             setOrderStatus text batchIds any
             = mkOutcome (Success 200 order') order'
             /\ Order.status order' = status
             /\ Order.batchStatus order' = [("all", status)]
             /\ Order.items order' = Order.items any
             /\ Order.totalPrice order' = Order.totalPrice any
             /\ Order.updateHistory order' = Order.updateHistory any
             /\ Order.kots order' = Order.kots any
             /\ Order.paymentMethod order' = Order.paymentMethod any).
Proof.
  intros order Hterminal.
  assert (Ht : isTerminal (Order.status order) = true)
    by (destruct Hterminal as [-> | ->]; reflexivity).
  split; [|split; [|split; [|split]]].
  - intros isStaffEdit catalog req. unfold updateOrder.
    destruct (UpdateReq.items req); [eexists; reflexivity|].
    rewrite Ht. eexists; reflexivity.
  - intros method. unfold recordPayment.
    destruct Hterminal as [-> | ->]; eexists; reflexivity.
  - unfold cancelOrder.
    destruct Hterminal as [-> | ->]; eexists; reflexivity.
  - intros method any code order'. unfold recordPayment.
    destruct (Order.status any) eqn:Hs; simpl; try discriminate.
    intros H. injection H as _ <-. split; reflexivity.
  - intros any text status batchIds Hparse Hnone. unfold setOrderStatus.
    rewrite Hparse, Hnone. eexists. split; [reflexivity|].
    repeat split.
Qed.

Lemma terminal_rejection_witness :
  let order :=
    Sample.order [Sample.line 11 Sample.burger 1 IServed false] Paid in
  (exists message,
     updateOrder true Sample.catalog
       (Sample.request [Sample.item Sample.burger 2]) order
     = reject 400 message order)
  /\ exists order',
       setOrderStatus "pending" (BatchIdsArray []) order
       = mkOutcome (Success 200 order') order'
       /\ Order.status order' = Pending.
Proof.
  intros order.
  destruct (terminal_rejection order (or_introl eq_refl))
    as (Hupdate & _ & _ & _ & Hset).
  split; [apply Hupdate|].
  destruct (Hset order "pending" Pending (BatchIdsArray []) eq_refl eq_refl)
    as (order' & Hrun & Hstatus & _).
  exists order'. split; assumption.
Defined.

(** ** Kitchen tickets *)

(** C10. A ticket that is printed changes nothing in the persisted order
    but the ledger, which grows by that ticket: the lines (quantity, status
    and flags included), the order status, the total, the update history,
    the batch statuses and the update counter are those of the order before.
    The ticket is stored with its number, its issuer and the id, name,
    quantity and addons of each of its items. *)
Theorem generateTicket_frame :
  forall order code kot,
    reply (generateTicket order) = Success code kot ->
    let order' := persisted (generateTicket order) in
    Order.kots order' = Order.kots order ++ [storedKot kot]
    /\ Order.items order' = Order.items order
    /\ Order.status order' = Order.status order
    /\ Order.totalPrice order' = Order.totalPrice order
    /\ Order.updateHistory order' = Order.updateHistory order
    /\ Order.batchStatus order' = Order.batchStatus order
    /\ Order.updateCount order' = Order.updateCount order
    /\ order' = Order.setKots (Order.kots order ++ [storedKot kot]) order
    /\ (exists stored,
          Order.kots order' = Order.kots order ++ [stored]
          /\ Kot.kotNumber stored = Kot.kotNumber kot
          /\ Kot.printedBy stored = Kot.printedBy kot
          /\ map KotItem.itemId (Kot.items stored)
             = map KotItem.itemId (Kot.items kot)
          /\ map KotItem.name (Kot.items stored)
             = map KotItem.name (Kot.items kot)
          /\ map KotItem.quantity (Kot.items stored)
             = map KotItem.quantity (Kot.items kot)
          /\ map KotItem.addons (Kot.items stored)
             = map KotItem.addons (Kot.items kot)).
Proof.
  intros order code kot. unfold generateTicket.
  destruct (itemsToPrint order) as [[|k ks]|]; simpl; try discriminate.
  intros H. injection H as _ <-.
  repeat (split; [reflexivity|]).
  eexists. split; [reflexivity|].
  cbn [storedKot Kot.kotNumber Kot.printedBy Kot.items].
  rewrite !map_map. repeat split.
Qed.

Lemma generateTicket_frame_witness :
  let order :=
    Sample.order [Sample.line 11 Sample.burger 3 IPreparing false]
      Preparing in
  let order' := persisted (generateTicket order) in
  Order.kots order' =
    [Kot.mk 1 [KotItem.mk 11%N "Burger" 3 [] None] "Staff"]
  /\ Order.items order' = Order.items order.
Proof.
  intros order order'.
  destruct (generateTicket_frame order 200
              (Kot.mk 1 [KotItem.mk 11%N "Burger" 3 [] (Some EmptyString)] "Staff")
              eq_refl) as (Hk & Hi & _).
  split; assumption.
Defined.

(** *** Facts about the insertion-ordered maps *)

Section JsMapFacts.
Context {K V : Type}.
Variable K_eq_dec : forall a b : K, {a = b} + {a <> b}.

Lemma mapGet_mapSet_same (k : K) (v : V) m :
  mapGet K_eq_dec k (mapSet K_eq_dec k v m) = Some v.
Proof.
  induction m as [|[k' v'] m IH]; simpl.
  - destruct (K_eq_dec k k); congruence.
  - destruct (K_eq_dec k k') as [->|Hne]; simpl.
    + destruct (K_eq_dec k' k'); congruence.
    + destruct (K_eq_dec k k'); congruence.
Qed.

Lemma mapGet_mapSet_other (k k' : K) (v : V) m :
  k <> k' ->
  mapGet K_eq_dec k' (mapSet K_eq_dec k v m) = mapGet K_eq_dec k' m.
Proof.
  intros Hne. induction m as [|[k0 v0] m IH]; simpl.
  - destruct (K_eq_dec k' k); congruence.
  - destruct (K_eq_dec k k0) as [->|Hne0]; simpl.
    + destruct (K_eq_dec k' k0); congruence.
    + destruct (K_eq_dec k' k0); congruence.
Qed.

Lemma mapGet_None_keys (k : K) (m : list (K * V)) :
  mapGet K_eq_dec k m = None <-> ~ In k (mapKeys m).
Proof.
  induction m as [|[k0 v0] m IH]; simpl.
  - tauto.
  - destruct (K_eq_dec k k0) as [->|Hne].
    + split; [discriminate | intros H; exfalso; apply H; now left].
    + rewrite IH. split.
      * intros H [Heq | Hin]; [congruence | tauto].
      * tauto.
Qed.

Lemma mapKeys_mapSet_present (k : K) (v : V) m :
  mapGet K_eq_dec k m <> None ->
  mapKeys (mapSet K_eq_dec k v m) = mapKeys m.
Proof.
  induction m as [|[k0 v0] m IH]; simpl.
  - congruence.
  - destruct (K_eq_dec k k0) as [->|Hne]; simpl; [reflexivity|].
    intros H. now rewrite IH.
Qed.

Lemma mapKeys_mapSet_absent (k : K) (v : V) m :
  mapGet K_eq_dec k m = None ->
  mapKeys (mapSet K_eq_dec k v m) = mapKeys m ++ [k].
Proof.
  induction m as [|[k0 v0] m IH]; simpl.
  - reflexivity.
  - destruct (K_eq_dec k k0) as [->|Hne]; simpl; [discriminate|].
    intros H. now rewrite IH.
Qed.

Lemma mapSet_NoDup (k : K) (v : V) m :
  NoDup (mapKeys m) -> NoDup (mapKeys (mapSet K_eq_dec k v m)).
Proof.
  intros Hnd.
  destruct (mapGet K_eq_dec k m) eqn:Hget.
  - rewrite mapKeys_mapSet_present; [assumption | congruence].
  - rewrite mapKeys_mapSet_absent by assumption.
    apply NoDup_rev in Hnd. rewrite <- (rev_involutive (_ ++ _)).
    apply NoDup_rev. rewrite rev_app_distr. simpl.
    constructor; [|assumption].
    rewrite <- in_rev. now apply mapGet_None_keys.
Qed.

Lemma mapGet_In (k : K) (v : V) m :
  mapGet K_eq_dec k m = Some v -> In (k, v) m.
Proof.
  induction m as [|[k0 v0] m IH]; simpl; [discriminate|].
  destruct (K_eq_dec k k0) as [->|Hne].
  - intros H. injection H as ->. now left.
  - intros H. right. now apply IH.
Qed.

Lemma In_mapGet (k : K) (v : V) m :
  NoDup (mapKeys m) -> In (k, v) m -> mapGet K_eq_dec k m = Some v.
Proof.
  induction m as [|[k0 v0] m IH]; simpl; [tauto|].
  intros Hnd [Heq | Hin].
  - injection Heq as -> ->. destruct (K_eq_dec k k); congruence.
  - inversion Hnd as [|? ? Hnotin Hnd']; subst.
    destruct (K_eq_dec k k0) as [->|Hne].
    + exfalso. apply Hnotin. unfold mapKeys.
      change k0 with (fst (k0, v)). now apply in_map.
    + now apply IH.
Qed.
End JsMapFacts.

(** *** The printed-quantity map agrees with the ledger sum *)

Lemma sumFor_app id a b : sumFor id (a ++ b) = sumFor id a + sumFor id b.
Proof.
  induction a as [|x a IH]; simpl; [reflexivity|].
  destruct (N.eq_dec (KotItem.itemId x) id); lia.
Qed.

Lemma alreadyPrinted_app kots kot id :
  alreadyPrinted (kots ++ [kot]) id
  = alreadyPrinted kots id + sumFor id (Kot.items kot).
Proof.
  unfold alreadyPrinted.
  rewrite flat_map_app, sumFor_app. simpl. now rewrite app_nil_r.
Qed.

Lemma printedStep_fold id kotItems m :
  printedQty (fold_left printedStep kotItems m) id
  = printedQty m id + sumFor id kotItems.
Proof.
  revert m. induction kotItems as [|x xs IH]; intros m; simpl; [lia|].
  rewrite IH. unfold printedStep at 1. unfold printedQty.
  destruct (N.eq_dec (KotItem.itemId x) id) as [->|Hne].
  - rewrite mapGet_mapSet_same.
    destruct (mapGet N.eq_dec id m); lia.
  - rewrite mapGet_mapSet_other by assumption. lia.
Qed.

Lemma printedQty_fold id kots m :
  printedQty
    (fold_left (fun m kot => fold_left printedStep (Kot.items kot) m) kots m)
    id
  = printedQty m id + sumFor id (flat_map Kot.items kots).
Proof.
  revert m. induction kots as [|kot kots IH]; intros m; simpl; [lia|].
  rewrite IH, printedStep_fold, sumFor_app. lia.
Qed.

Lemma printedQty_alreadyPrinted kots id :
  printedQty (printedQtyByItemId kots) id = alreadyPrinted kots id.
Proof.
  unfold printedQtyByItemId. rewrite printedQty_fold. reflexivity.
Qed.

(** *** The ticket loop *)

Lemma kotStep_fold_None printed ls :
  fold_left (kotStep printed) ls None = None.
Proof. induction ls; simpl; auto. Qed.

Lemma kotStep_fold kots ls acc :
  activeLinesHaveIds ls ->
  fold_left (kotStep (printedQtyByItemId kots)) ls (Some acc)
  = Some (acc ++ ticketLines kots ls).
Proof.
  revert acc. induction ls as [|l ls IH]; intros acc Hids; simpl.
  - now rewrite app_nil_r.
  - inversion Hids as [|? ? Hl Hls]; subst.
    unfold remainingQty.
    destruct (OrderLine.isRemoved l) eqn:Hrm; simpl.
    + rewrite IH by assumption.
      destruct (OrderLine._id l); reflexivity.
    + destruct (OrderLine._id l) as [id|] eqn:Hid;
        [|exfalso; now apply Hl].
      rewrite printedQty_alreadyPrinted.
      destruct (OrderLine.quantity l - alreadyPrinted kots id >? 0).
      * rewrite IH by assumption. now rewrite <- app_assoc.
      * rewrite IH by assumption. reflexivity.
Qed.

Lemma kotStep_fold_ids printed ls acc res :
  fold_left (kotStep printed) ls (Some acc) = Some res ->
  activeLinesHaveIds ls.
Proof.
  revert acc. induction ls as [|l ls IH]; intros acc; simpl.
  - constructor.
  - destruct (OrderLine.isRemoved l) eqn:Hrm.
    + intros H. constructor; [congruence | eapply IH; eassumption].
    + destruct (OrderLine._id l) as [id|] eqn:Hid.
      * destruct (_ >? 0); intros H;
          (constructor; [congruence | eapply IH; eassumption]).
      * rewrite kotStep_fold_None. discriminate.
Qed.

Lemma ticketLines_positive kots ls :
  Forall (fun kotItem => 0 < KotItem.quantity kotItem) (ticketLines kots ls).
Proof.
  induction ls as [|l ls IH]; simpl; [constructor|].
  apply Forall_app. split; [|assumption].
  destruct (OrderLine._id l); [|constructor].
  destruct (negb (OrderLine.isRemoved l)); simpl; [|constructor].
  destruct (Z.gtb_spec (remainingQty kots l) 0); constructor;
    [simpl; lia | constructor].
Qed.

Lemma sumFor_nonneg id kotItems :
  Forall (fun kotItem => 0 < KotItem.quantity kotItem) kotItems ->
  0 <= sumFor id kotItems.
Proof.
  induction 1 as [|x xs Hx _ IH]; simpl; [lia|].
  destruct (N.eq_dec (KotItem.itemId x) id); lia.
Qed.

(** A line with something left to print finds at least that much under its
    id on the new ticket. *)
Lemma ticketLines_covers kots ls l id :
  In l ls ->
  OrderLine.isRemoved l = false ->
  OrderLine._id l = Some id ->
  0 < remainingQty kots l ->
  remainingQty kots l <= sumFor id (ticketLines kots ls).
Proof.
  intros Hin Hrm Hid Hpos.
  induction ls as [|x ls IH]; [contradiction|].
  simpl. rewrite sumFor_app.
  pose proof (sumFor_nonneg id _ (ticketLines_positive kots ls)) as Hrest.
  destruct Hin as [-> | Hin].
  - rewrite Hid, Hrm. simpl.
    destruct (Z.gtb_spec (remainingQty kots l) 0); [|lia].
    simpl. destruct (N.eq_dec id id); [lia | congruence].
  - specialize (IH Hin).
    assert (0 <= sumFor id
                   (match OrderLine._id x with
                    | Some id0 =>
                        if negb (OrderLine.isRemoved x)
                           && (remainingQty kots x >? 0)
                        then [KotItem.mk id0 (OrderLine.name x)
                                (remainingQty kots x) (OrderLine.addons x)
                                (Some (OrderLine.specialInstructions x))]
                        else []
                    | None => []
                    end)); [|lia].
    apply sumFor_nonneg.
    pose proof (ticketLines_positive kots [x]) as Hx.
    simpl in Hx. now rewrite app_nil_r in Hx.
Qed.

Lemma flat_map_nil {A B : Type} (f : A -> list B) (ls : list A) :
  (forall x, In x ls -> f x = []) -> flat_map f ls = [].
Proof.
  induction ls as [|x ls IH]; intros H; simpl; [reflexivity|].
  rewrite (H x (or_introl eq_refl)). simpl.
  apply IH. intros y Hy. apply H. now right.
Qed.

Lemma sumFor_stored id kotItems :
  sumFor id (map storedKotItem kotItems) = sumFor id kotItems.
Proof.
  induction kotItems as [|x xs IH]; [reflexivity|].
  cbn [map sumFor fold_right storedKotItem KotItem.itemId KotItem.quantity].
  fold (sumFor id (map storedKotItem xs)). fold (sumFor id xs).
  now rewrite IH.
Qed.

Lemma alreadyPrinted_stored kots kot id :
  alreadyPrinted (kots ++ [storedKot kot]) id
  = alreadyPrinted kots id + sumFor id (Kot.items kot).
Proof.
  rewrite alreadyPrinted_app. cbn [storedKot Kot.items].
  now rewrite sumFor_stored.
Qed.

(** Once the ticket is in the ledger nothing is left to print. *)
Lemma ticketLines_after kots ls number by_ :
  ticketLines
    (kots ++ [storedKot (Kot.mk number (ticketLines kots ls) by_)]) ls
  = [].
Proof.
  set (kot := storedKot (Kot.mk number (ticketLines kots ls) by_)).
  assert (Hall : forall l, In l ls ->
            match OrderLine._id l with
            | Some id =>
                if negb (OrderLine.isRemoved l)
                   && (remainingQty (kots ++ [kot]) l >? 0)
                then [KotItem.mk id (OrderLine.name l)
                        (remainingQty (kots ++ [kot]) l) (OrderLine.addons l)
                        (Some (OrderLine.specialInstructions l))]
                else []
            | None => []
            end = []).
  { intros l Hin.
    destruct (OrderLine._id l) as [id|] eqn:Hid; [|reflexivity].
    destruct (OrderLine.isRemoved l) eqn:Hrm; simpl; [reflexivity|].
    destruct (Z.gtb_spec (remainingQty (kots ++ [kot]) l) 0) as [Hgt|];
      [|reflexivity].
    exfalso. revert Hgt. unfold remainingQty. rewrite Hid.
    unfold kot. rewrite alreadyPrinted_stored. cbn [Kot.items].
    pose proof (sumFor_nonneg id _ (ticketLines_positive kots ls)) as Hnn.
    destruct (Z.lt_ge_cases 0 (remainingQty kots l)) as [Hpos|Hle].
    - pose proof (ticketLines_covers kots ls l id Hin Hrm Hid Hpos) as Hc.
      unfold remainingQty in Hc, Hpos. rewrite Hid in Hc, Hpos. lia.
    - unfold remainingQty in Hle. rewrite Hid in Hle. lia. }
  unfold ticketLines at 1. now apply flat_map_nil.
Qed.

(** C7, as stated, fails where it says "rather than an error": the second
    of two print requests in a row is answered with [res.status(400)] and
    [success: false], not with a success that reports nothing to print. *)
Lemma generateTicket_second_call_counterexample :
  let order :=
    Sample.order
      [Sample.line 11 Sample.burger 3 IPreparing false;
       Sample.line 12 Sample.fries 1 IPending true] Preparing in
  let order' := persisted (generateTicket order) in
  (exists kot, reply (generateTicket order) = Success 200 kot)
  /\ reply (generateTicket order') = Failure 400 "No new items to print" true
  /\ ~ (exists code kot, reply (generateTicket order') = Success code kot)
  /\ persisted (generateTicket order') = order'.
Proof.
  intros order order'.
  split; [eexists; reflexivity|].
  split; [reflexivity|].
  split; [|reflexivity].
  intros (code & kot & H). vm_compute in H. discriminate.
Qed.

(** C7, amended. On an order whose active lines carry ids, the ticket
    handler prints exactly the non-removed lines whose quantity exceeds what
    the ledger already holds for their id, each at that remaining quantity,
    on a ticket numbered one more than the number of earlier tickets, and
    appends it to the ledger (as the sub-schema stores it).  When no line has
    anything left it appends nothing, leaves the order as it is and answers
    with the error reply HTTP 400, message "No new items to print" and flag
    [noNewItems]; a second call right after a printed ticket is answered
    that way. *)
Theorem generateTicket_idempotent :
  forall order,
    activeLinesHaveIds (Order.items order) ->
    let toPrint := ticketLines (Order.kots order) (Order.items order) in
    let kot :=
      Kot.mk (Z.of_nat (List.length (Order.kots order)) + 1) toPrint "Staff"
    in
    let order' := Order.setKots (Order.kots order ++ [storedKot kot]) order in
    (toPrint = [] ->
     generateTicket order
     = mkOutcome (Failure 400 "No new items to print" true) order)
    /\ (toPrint <> [] ->
        generateTicket order = mkOutcome (Success 200 kot) order'
        /\ generateTicket order'
           = mkOutcome (Failure 400 "No new items to print" true) order').
Proof.
  intros order Hids toPrint kot order'.
  assert (Hfirst : itemsToPrint order = Some toPrint).
  { unfold itemsToPrint. now rewrite kotStep_fold. }
  split.
  - intros Hnil. unfold generateTicket. rewrite Hfirst, Hnil. reflexivity.
  - intros Hsome. split.
    + unfold generateTicket. rewrite Hfirst.
      destruct toPrint as [|k ks] eqn:Hk; [congruence|]. reflexivity.
    + assert (Hsecond : itemsToPrint order' = Some []).
      { unfold itemsToPrint. simpl. rewrite kotStep_fold by assumption.
        unfold kot, toPrint. now rewrite ticketLines_after. }
      unfold generateTicket. rewrite Hsecond. reflexivity.
Qed.

Lemma generateTicket_idempotent_witness :
  let order :=
    Sample.order
      [Sample.line 11 Sample.burger 3 IPreparing false;
       Sample.line 12 Sample.fries 1 IPending true] Preparing in
  let kot :=
    Kot.mk 1 [KotItem.mk 11%N "Burger" 3 [] (Some EmptyString)] "Staff" in
  let order' :=
    Order.setKots [Kot.mk 1 [KotItem.mk 11%N "Burger" 3 [] None] "Staff"]
      order in
  generateTicket order = mkOutcome (Success 200 kot) order'
  /\ generateTicket order'
     = mkOutcome (Failure 400 "No new items to print" true) order'.
Proof.
  intros order kot order'.
  assert (Hids : activeLinesHaveIds (Order.items order)).
  { repeat constructor; simpl; discriminate. }
  apply (proj2 (generateTicket_idempotent order Hids)).
  simpl. discriminate.
Defined.

(** ** Pricing *)

Lemma linePrice_formula l :
  (linePrice l ==
   OrderLine.price l * inject_Z (OrderLine.quantity l)
   + fold_right (fun a acc => addonUnitPrice a + acc) 0 (OrderLine.addons l)
     * inject_Z (OrderLine.quantity l))%Q.
Proof.
  unfold linePrice, calculateAddonPrice.
  assert (Hfold : forall addons init,
            (fold_left (fun sum addon => sum + addonUnitPrice addon) addons
               init
             == init
                + fold_right (fun a acc => addonUnitPrice a + acc) 0 addons)%Q).
  { induction addons as [|a addons IH]; intros init; simpl.
    - ring.
    - rewrite IH. ring. }
  destruct (OrderLine.addons l) as [|a addons] eqn:Ha.
  - simpl. ring.
  - rewrite Hfold. ring.
Qed.

Lemma legacy_addon_is_free name : addonUnitPrice (AddonStr name) = 0%Q.
Proof. reflexivity. Qed.

(** C5 at the failing input.  Two lines of the same key, one being
    prepared, one pending; staff lowers the key from 5 to 3.  The pending
    line is flagged removed and stays in [newOrderItems], over which the staff
    branch sums without looking at the flag: the persisted total is 50, the
    non-removed lines are worth 30. *)
Theorem staff_total_counts_removed_lines :
  let order :=
    Sample.order
      [Sample.line 11 Sample.burger 3 IPreparing false;
       Sample.line 12 Sample.burger 2 IPending false] Preparing in
  let req := Sample.request [Sample.item Sample.burger 3] in
  let order' := persisted (updateOrder true Sample.catalog req order) in
  Order.items order' =
    [Sample.line 12 Sample.burger 2 IPending true;
     Sample.line 11 Sample.burger 3 IPreparing false]
  /\ (Order.totalPrice order' == 50)%Q
  /\ (specTotal (Order.items order') == 30)%Q
  /\ ~ (Order.totalPrice order' == specTotal (Order.items order'))%Q.
Proof.
  repeat split; try (vm_compute; reflexivity).
  vm_compute. discriminate.
Qed.

(** ** Identity keys are stable under the in-place sort *)

Lemma insertAddon_HdRel a b l :
  addonLe b a -> HdRel addonLe b l -> HdRel addonLe b (insertAddon a l).
Proof.
  intros Hba Hhd. destruct l as [|c l]; simpl.
  - now constructor.
  - destruct (String.leb (addonSortString a) (addonSortString c)).
    + now constructor.
    + inversion Hhd; subst. now constructor.
Qed.

Lemma insertAddon_Sorted a l :
  Sorted addonLe l -> Sorted addonLe (insertAddon a l).
Proof.
  induction 1 as [|b l Hs IH Hhd]; simpl.
  - repeat constructor.
  - destruct (String.leb (addonSortString a) (addonSortString b)) eqn:Hab.
    + constructor; [now constructor | now constructor].
    + constructor; [assumption|].
      apply insertAddon_HdRel; [|assumption].
      unfold addonLe.
      destruct (String.leb_total (addonSortString a) (addonSortString b));
        congruence.
Qed.

Lemma sortAddons_Sorted l : Sorted addonLe (sortAddons l).
Proof.
  induction l as [|a l IH]; simpl; [constructor|].
  now apply insertAddon_Sorted.
Qed.

Lemma insertAddon_head a l : HdRel addonLe a l -> insertAddon a l = a :: l.
Proof.
  destruct 1 as [|b l Hab]; simpl; [reflexivity|].
  unfold addonLe in Hab. now rewrite Hab.
Qed.

Lemma sortAddons_fixes_sorted l : Sorted addonLe l -> sortAddons l = l.
Proof.
  induction 1 as [|a l Hs IH Hhd]; simpl; [reflexivity|].
  rewrite IH. now apply insertAddon_head.
Qed.

Lemma sortAddons_idempotent l : sortAddons (sortAddons l) = sortAddons l.
Proof. apply sortAddons_fixes_sorted, sortAddons_Sorted. Qed.

Lemma keyOf_sortAddons id addons :
  keyOf id (sortAddons addons) = keyOf id addons.
Proof. unfold keyOf. now rewrite sortAddons_idempotent. Qed.

Lemma lineKey_sortLineAddons l : lineKey (sortLineAddons l) = lineKey l.
Proof. unfold lineKey. simpl. apply keyOf_sortAddons. Qed.

Lemma reqKey_sortReqAddons r : reqKey (sortReqAddons r) = reqKey r.
Proof. unfold reqKey. simpl. apply keyOf_sortAddons. Qed.

Lemma hasKey_true k l : hasKey k l = true <-> lineKey l = k.
Proof. unfold hasKey. destruct (Key_eq_dec (lineKey l) k); split; congruence. Qed.

Lemma hasKey_false k l : hasKey k l = false <-> lineKey l <> k.
Proof. unfold hasKey. destruct (Key_eq_dec (lineKey l) k); split; congruence. Qed.

Lemma menuItemMap_id catalog id m :
  menuItemMap catalog id = Some m -> MenuItem._id m = id.
Proof.
  unfold menuItemMap. intros H. apply find_some in H.
  now apply N.eqb_eq.
Qed.

(** ** Grouping of the submission and of the existing lines *)

Lemma firstSubmitted_key k items first :
  firstSubmitted k items = Some first -> In first items /\ reqKey first = k.
Proof.
  unfold firstSubmitted. intros H. apply find_some in H.
  destruct H as [Hin Hk]. split; [assumption|].
  destruct (Key_eq_dec (reqKey first) k); congruence.
Qed.

Lemma firstSubmitted_submitted k items :
  submitted k items <-> firstSubmitted k items <> None.
Proof.
  unfold submitted, firstSubmitted. split.
  - intros (item & Hin & Hk) Hnone.
    apply (find_none _ _ Hnone) in Hin.
    destruct (Key_eq_dec (reqKey item) k); congruence.
  - destruct (find _ items) as [first|] eqn:Hf; [|congruence].
    intros _. apply find_some in Hf. destruct Hf as [Hin Hk].
    exists first. split; [assumption|].
    destruct (Key_eq_dec (reqKey first) k); congruence.
Qed.

Lemma desiredQty_cons k item items :
  desiredQty k (item :: items)
  = if Key_eq_dec (reqKey item) k
    then ReqItem.quantity item + desiredQty k items
    else desiredQty k items.
Proof. reflexivity. Qed.

Lemma firstSubmitted_cons k item items :
  firstSubmitted k (item :: items)
  = if Key_eq_dec (reqKey item) k then Some item
    else firstSubmitted k items.
Proof.
  unfold firstSubmitted. simpl.
  destruct (Key_eq_dec (reqKey item) k); reflexivity.
Qed.

Lemma incoming_fold k items m :
  mapGet Key_eq_dec k (fold_left incomingStep items m)
  = match mapGet Key_eq_dec k m with
    | Some inc =>
        Some (Incoming.mk (Incoming.qty inc + desiredQty k items)
                (Incoming.data inc))
    | None =>
        match firstSubmitted k items with
        | Some first =>
            Some (Incoming.mk (desiredQty k items) (sortReqAddons first))
        | None => None
        end
    end.
Proof.
  revert m. induction items as [|item items IH]; intros m.
  - simpl. destruct (mapGet Key_eq_dec k m) as [[q d]|]; [|reflexivity].
    simpl. now rewrite Z.add_0_r.
  - cbn [fold_left]. rewrite IH. clear IH.
    rewrite desiredQty_cons, firstSubmitted_cons.
    unfold incomingStep. rewrite reqKey_sortReqAddons.
    destruct (Key_eq_dec (reqKey item) k) as [Hk|Hk].
    + rewrite Hk.
      destruct (mapGet Key_eq_dec k m) as [inc|] eqn:Hget;
        rewrite mapGet_mapSet_same; cbn; f_equal; f_equal; lia.
    + destruct (mapGet Key_eq_dec (reqKey item) m) as [inc|] eqn:Hget;
        rewrite mapGet_mapSet_other by assumption; reflexivity.
Qed.

Lemma incomingMap_get k items :
  mapGet Key_eq_dec k (buildIncomingMap items)
  = match firstSubmitted k items with
    | Some first =>
        Some (Incoming.mk (desiredQty k items) (sortReqAddons first))
    | None => None
    end.
Proof. unfold buildIncomingMap. now rewrite incoming_fold. Qed.

Lemma incomingStep_NoDup m item :
  NoDup (mapKeys m) -> NoDup (mapKeys (incomingStep m item)).
Proof.
  intros Hnd. unfold incomingStep.
  destruct (mapGet Key_eq_dec _ m); now apply mapSet_NoDup.
Qed.

Lemma incomingMap_NoDup items : NoDup (mapKeys (buildIncomingMap items)).
Proof.
  unfold buildIncomingMap.
  assert (H : forall m, NoDup (mapKeys m) ->
                        NoDup (mapKeys (fold_left incomingStep items m))).
  { induction items as [|item items IH]; intros m Hm; simpl; [assumption|].
    apply IH. now apply incomingStep_NoDup. }
  apply H. constructor.
Qed.

Lemma existing_fold k old m :
  existingFor (fold_left existingStep old m) k
  = existingFor m k ++ map sortLineAddons (linesWithKey k old).
Proof.
  revert m. induction old as [|item old IH]; intros m; simpl.
  - now rewrite app_nil_r.
  - rewrite IH. clear IH. unfold existingStep, existingFor.
    rewrite lineKey_sortLineAddons. unfold hasKey.
    destruct (Key_eq_dec (lineKey item) k) as [Hk|Hk].
    + subst k.
      destruct (mapGet Key_eq_dec (lineKey item) m) as [ls|] eqn:Hget;
        rewrite mapGet_mapSet_same; simpl; [now rewrite <- app_assoc |
                                           reflexivity].
    + destruct (mapGet Key_eq_dec (lineKey item) m) as [ls|] eqn:Hget;
        rewrite mapGet_mapSet_other by assumption; reflexivity.
Qed.

Lemma existingMap_for k old :
  existingFor (buildExistingMap old) k
  = map sortLineAddons (linesWithKey k old).
Proof. unfold buildExistingMap. now rewrite existing_fold. Qed.

Lemma totalQuantity_from ls init :
  fold_left (fun sum i => sum + OrderLine.quantity i) ls init
  = init + totalQuantity ls.
Proof.
  unfold totalQuantity. revert init.
  induction ls as [|l ls IH]; intros init; simpl; [lia|].
  rewrite IH, (IH (OrderLine.quantity l)). lia.
Qed.

Lemma totalQuantity_cons l ls :
  totalQuantity (l :: ls) = OrderLine.quantity l + totalQuantity ls.
Proof. unfold totalQuantity at 1. simpl. now rewrite totalQuantity_from. Qed.

Lemma totalQuantity_app a b :
  totalQuantity (a ++ b) = totalQuantity a + totalQuantity b.
Proof.
  induction a as [|l a IH]; simpl; [reflexivity|].
  rewrite !totalQuantity_cons, IH. lia.
Qed.

Lemma totalQuantity_sortLineAddons ls :
  totalQuantity (map sortLineAddons ls) = totalQuantity ls.
Proof.
  induction ls as [|l ls IH]; simpl; [reflexivity|].
  rewrite !totalQuantity_cons, IH. reflexivity.
Qed.

(** ** The staff loop, key by key *)

Lemma staffStep_fold_None catalog changedBy existingMap entries :
  fold_left (staffStep catalog changedBy existingMap) entries None = None.
Proof. induction entries; simpl; auto. Qed.

Lemma staffStep_fold catalog changedBy existingMap entries L0 H0 L H :
  fold_left (staffStep catalog changedBy existingMap) entries (Some (L0, H0))
  = Some (L, H) ->
  L = L0 ++ flat_map
              (fun e =>
                 match entryOutput catalog changedBy existingMap e with
                 | Some (ls, _) => ls
                 | None => []
                 end) entries
  /\ H = H0 ++ flat_map
                 (fun e =>
                    match entryOutput catalog changedBy existingMap e with
                    | Some (_, evs) => evs
                    | None => []
                    end) entries
  /\ Forall (fun e => entryOutput catalog changedBy existingMap e <> None)
       entries.
Proof.
  revert L0 H0. induction entries as [|[k inc] entries IH]; intros L0 H0.
  - simpl. intros Heq. injection Heq as <- <-.
    rewrite !app_nil_r. repeat split. constructor.
  - cbn [fold_left]. unfold staffStep at 2. unfold entryOutput at 1 2 3.
    cbn [fst snd flat_map].
    destruct (menuItemMap catalog (ReqItem.menuItemId (Incoming.data inc)))
      as [menuItem|] eqn:Hm.
    + destruct (staffKey changedBy menuItem inc (existingFor existingMap k))
        as [ls evs] eqn:Hk.
      intros Hfold. apply IH in Hfold. destruct Hfold as (-> & -> & Hall).
      rewrite <- !app_assoc. repeat split.
      constructor; [|assumption].
      unfold entryOutput. cbn [fst snd]. rewrite Hm. discriminate.
    + rewrite staffStep_fold_None. discriminate.
Qed.

Lemma entryOutput_staffKeyOutput catalog changedBy oldItems items k inc :
  In (k, inc) (buildIncomingMap items) ->
  entryOutput catalog changedBy (buildExistingMap oldItems) (k, inc)
  = staffKeyOutput catalog changedBy oldItems items k.
Proof.
  intros Hin. unfold staffKeyOutput, entryOutput.
  rewrite (In_mapGet Key_eq_dec k inc _ (incomingMap_NoDup items) Hin).
  reflexivity.
Qed.

Lemma flat_map_entries {B : Type} (f : Key * Incoming.t -> list B)
  (g : Key -> list B) (entries : list (Key * Incoming.t)) :
  (forall e, In e entries -> f e = g (fst e)) ->
  flat_map f entries = flat_map g (mapKeys entries).
Proof.
  induction entries as [|e entries IH]; intros Hfg; simpl; [reflexivity|].
  rewrite Hfg by now left. f_equal. apply IH.
  intros e' He'. apply Hfg. now right.
Qed.

(** The result of the staff loop is the concatenation, key after key, of
    what each key's iteration pushes. *)
Lemma staffReconcile_by_key catalog changedBy oldItems items L H :
  staffReconcile catalog changedBy oldItems items = Some (L, H) ->
  L = flat_map (staffKeyLines catalog changedBy oldItems items)
        (submittedKeys items)
  /\ H = flat_map (staffKeyEvents catalog changedBy oldItems items)
           (submittedKeys items)
  /\ Forall
       (fun k => staffKeyOutput catalog changedBy oldItems items k <> None)
       (submittedKeys items).
Proof.
  unfold staffReconcile. intros Hfold.
  apply staffStep_fold in Hfold. destruct Hfold as (-> & -> & Hall).
  simpl. unfold submittedKeys. repeat split.
  - apply flat_map_entries. intros [k inc] Hin.
    unfold staffKeyLines. cbn [fst].
    now rewrite (entryOutput_staffKeyOutput _ _ _ _ _ _ Hin).
  - apply flat_map_entries. intros [k inc] Hin.
    unfold staffKeyEvents. cbn [fst].
    now rewrite (entryOutput_staffKeyOutput _ _ _ _ _ _ Hin).
  - unfold mapKeys. apply Forall_map.
    rewrite Forall_forall in Hall |- *. intros [k inc] Hin.
    cbn [fst].
    rewrite <- (entryOutput_staffKeyOutput _ _ _ _ _ _ Hin).
    now apply Hall.
Qed.

Lemma lineEdit_key l l' : lineEdit l l' -> lineKey l' = lineKey l.
Proof. destruct 1; reflexivity. Qed.

Lemma lineEdit_id l l' : lineEdit l l' -> OrderLine._id l' = OrderLine._id l.
Proof. destruct 1; reflexivity. Qed.

Lemma lineEdit_status l l' :
  lineEdit l l' -> OrderLine.status l' = OrderLine.status l.
Proof. destruct 1; reflexivity. Qed.

Lemma removeFromExisting_zero ls a : a <= 0 -> removeFromExisting ls a = ls.
Proof.
  intros Ha. induction ls as [|l ls IH]; simpl; [reflexivity|].
  destruct (Z.leb_spec a 0); [|lia]. now rewrite IH.
Qed.

Lemma removeFromExisting_edits ls a :
  Forall2 lineEdit ls (removeFromExisting ls a).
Proof.
  revert a. induction ls as [|l ls IH]; intros a; simpl; [constructor|].
  destruct (Z.leb_spec a 0).
  - constructor; [constructor | apply IH].
  - destruct (Z.ltb_spec a (OrderLine.quantity l)).
    + constructor; [|apply IH]. constructor. lia.
    + constructor; [constructor | apply IH].
Qed.

Lemma insertByPriority_perm a l : Permutation (insertByPriority a l) (a :: l).
Proof.
  induction l as [|b l IH]; simpl; [reflexivity|].
  destruct (_ <=? _); [reflexivity|].
  rewrite IH. apply perm_swap.
Qed.

Lemma sortByPriority_perm l : Permutation (sortByPriority l) l.
Proof.
  induction l as [|a l IH]; simpl; [reflexivity|].
  rewrite insertByPriority_perm. now constructor.
Qed.

Lemma Forall2_Forall_r {A B : Type} (R : A -> B -> Prop) (P : A -> Prop)
  (Q : B -> Prop) la lb :
  (forall a b, R a b -> P a -> Q b) ->
  Forall2 R la lb -> Forall P la -> Forall Q lb.
Proof.
  intros HR. induction 1 as [|a b la lb Hab _ IH]; intros HP;
    [constructor|].
  inversion HP; subst. constructor; eauto.
Qed.

(** *** The three cases of the per-key body *)

Lemma staffKey_unchanged changedBy menuItem incoming existingList :
  Incoming.qty incoming = totalQuantity existingList ->
  staffKey changedBy menuItem incoming existingList = (existingList, []).
Proof.
  intros Heq. unfold staffKey. rewrite Heq, Z.eqb_refl. reflexivity.
Qed.

Lemma staffKey_increase changedBy menuItem incoming existingList :
  Incoming.qty incoming > totalQuantity existingList ->
  staffKey changedBy menuItem incoming existingList
  = (existingList ++
       [OrderLine.mk None (MenuItem._id menuItem) (MenuItem.name menuItem)
          (MenuItem.price menuItem)
          (Incoming.qty incoming - totalQuantity existingList)
          (ReqItem.addons (Incoming.data incoming))
          (ReqItem.specialInstructions (Incoming.data incoming))
          true false IPending],
     [ChangeEvent.mk
        (if totalQuantity existingList =? 0 then item_added
         else quantity_increased)
        (MenuItem.name menuItem)
        (if totalQuantity existingList =? 0 then None
         else Some (totalQuantity existingList))
        (Some (Incoming.qty incoming)) changedBy]).
Proof.
  intros Hgt. unfold staffKey.
  destruct (Z.eqb_spec (Incoming.qty incoming) (totalQuantity existingList));
    [lia|].
  destruct (Z.gtb_spec (Incoming.qty incoming) (totalQuantity existingList));
    [|lia].
  destruct (totalQuantity existingList =? 0); reflexivity.
Qed.

Lemma staffKey_decrease changedBy menuItem incoming existingList :
  Incoming.qty incoming < totalQuantity existingList ->
  staffKey changedBy menuItem incoming existingList
  = (removeFromExisting (sortByPriority existingList)
       (totalQuantity existingList - Incoming.qty incoming),
     [ChangeEvent.mk quantity_decreased (MenuItem.name menuItem)
        (Some (totalQuantity existingList)) (Some (Incoming.qty incoming))
        changedBy]).
Proof.
  intros Hlt. unfold staffKey.
  destruct (Z.eqb_spec (Incoming.qty incoming) (totalQuantity existingList));
    [lia|].
  destruct (Z.gtb_spec (Incoming.qty incoming) (totalQuantity existingList));
    [lia|].
  reflexivity.
Qed.

(** *** One key of the submission *)

Lemma staffKeyOutput_spec catalog changedBy oldItems items k out :
  staffKeyOutput catalog changedBy oldItems items k = Some out ->
  exists first menuItem,
    firstSubmitted k items = Some first
    /\ menuItemMap catalog (ReqItem.menuItemId first) = Some menuItem
    /\ out = staffKey changedBy menuItem
               (Incoming.mk (desiredQty k items) (sortReqAddons first))
               (map sortLineAddons (linesWithKey k oldItems)).
Proof.
  unfold staffKeyOutput. rewrite incomingMap_get, existingMap_for.
  destruct (firstSubmitted k items) as [first|]; [|discriminate].
  cbn [Incoming.data sortReqAddons ReqItem.menuItemId].
  destruct (menuItemMap catalog (ReqItem.menuItemId first)) as [menuItem|]
    eqn:Hm; [|discriminate].
  intros Heq. injection Heq as <-.
  exists first, menuItem. repeat split. assumption.
Qed.

Lemma existing_lines_key k oldItems :
  Forall (fun l => lineKey l = k)
    (map sortLineAddons (linesWithKey k oldItems)).
Proof.
  apply Forall_map, Forall_forall. intros l Hin.
  rewrite lineKey_sortLineAddons.
  apply filter_In in Hin. now apply hasKey_true.
Qed.

Lemma staffKeyLines_key catalog changedBy oldItems items k :
  Forall (fun l => lineKey l = k)
    (staffKeyLines catalog changedBy oldItems items k).
Proof.
  unfold staffKeyLines.
  destruct (staffKeyOutput catalog changedBy oldItems items k)
    as [[ls evs]|] eqn:Hout; [|constructor].
  apply staffKeyOutput_spec in Hout.
  destruct Hout as (first & menuItem & Hfirst & Hmenu & Hout).
  apply firstSubmitted_key in Hfirst. destruct Hfirst as [_ Hk].
  apply menuItemMap_id in Hmenu.
  pose proof (existing_lines_key k oldItems) as Hex.
  set (existing := map sortLineAddons (linesWithKey k oldItems)) in *.
  set (incoming := Incoming.mk (desiredQty k items) (sortReqAddons first))
    in *.
  destruct (Z.lt_total (Incoming.qty incoming) (totalQuantity existing))
    as [Hlt | [Heq | Hgt]].
  - rewrite staffKey_decrease in Hout by assumption.
    injection Hout as -> _.
    apply (Forall2_Forall_r lineEdit (fun l => lineKey l = k)
             (fun l => lineKey l = k) (sortByPriority existing)).
    + intros a b Hab Ha. now rewrite (lineEdit_key _ _ Hab).
    + apply removeFromExisting_edits.
    + eapply Permutation_Forall; [|exact Hex].
      symmetry. apply sortByPriority_perm.
  - rewrite staffKey_unchanged in Hout by assumption.
    injection Hout as -> _. assumption.
  - rewrite staffKey_increase in Hout by lia.
    injection Hout as -> _.
    apply Forall_app. split; [assumption|].
    constructor; [|constructor].
    unfold lineKey. cbn. rewrite Hmenu.
    rewrite keyOf_sortAddons. exact Hk.
Qed.

Lemma linesWithKey_app k a b :
  linesWithKey k (a ++ b) = linesWithKey k a ++ linesWithKey k b.
Proof. apply filter_app. Qed.

Lemma linesWithKey_all k ls :
  Forall (fun l => lineKey l = k) ls -> linesWithKey k ls = ls.
Proof.
  induction 1 as [|l ls Hl _ IH]; simpl; [reflexivity|].
  apply hasKey_true in Hl. rewrite Hl. now rewrite IH.
Qed.

Lemma linesWithKey_none k k' ls :
  k' <> k -> Forall (fun l => lineKey l = k') ls -> linesWithKey k ls = [].
Proof.
  intros Hne. induction 1 as [|l ls Hl _ IH]; simpl; [reflexivity|].
  assert (Hf : hasKey k l = false) by (apply hasKey_false; congruence).
  now rewrite Hf.
Qed.

Lemma linesWithKey_flat_map (f : Key -> list OrderLine.t) keys k :
  (forall k', Forall (fun l => lineKey l = k') (f k')) ->
  NoDup keys ->
  linesWithKey k (flat_map f keys) = if in_dec Key_eq_dec k keys then f k else [].
Proof.
  intros Hf. induction 1 as [|k0 keys Hnotin Hnd IH]; simpl; [reflexivity|].
  rewrite linesWithKey_app, IH.
  destruct (Key_eq_dec k0 k) as [->|Hne].
  - rewrite linesWithKey_all by apply Hf.
    destruct (in_dec Key_eq_dec k keys); [contradiction|].
    now rewrite app_nil_r.
  - rewrite (linesWithKey_none k k0) by (auto || apply Hf).
    destruct (in_dec Key_eq_dec k keys); reflexivity.
Qed.

Lemma submittedKeys_In k items :
  In k (submittedKeys items) <-> submitted k items.
Proof.
  unfold submittedKeys. rewrite firstSubmitted_submitted.
  pose proof (mapGet_None_keys Key_eq_dec k (buildIncomingMap items)) as Hn.
  rewrite incomingMap_get in Hn.
  destruct (firstSubmitted k items) as [first|].
  - split; [congruence|]. intros _.
    destruct (in_dec Key_eq_dec k (mapKeys (buildIncomingMap items)))
      as [Hin|Hnin]; [assumption|].
    apply Hn in Hnin. discriminate.
  - split; [|congruence]. intros Hin. exfalso.
    now apply (proj1 Hn).
Qed.

(** The lines of one key in the result are those its own iteration pushed. *)
Lemma staffReconcile_lines catalog changedBy oldItems items L H k :
  staffReconcile catalog changedBy oldItems items = Some (L, H) ->
  (submitted k items ->
   linesWithKey k L = staffKeyLines catalog changedBy oldItems items k)
  /\ (~ submitted k items -> linesWithKey k L = []).
Proof.
  intros Hrec. apply staffReconcile_by_key in Hrec.
  destruct Hrec as (-> & _ & _).
  rewrite linesWithKey_flat_map;
    [| intros k'; apply staffKeyLines_key | apply incomingMap_NoDup].
  destruct (in_dec Key_eq_dec k (submittedKeys items)) as [Hin|Hnin].
  - split; [reflexivity|]. intros Hn. exfalso. apply Hn.
    now apply submittedKeys_In.
  - split; [|reflexivity]. intros Hs. exfalso. apply Hnin.
    now apply submittedKeys_In.
Qed.

(** *** The shape of a decrease *)

Lemma insertByPriority_sorted a l :
  StronglySorted priorityLe l -> StronglySorted priorityLe (insertByPriority a l).
Proof.
  induction 1 as [|b l Hs IH Hall]; simpl.
  - repeat constructor.
  - destruct (Z.leb_spec (statusPriority (OrderLine.status a))
                (statusPriority (OrderLine.status b))) as [Hle|Hgt].
    + constructor; [now constructor|].
      constructor; [assumption|].
      eapply Forall_impl; [|exact Hall].
      unfold priorityLe. intros c Hc. lia.
    + constructor; [assumption|].
      eapply Permutation_Forall;
        [symmetry; apply insertByPriority_perm|].
      constructor; [unfold priorityLe; lia | assumption].
Qed.

Lemma sortByPriority_sorted l : StronglySorted priorityLe (sortByPriority l).
Proof.
  induction l as [|a l IH]; simpl; [constructor|].
  now apply insertByPriority_sorted.
Qed.

(** Stability: lines of one status keep their relative order. *)
Lemma sortByPriority_stable s l :
  filter (fun x => itemStatus_eqb (OrderLine.status x) s) (sortByPriority l)
  = filter (fun x => itemStatus_eqb (OrderLine.status x) s) l.
Proof.
  induction l as [|a l IH]; simpl; [reflexivity|].
  rewrite <- IH. clear IH. generalize (sortByPriority l) as ls.
  induction ls as [|b ls IH]; simpl; [reflexivity|].
  destruct (Z.leb_spec (statusPriority (OrderLine.status a))
              (statusPriority (OrderLine.status b))) as [Hle|Hgt];
    [reflexivity|].
  simpl. rewrite IH.
  destruct (OrderLine.status a), (OrderLine.status b), s; simpl in *;
    try reflexivity; lia.
Qed.

Lemma StronglySorted_app_order {A : Type} (R : A -> A -> Prop) l1 l2 :
  StronglySorted R (l1 ++ l2) ->
  forall a b, In a l1 -> In b l2 -> R a b.
Proof.
  induction l1 as [|x l1 IH]; simpl; intros Hs a b Ha Hb; [contradiction|].
  apply StronglySorted_inv in Hs. destruct Hs as [Hs Hall].
  destruct Ha as [<- | Ha].
  - rewrite Forall_forall in Hall. apply Hall.
    apply in_or_app. now right.
  - now apply IH.
Qed.

Lemma removeFromExisting_shape ls a :
  0 <= a <= totalQuantity ls ->
  exists pre post,
    (ls = pre ++ post
     /\ removeFromExisting ls a = map OrderLine.markRemoved pre ++ post
     /\ totalQuantity pre = a)
    \/ (exists m r,
          ls = pre ++ m :: post
          /\ removeFromExisting ls a
             = map OrderLine.markRemoved pre
               ++ OrderLine.setQuantity (OrderLine.quantity m - r) m :: post
          /\ 0 < r < OrderLine.quantity m
          /\ totalQuantity pre + r = a).
Proof.
  revert a. induction ls as [|l ls IH]; intros a Ha.
  - exists [], []. left. unfold totalQuantity in Ha. simpl in *.
    repeat split. unfold totalQuantity. simpl. lia.
  - rewrite totalQuantity_cons in Ha. simpl.
    destruct (Z.leb_spec a 0) as [Hz|Hpos].
    + exists [], (l :: ls). left. simpl.
      rewrite removeFromExisting_zero by assumption.
      repeat split. unfold totalQuantity. simpl. lia.
    + destruct (Z.ltb_spec a (OrderLine.quantity l)) as [Hlt|Hge].
      * exists [], ls. right. exists l, a. simpl.
        rewrite removeFromExisting_zero by lia.
        repeat split; unfold totalQuantity; simpl; lia.
      * destruct (IH (a - OrderLine.quantity l)) as (pre & post & Hshape);
          [lia|].
        exists (l :: pre), post.
        destruct Hshape as [(-> & Hout & Hsum) | (m & r & -> & Hout & Hr & Hsum)].
        -- left. simpl. rewrite Hout, totalQuantity_cons.
           repeat split. lia.
        -- right. exists m, r. simpl. rewrite Hout, totalQuantity_cons.
           repeat split; lia.
Qed.

Lemma nonRemoved_app a b : nonRemoved (a ++ b) = nonRemoved a ++ nonRemoved b.
Proof. apply filter_app. Qed.

Lemma nonRemoved_markRemoved ls : nonRemoved (map OrderLine.markRemoved ls) = [].
Proof. induction ls as [|l ls IH]; simpl; auto. Qed.

Lemma nonRemoved_all ls :
  Forall (fun l => OrderLine.isRemoved l = false) ls -> nonRemoved ls = ls.
Proof.
  induction 1 as [|l ls Hl _ IH]; simpl; [reflexivity|].
  rewrite Hl. simpl. now rewrite IH.
Qed.

Lemma nonRemoved_Forall ls :
  Forall (fun l => OrderLine.isRemoved l = false) (nonRemoved ls).
Proof.
  apply Forall_forall. intros l Hin. apply filter_In in Hin.
  destruct Hin as [_ Hn]. now apply negb_true_iff.
Qed.

Lemma totalQuantity_markRemoved ls :
  totalQuantity (map OrderLine.markRemoved ls) = totalQuantity ls.
Proof.
  induction ls as [|l ls IH]; simpl; [reflexivity|].
  rewrite !totalQuantity_cons, IH. reflexivity.
Qed.

Lemma totalQuantity_perm a b :
  Permutation a b -> totalQuantity a = totalQuantity b.
Proof.
  induction 1; rewrite ?totalQuantity_cons; lia.
Qed.

(** What a decrease leaves: the active lines add up to the total minus the
    deficit; flagged lines included, the sum does not exceed the total. *)
Lemma removeFromExisting_sums ls a :
  Forall (fun l => OrderLine.isRemoved l = false) ls ->
  0 <= a <= totalQuantity ls ->
  totalQuantity (nonRemoved (removeFromExisting ls a)) = totalQuantity ls - a
  /\ totalQuantity (removeFromExisting ls a) <= totalQuantity ls.
Proof.
  intros Hact Ha.
  destruct (removeFromExisting_shape ls a Ha) as (pre & post & Hshape).
  destruct Hshape as [(-> & -> & Hsum) | (m & r & -> & -> & Hr & Hsum)].
  - apply Forall_app in Hact. destruct Hact as [_ Hpost].
    rewrite nonRemoved_app, nonRemoved_markRemoved.
    rewrite (nonRemoved_all post Hpost). simpl.
    rewrite !totalQuantity_app, totalQuantity_markRemoved. lia.
  - apply Forall_app in Hact. destruct Hact as [_ Hpost].
    inversion Hpost as [|? ? Hm Hpost']; subst.
    rewrite nonRemoved_app, nonRemoved_markRemoved.
    cbn [app]. unfold nonRemoved at 1. cbn [filter].
    cbn [OrderLine.isRemoved OrderLine.setQuantity]. rewrite Hm.
    cbn [negb]. fold (nonRemoved post).
    rewrite (nonRemoved_all post Hpost').
    rewrite !totalQuantity_app, !totalQuantity_cons,
      totalQuantity_markRemoved.
    cbn [OrderLine.quantity OrderLine.setQuantity]. lia.
Qed.

(** The case-C loop, line by line: a leading run of the sorted lines is
    flagged at its quantity, at most one line behind it is lowered in place,
    the lines behind stay as they were. *)
Lemma insertByPriority_map a l :
  insertByPriority (sortLineAddons a) (map sortLineAddons l)
  = map sortLineAddons (insertByPriority a l).
Proof.
  induction l as [|b l IH]; simpl; [reflexivity|].
  destruct (_ <=? _); simpl; [reflexivity|]. now rewrite IH.
Qed.

Lemma sortByPriority_map l :
  sortByPriority (map sortLineAddons l)
  = map sortLineAddons (sortByPriority l).
Proof.
  induction l as [|a l IH]; simpl; [reflexivity|].
  rewrite IH. apply insertByPriority_map.
Qed.

Lemma sortLineAddons_sameLine e l :
  OrderLine._id l = OrderLine._id (sortLineAddons e) ->
  OrderLine.menuItemId l = OrderLine.menuItemId (sortLineAddons e) ->
  OrderLine.name l = OrderLine.name (sortLineAddons e) ->
  OrderLine.price l = OrderLine.price (sortLineAddons e) ->
  OrderLine.specialInstructions l
  = OrderLine.specialInstructions (sortLineAddons e) ->
  OrderLine.status l = OrderLine.status (sortLineAddons e) ->
  lineKey l = lineKey (sortLineAddons e) ->
  sameLine e l.
Proof.
  intros H1 H2 H3 H4 H5 H6 H7. unfold sameLine.
  rewrite H1, H2, H3, H4, H5, H6, H7, lineKey_sortLineAddons.
  repeat split.
Qed.

Lemma sortLineAddons_keptFrom e : keptFrom e (sortLineAddons e).
Proof.
  split; [apply sortLineAddons_sameLine; reflexivity|]. repeat split.
Qed.

Lemma markRemoved_flaggedFrom e :
  flaggedFrom e (OrderLine.markRemoved (sortLineAddons e)).
Proof.
  split; [apply sortLineAddons_sameLine; reflexivity|]. repeat split.
Qed.

Lemma setQuantity_loweredFrom e r :
  0 < r < OrderLine.quantity e ->
  loweredFrom r e
    (OrderLine.setQuantity (OrderLine.quantity e - r) (sortLineAddons e)).
Proof.
  intros Hr.
  split; [apply sortLineAddons_sameLine; reflexivity|]. repeat split; lia.
Qed.

Lemma keptFrom_all ls : Forall2 keptFrom ls (map sortLineAddons ls).
Proof.
  induction ls as [|l ls IH]; simpl; constructor;
    [apply sortLineAddons_keptFrom | assumption].
Qed.

Lemma removeFromExisting_explicit ls a :
  0 <= a <= totalQuantity ls ->
  exists removed rest flagged rest' r,
    ls = removed ++ rest
    /\ removeFromExisting (map sortLineAddons ls) a = flagged ++ rest'
    /\ Forall2 flaggedFrom removed flagged
    /\ ((r = 0 /\ Forall2 keptFrom rest rest')
        \/ exists m m' post post',
             rest = m :: post
             /\ rest' = m' :: post'
             /\ loweredFrom r m m'
             /\ Forall2 keptFrom post post')
    /\ totalQuantity removed + r = a.
Proof.
  revert a. induction ls as [|l ls IH]; intros a Ha.
  - exists [], [], [], [], 0. unfold totalQuantity in Ha. simpl in Ha.
    split; [reflexivity|]. split; [reflexivity|]. split; [constructor|].
    split; [left; split; [reflexivity | constructor]|].
    unfold totalQuantity. simpl. lia.
  - rewrite totalQuantity_cons in Ha. cbn [map removeFromExisting].
    change (OrderLine.quantity (sortLineAddons l)) with (OrderLine.quantity l).
    destruct (Z.leb_spec a 0) as [Hz|Hpos].
    + exists [], (l :: ls), [], (map sortLineAddons (l :: ls)), 0.
      rewrite removeFromExisting_zero by assumption.
      split; [reflexivity|]. split; [reflexivity|]. split; [constructor|].
      split; [left; split; [reflexivity | apply keptFrom_all]|].
      unfold totalQuantity. simpl. lia.
    + destruct (Z.ltb_spec a (OrderLine.quantity l)) as [Hlt|Hge].
      * exists [], (l :: ls), [],
          (OrderLine.setQuantity (OrderLine.quantity l - a) (sortLineAddons l)
           :: map sortLineAddons ls), a.
        rewrite removeFromExisting_zero by lia.
        split; [reflexivity|]. split; [reflexivity|]. split; [constructor|].
        split; [right | unfold totalQuantity; simpl; lia].
        exists l, (OrderLine.setQuantity (OrderLine.quantity l - a)
                     (sortLineAddons l)), ls, (map sortLineAddons ls).
        split; [reflexivity|]. split; [reflexivity|].
        split; [apply setQuantity_loweredFrom; lia | apply keptFrom_all].
      * destruct (IH (a - OrderLine.quantity l))
          as (removed & rest & flagged & rest' & r & -> & Hout & Hfl & Hrest
              & Hsum); [lia|].
        exists (l :: removed), rest,
          (OrderLine.markRemoved (sortLineAddons l) :: flagged), rest', r.
        rewrite Hout, totalQuantity_cons.
        split; [reflexivity|]. split; [reflexivity|].
        split; [constructor; [apply markRemoved_flaggedFrom | assumption]|].
        split; [exact Hrest | lia].
Qed.

Lemma flaggedFrom_total removed flagged :
  Forall2 flaggedFrom removed flagged ->
  totalQuantity flagged = totalQuantity removed /\ nonRemoved flagged = [].
Proof.
  induction 1 as [|e l removed flagged (_ & Hq & Hrm & _) _ [IHq IHn]];
    [split; reflexivity|].
  rewrite !totalQuantity_cons, IHq, Hq. split; [reflexivity|].
  unfold nonRemoved. cbn [filter]. rewrite Hrm. exact IHn.
Qed.

Lemma keptFrom_total rest rest' :
  Forall2 keptFrom rest rest' -> totalQuantity rest' = totalQuantity rest.
Proof.
  induction 1 as [|e l rest rest' (_ & Hq & _) _ IH]; [reflexivity|].
  now rewrite !totalQuantity_cons, IH, Hq.
Qed.

Lemma lessAdvanced_priority a b :
  statusPriority a <= statusPriority b -> lessAdvanced b a = false.
Proof. destruct a, b; simpl; intros H; try reflexivity; lia. Qed.

Lemma sortByPriority_status_order l :
  StronglySorted
    (fun a b =>
       lessAdvanced (OrderLine.status b) (OrderLine.status a) = false)
    (sortByPriority l).
Proof.
  pose proof (sortByPriority_sorted l) as Hs.
  induction Hs as [|a ls _ IH Hall]; constructor; [exact IH|].
  eapply Forall_impl; [|exact Hall].
  intros b Hab. now apply lessAdvanced_priority.
Qed.

(** ** The staff policy, seen from the handler *)

Lemma updateOrder_staff {M : Mongoose} catalog req order code order' :
  reply (updateOrder true catalog req order) = Success code order' ->
  exists L H,
    staffReconcile catalog staff (nonRemoved (Order.items order))
      (UpdateReq.items req) = Some (L, H)
    /\ Order.items order' = L
    /\ Order.updateHistory order' = Order.updateHistory order ++ H
    /\ Order.totalPrice order' = round2 (sumLinePrices L)
    /\ Forall (fun item => 1 <= ReqItem.quantity item) (UpdateReq.items req).
Proof.
  intros Hok. apply updateOrder_success in Hok.
  destruct Hok as (L & H & T & Hrec & -> & _ & _ & Hq & _).
  unfold staffReconcileTotal in Hrec.
  destruct (staffReconcile _ _ _ _) as [[L' H']|]; [|discriminate].
  injection Hrec as -> -> <-.
  exists L, H. rewrite applyUpdate_items, applyUpdate_updateHistory,
    applyUpdate_totalPrice. repeat split. assumption.
Qed.

Lemma staff_key_summary catalog changedBy oldItems items L H k :
  staffReconcile catalog changedBy oldItems items = Some (L, H) ->
  submitted k items ->
  exists first menuItem,
    firstSubmitted k items = Some first
    /\ menuItemMap catalog (ReqItem.menuItemId first) = Some menuItem
    /\ linesWithKey k L
       = fst (staffKey changedBy menuItem
                (Incoming.mk (desiredQty k items) (sortReqAddons first))
                (map sortLineAddons (linesWithKey k oldItems)))
    /\ staffKeyEvents catalog changedBy oldItems items k
       = snd (staffKey changedBy menuItem
                (Incoming.mk (desiredQty k items) (sortReqAddons first))
                (map sortLineAddons (linesWithKey k oldItems))).
Proof.
  intros Hrec Hsub.
  destruct (staffReconcile_lines _ _ _ _ _ _ k Hrec) as [Hlines _].
  specialize (Hlines Hsub).
  apply staffReconcile_by_key in Hrec. destruct Hrec as (_ & _ & Hall).
  rewrite Forall_forall in Hall.
  specialize (Hall k (proj2 (submittedKeys_In k items) Hsub)).
  destruct (staffKeyOutput catalog changedBy oldItems items k) as [out|]
    eqn:Hout; [|congruence].
  destruct (staffKeyOutput_spec _ _ _ _ _ _ Hout)
    as (first & menuItem & Hfirst & Hmenu & ->).
  exists first, menuItem. rewrite Hlines.
  unfold staffKeyLines, staffKeyEvents. rewrite Hout.
  destruct (staffKey _ _ _ _). repeat split; assumption.
Qed.

Lemma desiredQty_nonneg k items :
  Forall (fun item => 1 <= ReqItem.quantity item) items ->
  0 <= desiredQty k items.
Proof.
  induction 1 as [|item items Hq _ IH]; [unfold desiredQty; simpl; lia|].
  rewrite desiredQty_cons. destruct (Key_eq_dec (reqKey item) k); lia.
Qed.

Lemma desiredQty_pos k items :
  Forall (fun item => 1 <= ReqItem.quantity item) items ->
  submitted k items -> 1 <= desiredQty k items.
Proof.
  intros Hall (item & Hin & Hk).
  induction Hall as [|x items Hq Hall IH]; [contradiction|].
  rewrite desiredQty_cons.
  pose proof (desiredQty_nonneg k items Hall).
  destruct Hin as [-> | Hin].
  - destruct (Key_eq_dec (reqKey item) k); [lia | contradiction].
  - specialize (IH Hin). destruct (Key_eq_dec (reqKey x) k); lia.
Qed.

Lemma sortLineAddons_fields ls :
  map OrderLine._id (map sortLineAddons ls) = map OrderLine._id ls
  /\ map OrderLine.quantity (map sortLineAddons ls)
     = map OrderLine.quantity ls
  /\ map OrderLine.status (map sortLineAddons ls) = map OrderLine.status ls
  /\ map OrderLine.isRemoved (map sortLineAddons ls)
     = map OrderLine.isRemoved ls.
Proof. rewrite !map_map. repeat split. Qed.

(** Case C as the handler runs it, for one key of the submission. *)
Lemma staff_decrease_shape {M : Mongoose} catalog req order code order' k :
  reply (updateOrder true catalog req order) = Success code order' ->
  submitted k (UpdateReq.items req) ->
  desiredQty k (UpdateReq.items req)
  < existingTotalQty k (Order.items order) ->
  exists removed rest flagged rest' r event,
    sortByPriority (linesWithKey k (nonRemoved (Order.items order)))
    = removed ++ rest
    /\ linesWithKey k (Order.items order') = flagged ++ rest'
    /\ Forall2 flaggedFrom removed flagged
    /\ ((r = 0 /\ Forall2 keptFrom rest rest')
        \/ exists m m' post post',
             rest = m :: post
             /\ rest' = m' :: post'
             /\ loweredFrom r m m'
             /\ Forall2 keptFrom post post')
    /\ totalQuantity removed + r
       = existingTotalQty k (Order.items order)
         - desiredQty k (UpdateReq.items req)
    /\ staffKeyEvents catalog staff (nonRemoved (Order.items order))
         (UpdateReq.items req) k = [event]
    /\ ChangeEvent.changeType event = quantity_decreased
    /\ ChangeEvent.oldQuantity event
       = Some (existingTotalQty k (Order.items order))
    /\ ChangeEvent.newQuantity event
       = Some (desiredQty k (UpdateReq.items req))
    /\ ChangeEvent.changedBy event = staff.
Proof.
  intros Hok Hsub Hlt.
  destruct (updateOrder_staff _ _ _ _ _ Hok)
    as (L & H & Hrec & HL & HH & _ & Hq).
  destruct (staff_key_summary _ _ _ _ _ _ k Hrec Hsub)
    as (first & menuItem & Hfirst & Hmenu & Hlines & Hevents).
  set (existing := linesWithKey k (nonRemoved (Order.items order))) in *.
  assert (Htotal : totalQuantity (map sortLineAddons existing)
                   = existingTotalQty k (Order.items order)).
  { unfold existing, existingTotalQty.
    now rewrite totalQuantity_sortLineAddons. }
  rewrite staffKey_decrease in Hlines, Hevents
    by (cbn [Incoming.qty]; rewrite Htotal; exact Hlt).
  cbn [fst snd Incoming.qty Incoming.data] in Hlines, Hevents.
  rewrite Htotal, sortByPriority_map in Hlines. rewrite Htotal in Hevents.
  pose proof (desiredQty_pos k _ Hq Hsub) as Hpos.
  destruct (removeFromExisting_explicit (sortByPriority existing)
              (existingTotalQty k (Order.items order)
               - desiredQty k (UpdateReq.items req)))
    as (removed & rest & flagged & rest' & r & Hsplit & Hout & Hfl & Hrest
        & Hsum).
  { rewrite (totalQuantity_perm _ _ (sortByPriority_perm existing)).
    unfold existingTotalQty in *. fold existing in Hlt |- *. lia. }
  exists removed, rest, flagged, rest', r. eexists.
  rewrite HL, Hlines, Hout.
  split; [exact Hsplit|]. split; [reflexivity|]. split; [exact Hfl|].
  split; [exact Hrest|]. split; [exact Hsum|]. split; [exact Hevents|].
  repeat split.
Qed.

(** C4. When a staff edit is applied and the quantity submitted for a key
    exceeds the total of the existing non-removed lines of that key, the lines
    of that key in the new item list are the existing ones, in their order
    and with their id, quantity and status (only their addon arrays went
    through the in-place sort), followed by one new line for the surplus with
    status [pending], [isNew = true] and no id yet; the iteration of that key
    logs exactly one event, [item_added] when the existing total was zero and
    [quantity_increased] otherwise; and the order's history grows by the
    events of the submitted keys, key after key. *)
Theorem staff_quantity_increase {M : Mongoose} :
  forall catalog req order code order' k,
    reply (updateOrder true catalog req order) = Success code order' ->
    submitted k (UpdateReq.items req) ->
    desiredQty k (UpdateReq.items req)
    > existingTotalQty k (Order.items order) ->
    let items := UpdateReq.items req in
    let oldItems := nonRemoved (Order.items order) in
    let existing := linesWithKey k oldItems in
    let retained := map sortLineAddons existing in
    exists newLine event,
      linesWithKey k (Order.items order') = retained ++ [newLine]
      /\ map OrderLine._id retained = map OrderLine._id existing
      /\ map OrderLine.quantity retained = map OrderLine.quantity existing
      /\ map OrderLine.status retained = map OrderLine.status existing
      /\ OrderLine.quantity newLine
         = desiredQty k items - existingTotalQty k (Order.items order)
      /\ OrderLine.status newLine = IPending
      /\ OrderLine.isNew newLine = true
      /\ OrderLine.isRemoved newLine = false
      /\ OrderLine._id newLine = None
      /\ lineKey newLine = k
      /\ staffKeyEvents catalog staff oldItems items k = [event]
      /\ ChangeEvent.changeType event
         = (if existingTotalQty k (Order.items order) =? 0
            then item_added else quantity_increased)
      /\ ChangeEvent.newQuantity event = Some (desiredQty k items)
      /\ ChangeEvent.changedBy event = staff
      /\ Order.updateHistory order'
         = Order.updateHistory order
           ++ flat_map (staffKeyEvents catalog staff oldItems items)
                (submittedKeys items).
Proof.
  intros catalog req order code order' k Hok Hsub Hgt
    items oldItems existing retained.
  destruct (updateOrder_staff _ _ _ _ _ Hok)
    as (L & H & Hrec & HL & HH & _ & Hq).
  destruct (staff_key_summary _ _ _ _ _ _ k Hrec Hsub)
    as (first & menuItem & Hfirst & Hmenu & Hlines & Hevents).
  fold items oldItems existing retained in Hlines, Hevents.
  assert (Htotal : totalQuantity retained
                   = existingTotalQty k (Order.items order)).
  { unfold retained, existingTotalQty.
    now rewrite totalQuantity_sortLineAddons. }
  rewrite staffKey_increase in Hlines, Hevents
    by (cbn [Incoming.qty]; rewrite Htotal; exact Hgt).
  cbn [fst snd Incoming.qty Incoming.data] in Hlines, Hevents.
  rewrite Htotal in Hlines, Hevents.
  destruct (sortLineAddons_fields existing) as (Hid & Hqty & Hst & _).
  eexists. eexists. rewrite HL.
  split; [exact Hlines|].
  split; [exact Hid|]. split; [exact Hqty|]. split; [exact Hst|].
  split; [reflexivity|]. split; [reflexivity|]. split; [reflexivity|].
  split; [reflexivity|]. split; [reflexivity|].
  split.
  { unfold lineKey. cbn.
    rewrite (menuItemMap_id _ _ _ Hmenu), keyOf_sortAddons.
    apply firstSubmitted_key in Hfirst. apply Hfirst. }
  split; [exact Hevents|].
  split.
  { cbn. destruct (existingTotalQty k (Order.items order) =? 0);
      reflexivity. }
  split; [reflexivity|]. split; [reflexivity|].
  rewrite HH. f_equal.
  apply staffReconcile_by_key in Hrec. apply Hrec.
Qed.

Lemma staff_quantity_increase_witness :
  let order :=
    Sample.order [Sample.line 11 Sample.burger 3 IPreparing false]
      Preparing in
  let req := Sample.request [Sample.item Sample.burger 5] in
  let order' := persisted (updateOrder true Sample.catalog req order) in
  exists newLine event,
    linesWithKey Sample.burgerKey (Order.items order')
    = [Sample.line 11 Sample.burger 3 IPreparing false] ++ [newLine]
    /\ OrderLine.quantity newLine = 2
    /\ OrderLine.status newLine = IPending
    /\ OrderLine.isNew newLine = true
    /\ ChangeEvent.changeType event = quantity_increased.
Proof.
  intros order req order'.
  assert (Hok : reply (updateOrder true Sample.catalog req order)
                = Success 200 order') by (vm_compute; reflexivity).
  assert (Hsub : submitted Sample.burgerKey (UpdateReq.items req)).
  { exists (Sample.item Sample.burger 5). split; [now left | reflexivity]. }
  assert (Hgt : desiredQty Sample.burgerKey (UpdateReq.items req)
                > existingTotalQty Sample.burgerKey (Order.items order))
    by (vm_compute; reflexivity).
  destruct (staff_quantity_increase Sample.catalog req order 200 order'
              Sample.burgerKey Hok Hsub Hgt)
    as (newLine & event & Hl & _ & _ & _ & Hq & Hs & Hn & _ & _ & _ & _
        & Ht & _).
  exists newLine, event. repeat split; assumption.
Defined.

(** X29. When a staff edit is applied and the quantity submitted for a key
    of the submission is below the total of the existing non-removed lines of
    that key, the lines of that key are taken in the order pending,
    preparing, ready, served, cancelled (lines of one status in their list
    order): a leading run of them stays in the list with its id, status and
    quantity and [isRemoved = true], at most one line after that run is
    lowered in place by a positive amount below its quantity, and the lines
    behind stay as they were; what was taken adds up to the deficit; no line
    that is left unflagged is less advanced than a flagged one; and the
    iteration of that key logs exactly one event, a [quantity_decreased] from
    the old total to the submitted quantity. *)
Theorem staff_decrease_follows_status_order {M : Mongoose} :
  forall catalog req order code order' k,
    reply (updateOrder true catalog req order) = Success code order' ->
    submitted k (UpdateReq.items req) ->
    desiredQty k (UpdateReq.items req)
    < existingTotalQty k (Order.items order) ->
    let items := UpdateReq.items req in
    let oldItems := nonRemoved (Order.items order) in
    let existing := linesWithKey k oldItems in
    let deficit :=
      existingTotalQty k (Order.items order) - desiredQty k items in
    exists sorted removed rest flagged rest' r event,
      Permutation sorted existing
      /\ StronglySorted
           (fun a b =>
              lessAdvanced (OrderLine.status b) (OrderLine.status a) = false)
           sorted
      /\ (forall s,
             filter (fun x => itemStatus_eqb (OrderLine.status x) s) sorted
             = filter (fun x => itemStatus_eqb (OrderLine.status x) s)
                 existing)
      /\ sorted = removed ++ rest
      /\ linesWithKey k (Order.items order') = flagged ++ rest'
      /\ Forall2 flaggedFrom removed flagged
      /\ ((r = 0 /\ Forall2 keptFrom rest rest')
          \/ exists m m' post post',
               rest = m :: post
               /\ rest' = m' :: post'
               /\ loweredFrom r m m'
               /\ Forall2 keptFrom post post')
      /\ totalQuantity removed + r = deficit
      /\ (forall a b,
             In a rest -> In b removed ->
             lessAdvanced (OrderLine.status a) (OrderLine.status b) = false)
      /\ staffKeyEvents catalog staff oldItems items k = [event]
      /\ ChangeEvent.changeType event = quantity_decreased
      /\ ChangeEvent.oldQuantity event
         = Some (existingTotalQty k (Order.items order))
      /\ ChangeEvent.newQuantity event = Some (desiredQty k items)
      /\ ChangeEvent.changedBy event = staff
      /\ Order.updateHistory order'
         = Order.updateHistory order
           ++ flat_map (staffKeyEvents catalog staff oldItems items)
                (submittedKeys items).
Proof.
  intros catalog req order code order' k Hok Hsub Hlt
    items oldItems existing deficit.
  destruct (staff_decrease_shape _ _ _ _ _ _ Hok Hsub Hlt)
    as (removed & rest & flagged & rest' & r & event & Hsplit & Hlines & Hfl
        & Hrest & Hsum & Hevents & Htype & Hold & Hnew & Hby).
  fold oldItems existing in Hsplit. fold items oldItems in Hevents.
  pose proof (sortByPriority_status_order existing) as Hsorted.
  exists (sortByPriority existing), removed, rest, flagged, rest', r, event.
  split; [apply sortByPriority_perm|]. split; [exact Hsorted|].
  split; [intros s; apply sortByPriority_stable|].
  split; [exact Hsplit|]. split; [exact Hlines|]. split; [exact Hfl|].
  split; [exact Hrest|]. split; [exact Hsum|].
  split.
  { intros a b Ha Hb. rewrite Hsplit in Hsorted.
    exact (StronglySorted_app_order _ _ _ Hsorted b a Hb Ha). }
  split; [exact Hevents|]. split; [exact Htype|]. split; [exact Hold|].
  split; [exact Hnew|]. split; [exact Hby|].
  destruct (updateOrder_staff _ _ _ _ _ Hok)
    as (L & H & Hrec & _ & HH & _).
  rewrite HH. f_equal. apply staffReconcile_by_key in Hrec. apply Hrec.
Qed.

Lemma staff_decrease_follows_status_order_witness :
  let order :=
    Sample.order
      [Sample.line 11 Sample.burger 3 IPreparing false;
       Sample.line 12 Sample.burger 2 IPending false] Preparing in
  let req := Sample.request [Sample.item Sample.burger 3] in
  let order' := persisted (updateOrder true Sample.catalog req order) in
  exists f l event,
    linesWithKey Sample.burgerKey (Order.items order') = [f; l]
    /\ OrderLine._id f = Some 12%N
    /\ OrderLine.status f = IPending
    /\ OrderLine.quantity f = 2
    /\ OrderLine.isRemoved f = true
    /\ OrderLine._id l = Some 11%N
    /\ OrderLine.status l = IPreparing
    /\ OrderLine.quantity l = 3
    /\ OrderLine.isRemoved l = false
    /\ ChangeEvent.changeType event = quantity_decreased
    /\ ChangeEvent.oldQuantity event = Some 5
    /\ ChangeEvent.newQuantity event = Some 3.
Proof.
  intros order req order'.
  assert (Hok : reply (updateOrder true Sample.catalog req order)
                = Success 200 order') by (vm_compute; reflexivity).
  assert (Hsub : submitted Sample.burgerKey (UpdateReq.items req)).
  { exists (Sample.item Sample.burger 3). split; [now left | reflexivity]. }
  assert (Hlt : desiredQty Sample.burgerKey (UpdateReq.items req)
                < existingTotalQty Sample.burgerKey (Order.items order))
    by (vm_compute; reflexivity).
  destruct (staff_decrease_follows_status_order Sample.catalog req order 200
              order' Sample.burgerKey Hok Hsub Hlt)
    as (sorted & removed & rest & flagged & rest' & r & event & Hperm
        & Hsorted & _ & Hsplit & Hlines & Hfl & Hrest & Hsum & _ & _ & Htype
        & Hold & Hnew & _).
  change (existingTotalQty Sample.burgerKey (Order.items order)
          - desiredQty Sample.burgerKey (UpdateReq.items req))
    with 2 in Hsum.
  change (linesWithKey Sample.burgerKey (nonRemoved (Order.items order)))
    with [Sample.line 11 Sample.burger 3 IPreparing false;
          Sample.line 12 Sample.burger 2 IPending false] in Hperm.
  apply Permutation_sym, Permutation_length_2_inv in Hperm.
  destruct Hperm as [-> | ->].
  { apply StronglySorted_inv in Hsorted. destruct Hsorted as [_ Hall].
    apply Forall_inv in Hall. discriminate Hall. }
  clear Hsorted.
  assert (Hcase : removed = [Sample.line 12 Sample.burger 2 IPending false]
                  /\ rest = [Sample.line 11 Sample.burger 3 IPreparing false]
                  /\ r = 0).
  { destruct removed as [|x [|y [|z removed]]]; cbn [app] in Hsplit.
    - subst rest. change (totalQuantity []) with 0 in Hsum.
      destruct Hrest as [[-> _] | (m & m' & post & post' & Hm & _ & Hlow & _)];
        [lia|].
      injection Hm as <- _. destruct Hlow as (_ & Hr & _).
      cbn in Hr. lia.
    - injection Hsplit as <- <-.
      change (totalQuantity [Sample.line 12 Sample.burger 2 IPending false])
        with 2 in Hsum.
      repeat split. lia.
    - injection Hsplit as <- <- Hnil.
      change (totalQuantity
                [Sample.line 12 Sample.burger 2 IPending false;
                 Sample.line 11 Sample.burger 3 IPreparing false])
        with 5 in Hsum.
      destruct Hrest as [[-> _] | (m & m' & post & post' & -> & _)];
        [lia | discriminate Hnil].
    - injection Hsplit as _ _ Hnil. discriminate Hnil. }
  destruct Hcase as (-> & -> & ->).
  destruct Hrest as [[_ Hkept] | (m & m' & post & post' & _ & _ & Hlow & _)];
    [|destruct Hlow as (_ & Hr & _); lia].
  inversion Hfl as [|e f removed0 flagged0 Hf Hfl0]; subst.
  inversion Hfl0; subst.
  inversion Hkept as [|e l rest0 rest0' Hl Hkept0]; subst.
  inversion Hkept0; subst.
  destruct Hf as ((Hfid & _ & _ & _ & _ & Hfst & _) & Hfq & Hfrm & _).
  destruct Hl as ((Hlid & _ & _ & _ & _ & Hlst & _) & Hlq & Hlrm & _).
  exists f, l, event.
  split; [exact Hlines|].
  repeat split; assumption.
Defined.

(** ** Quantity conservation under the staff policy *)

(** C1, as stated, fails on the specification's own example: one line of 3
    burgers, staff submits 2; the line is lowered in place to 2, nothing is
    flagged, and the lines of the key add up to 2, not to [max 3 2]. *)
Lemma staff_conservation_counterexample :
  let order :=
    Sample.order [Sample.line 11 Sample.burger 3 IPreparing false]
      Preparing in
  let req := Sample.request [Sample.item Sample.burger 2] in
  let order' := persisted (updateOrder true Sample.catalog req order) in
  reply (updateOrder true Sample.catalog req order) = Success 200 order'
  /\ Order.items order' = [Sample.line 11 Sample.burger 2 IPreparing false]
  /\ totalQuantity (linesWithKey Sample.burgerKey (Order.items order')) = 2
  /\ Z.max (existingTotalQty Sample.burgerKey (Order.items order))
       (desiredQty Sample.burgerKey (UpdateReq.items req)) = 3
  /\ totalQuantity (linesWithKey Sample.burgerKey (Order.items order'))
     <> Z.max (existingTotalQty Sample.burgerKey (Order.items order))
          (desiredQty Sample.burgerKey (UpdateReq.items req)).
Proof.
  repeat split; try (vm_compute; reflexivity).
  vm_compute. discriminate.
Qed.

(** C1, amended. When a staff edit is applied, for every key of the
    submission the lines of that key that are not flagged removed add up to
    the submitted quantity.  With the flagged lines counted too: when the
    submitted quantity is not below the existing total the sum is
    [max existingTotalQty desiredQty] and no line of the key is flagged;
    when it is below, every existing line of the key is still in the list,
    once: a run of them flagged at their quantity, at most one lowered in
    place by [r], the others as they were, so that the flagged lines add up
    to the deficit minus [r] and all lines of the key to the existing total
    minus [r] ([r = 0] when no line is lowered in place). *)
Theorem staff_quantity_conservation {M : Mongoose} :
  forall catalog req order code order' k,
    reply (updateOrder true catalog req order) = Success code order' ->
    submitted k (UpdateReq.items req) ->
    let desired := desiredQty k (UpdateReq.items req) in
    let existingTotal := existingTotalQty k (Order.items order) in
    let existing := linesWithKey k (nonRemoved (Order.items order)) in
    let after := linesWithKey k (Order.items order') in
    totalQuantity (nonRemoved after) = desired
    /\ (existingTotal <= desired ->
        totalQuantity after = Z.max existingTotal desired
        /\ nonRemoved after = after)
    /\ (desired < existingTotal ->
        exists removed rest flagged rest' r,
          Permutation (removed ++ rest) existing
          /\ after = flagged ++ rest'
          /\ Forall2 flaggedFrom removed flagged
          /\ ((r = 0 /\ Forall2 keptFrom rest rest')
              \/ exists m m' post post',
                   rest = m :: post
                   /\ rest' = m' :: post'
                   /\ loweredFrom r m m'
                   /\ Forall2 keptFrom post post')
          /\ 0 <= r
          /\ totalQuantity flagged = existingTotal - desired - r
          /\ totalQuantity after = existingTotal - r).
Proof.
  intros catalog req order code order' k Hok Hsub desired existingTotal
    existing0 after.
  destruct (updateOrder_staff _ _ _ _ _ Hok)
    as (L & H & Hrec & HL & HH & _ & Hq).
  destruct (staff_key_summary _ _ _ _ _ _ k Hrec Hsub)
    as (first & menuItem & Hfirst & Hmenu & Hlines & _).
  fold desired in Hlines.
  set (existing := map sortLineAddons
                     (linesWithKey k (nonRemoved (Order.items order)))) in *.
  assert (Htotal : totalQuantity existing = existingTotal).
  { unfold existing, existingTotal, existingTotalQty.
    now rewrite totalQuantity_sortLineAddons. }
  assert (Hactive : Forall (fun l => OrderLine.isRemoved l = false) existing).
  { unfold existing. apply Forall_map, Forall_forall. intros l Hin.
    apply filter_In in Hin. destruct Hin as [Hin _].
    apply filter_In in Hin. destruct Hin as [_ Hn].
    cbn. now apply negb_true_iff. }
  pose proof (desiredQty_pos k _ Hq Hsub) as Hpos. fold desired in Hpos.
  split; [|split].
  - unfold after. rewrite HL, Hlines.
    destruct (Z.lt_total desired existingTotal) as [Hlt | [Heq | Hgt]].
    + rewrite staffKey_decrease
        by (cbn [Incoming.qty]; rewrite Htotal; exact Hlt).
      cbn [fst Incoming.qty].
      pose proof (sortByPriority_perm existing) as Hperm.
      destruct (removeFromExisting_sums (sortByPriority existing)
                  (totalQuantity existing - desired)) as [Hact _].
      { eapply Permutation_Forall; [symmetry; exact Hperm | exact Hactive]. }
      { rewrite (totalQuantity_perm _ _ Hperm). lia. }
      rewrite (totalQuantity_perm _ _ Hperm) in Hact. lia.
    + rewrite staffKey_unchanged
        by (cbn [Incoming.qty]; rewrite Htotal; exact Heq).
      cbn [fst]. rewrite (nonRemoved_all _ Hactive). lia.
    + rewrite staffKey_increase
        by (cbn [Incoming.qty]; rewrite Htotal; lia).
      cbn [fst Incoming.qty Incoming.data].
      rewrite nonRemoved_app, (nonRemoved_all _ Hactive).
      cbn [nonRemoved filter OrderLine.isRemoved negb].
      rewrite !totalQuantity_app, !totalQuantity_cons.
      cbn [OrderLine.quantity]. change (totalQuantity []) with 0. lia.
  - intros Hle. unfold after. rewrite HL, Hlines.
    destruct (Z.eq_dec desired existingTotal) as [Heq | Hne].
    + rewrite staffKey_unchanged
        by (cbn [Incoming.qty]; rewrite Htotal; exact Heq).
      cbn [fst]. rewrite (nonRemoved_all _ Hactive).
      split; [lia | reflexivity].
    + rewrite staffKey_increase
        by (cbn [Incoming.qty]; rewrite Htotal; lia).
      cbn [fst Incoming.qty Incoming.data].
      rewrite nonRemoved_app, (nonRemoved_all _ Hactive).
      cbn [nonRemoved filter OrderLine.isRemoved negb].
      rewrite !totalQuantity_app, !totalQuantity_cons.
      cbn [OrderLine.quantity]. change (totalQuantity []) with 0.
      split; [lia | reflexivity].
  - intros Hlt.
    destruct (staff_decrease_shape _ _ _ _ _ _ Hok Hsub Hlt)
      as (removed & rest & flagged & rest' & r & event & Hsplit & Hafter
          & Hfl & Hrest & Hsum & _).
    fold existing0 in Hsplit. fold after in Hafter.
    fold desired existingTotal in Hsum.
    exists removed, rest, flagged, rest', r.
    assert (Hperm : Permutation (removed ++ rest) existing0)
      by (rewrite <- Hsplit; apply sortByPriority_perm).
    assert (Hall : totalQuantity removed + totalQuantity rest
                   = existingTotal).
    { rewrite <- totalQuantity_app, (totalQuantity_perm _ _ Hperm).
      reflexivity. }
    destruct (flaggedFrom_total _ _ Hfl) as [Hflq _].
    assert (Hr : 0 <= r /\ totalQuantity rest' = totalQuantity rest - r).
    { destruct Hrest as [[-> Hkept]
                        | (m & m' & post & post' & -> & -> & Hlow & Hkept)].
      - rewrite (keptFrom_total _ _ Hkept). lia.
      - destruct Hlow as (_ & Hr & Hmq & _).
        rewrite !totalQuantity_cons, (keptFrom_total _ _ Hkept), Hmq. lia. }
    split; [exact Hperm|]. split; [exact Hafter|]. split; [exact Hfl|].
    split; [exact Hrest|]. split; [apply Hr|].
    rewrite Hafter, totalQuantity_app, Hflq. lia.
Qed.

Lemma staff_quantity_conservation_witness :
  let order :=
    Sample.order [Sample.line 11 Sample.burger 3 IPreparing false]
      Preparing in
  let req := Sample.request [Sample.item Sample.burger 2] in
  let order' := persisted (updateOrder true Sample.catalog req order) in
  totalQuantity
    (nonRemoved (linesWithKey Sample.burgerKey (Order.items order'))) = 2
  /\ totalQuantity (linesWithKey Sample.burgerKey (Order.items order')) = 2.
Proof.
  intros order req order'.
  assert (Hok : reply (updateOrder true Sample.catalog req order)
                = Success 200 order') by (vm_compute; reflexivity).
  assert (Hsub : submitted Sample.burgerKey (UpdateReq.items req)).
  { exists (Sample.item Sample.burger 2). split; [now left | reflexivity]. }
  destruct (staff_quantity_conservation Sample.catalog req order 200
              order' Sample.burgerKey Hok Hsub) as (Hactive & _ & Hless).
  split; [exact Hactive|].
  destruct Hless
    as (removed & rest & flagged & rest' & r & Hperm & _ & Hfl & Hrest & Hr
        & Hflq & Hall); [vm_compute; reflexivity|].
  change (existingTotalQty Sample.burgerKey (Order.items order))
    with 3 in Hflq, Hall.
  change (desiredQty Sample.burgerKey (UpdateReq.items req))
    with 2 in Hflq.
  change (linesWithKey Sample.burgerKey (nonRemoved (Order.items order)))
    with [Sample.line 11 Sample.burger 3 IPreparing false] in Hperm.
  apply Permutation_sym, Permutation_length_1_inv in Hperm.
  destruct removed as [|x [|y removed]]; cbn [app] in Hperm.
  - inversion Hfl; subst. change (totalQuantity []) with 0 in Hflq. lia.
  - injection Hperm as -> ->.
    destruct (flaggedFrom_total _ _ Hfl) as [Hq _].
    change (totalQuantity [Sample.line 11 Sample.burger 3 IPreparing false])
      with 3 in Hq.
    lia.
  - discriminate Hperm.
Defined.

(** ** The customer loop *)

Lemma lastWithKey_from k ls init :
  fold_left (fun acc l => if hasKey k l then Some l else acc) ls init
  = match lastWithKey k ls with Some x => Some x | None => init end.
Proof.
  unfold lastWithKey. revert init.
  induction ls as [|l ls IH]; intros init; simpl; [reflexivity|].
  rewrite IH, (IH (if hasKey k l then Some l else None)).
  destruct (fold_left _ ls None); [reflexivity|].
  destruct (hasKey k l); reflexivity.
Qed.

Lemma lastWithKey_cons k l ls :
  lastWithKey k (l :: ls)
  = match lastWithKey k ls with
    | Some x => Some x
    | None => if hasKey k l then Some l else None
    end.
Proof. unfold lastWithKey at 1. simpl. apply lastWithKey_from. Qed.

Lemma lastWithKey_In k ls l :
  lastWithKey k ls = Some l -> In l ls /\ lineKey l = k.
Proof.
  induction ls as [|x ls IH]; [discriminate|].
  rewrite lastWithKey_cons.
  destruct (lastWithKey k ls) as [y|].
  - intros Heq. injection Heq as ->. destruct (IH eq_refl). split; auto.
    now right.
  - destruct (hasKey k x) eqn:Hx; [|discriminate].
    intros Heq. injection Heq as ->. split; [now left|].
    now apply hasKey_true.
Qed.

Lemma existingItems_fold k old m :
  mapGet Key_eq_dec k (fold_left existingItemsStep old m)
  = match lastWithKey k old with
    | Some l => Some (sortLineAddons l)
    | None => mapGet Key_eq_dec k m
    end.
Proof.
  revert m. induction old as [|item old IH]; intros m; [reflexivity|].
  cbn [fold_left]. rewrite IH, lastWithKey_cons. clear IH.
  destruct (lastWithKey k old); [reflexivity|].
  unfold existingItemsStep. rewrite lineKey_sortLineAddons. unfold hasKey.
  destruct (Key_eq_dec (lineKey item) k) as [<-|Hne].
  - apply mapGet_mapSet_same.
  - now apply mapGet_mapSet_other.
Qed.

Lemma existingItemsMap_get k old :
  mapGet Key_eq_dec k (buildExistingItemsMap old)
  = option_map sortLineAddons (lastWithKey k old).
Proof.
  unfold buildExistingItemsMap. rewrite existingItems_fold.
  destruct (lastWithKey k old); reflexivity.
Qed.

Lemma consolidateStep_fold_None catalog em items :
  fold_left (consolidateStep catalog em) items None = None.
Proof. induction items; simpl; auto. Qed.

Lemma consolidatedFor_cons catalog em item items k :
  consolidatedFor catalog em (item :: items) k
  = if Key_eq_dec (reqKey item) k then
      match menuItemMap catalog (ReqItem.menuItemId item) with
      | None => None
      | Some menuItem =>
          Some (OrderLine.setQuantity (desiredQty k (item :: items))
                  (consolidatedLine menuItem (sortReqAddons item)
                     (mapGet Key_eq_dec k em)))
      end
    else consolidatedFor catalog em items k.
Proof.
  unfold consolidatedFor. cbn [find].
  destruct (Key_eq_dec (reqKey item) k) as [Hk|Hk]; [reflexivity|].
  rewrite desiredQty_cons.
  destruct (Key_eq_dec (reqKey item) k); [contradiction | reflexivity].
Qed.

Lemma consolidate_fold catalog em k items m m' :
  fold_left (consolidateStep catalog em) items (Some m) = Some m' ->
  mapGet Key_eq_dec k m'
  = match mapGet Key_eq_dec k m with
    | Some line =>
        Some (OrderLine.setQuantity
                (OrderLine.quantity line + desiredQty k items) line)
    | None => consolidatedFor catalog em items k
    end.
Proof.
  revert m. induction items as [|item items IH]; intros m.
  - simpl. intros Heq. injection Heq as <-.
    destruct (mapGet Key_eq_dec k m) as [[]|]; [|reflexivity].
    cbn. now rewrite Z.add_0_r.
  - cbn [fold_left]. unfold consolidateStep at 2.
    rewrite reqKey_sortReqAddons.
    cbn [sortReqAddons ReqItem.menuItemId ReqItem.quantity].
    rewrite consolidatedFor_cons, desiredQty_cons.
    destruct (mapGet Key_eq_dec (reqKey item) m) as [existing|] eqn:Hget.
    + intros Hfold. rewrite (IH _ Hfold). clear IH Hfold.
      destruct (Key_eq_dec (reqKey item) k) as [Hk|Hk].
      * rewrite <- Hk, mapGet_mapSet_same, Hget.
        destruct existing. unfold OrderLine.setQuantity. cbn.
        do 2 f_equal. lia.
      * rewrite mapGet_mapSet_other by assumption. reflexivity.
    + destruct (menuItemMap catalog (ReqItem.menuItemId item))
        as [menuItem|] eqn:Hm;
        [|rewrite consolidateStep_fold_None; discriminate].
      intros Hfold. rewrite (IH _ Hfold). clear IH Hfold.
      destruct (Key_eq_dec (reqKey item) k) as [Hk|Hk].
      * rewrite <- Hk, mapGet_mapSet_same, Hget. reflexivity.
      * rewrite mapGet_mapSet_other by assumption. reflexivity.
Qed.

Lemma consolidate_NoDup catalog em items m m' :
  fold_left (consolidateStep catalog em) items (Some m) = Some m' ->
  NoDup (mapKeys m) -> NoDup (mapKeys m').
Proof.
  revert m. induction items as [|item items IH]; intros m.
  - simpl. intros Heq. now injection Heq as <-.
  - cbn [fold_left]. unfold consolidateStep at 2.
    destruct (mapGet Key_eq_dec _ m).
    + intros Hfold Hnd. apply (IH _ Hfold). now apply mapSet_NoDup.
    + destruct (menuItemMap catalog _);
        [|rewrite consolidateStep_fold_None; discriminate].
      intros Hfold Hnd. apply (IH _ Hfold). now apply mapSet_NoDup.
Qed.

Lemma customerLogStep_line changedBy oldItems done history l :
  fst (customerLogStep changedBy oldItems (done, history) l)
  = done ++ [logLine oldItems l].
Proof.
  unfold customerLogStep, logLine.
  destruct (findByKey (lineKey l) oldItems) as [oldItem|]; [|reflexivity].
  destruct (OrderLine.quantity l >? OrderLine.quantity oldItem);
    [reflexivity|].
  destruct (OrderLine.quantity l <? OrderLine.quantity oldItem); reflexivity.
Qed.

Lemma customerLog_fold changedBy oldItems ls done history :
  fst (fold_left (customerLogStep changedBy oldItems) ls (done, history))
  = done ++ map (logLine oldItems) ls.
Proof.
  revert done history.
  induction ls as [|l ls IH]; intros done history; cbn [fold_left map].
  - cbn. now rewrite app_nil_r.
  - pose proof (customerLogStep_line changedBy oldItems done history l)
      as Hstep.
    destruct (customerLogStep changedBy oldItems (done, history) l)
      as [done' history'].
    cbn [fst] in Hstep. subst done'.
    rewrite IH, <- app_assoc. reflexivity.
Qed.

Lemma findByKey_hd k ls : findByKey k ls = hd_error (linesWithKey k ls).
Proof.
  unfold findByKey, linesWithKey, hasKey.
  induction ls as [|l ls IH]; simpl; [reflexivity|].
  destruct (Key_eq_dec (lineKey l) k); [reflexivity | exact IH].
Qed.

Lemma findByKey_app k a b :
  findByKey k (a ++ b)
  = match findByKey k a with Some x => Some x | None => findByKey k b end.
Proof.
  rewrite !findByKey_hd, linesWithKey_app.
  destruct (linesWithKey k a); reflexivity.
Qed.

Lemma findByKey_Some k ls l :
  findByKey k ls = Some l -> In l ls /\ lineKey l = k.
Proof.
  unfold findByKey. intros H. apply find_some in H.
  destruct H as [Hin Hk]. split; [assumption|].
  destruct (Key_eq_dec (lineKey l) k); congruence.
Qed.

Lemma findByKey_None k ls :
  findByKey k ls = None -> forall l, In l ls -> lineKey l <> k.
Proof.
  unfold findByKey. intros H l Hin Hk.
  apply (find_none _ _ H) in Hin.
  destruct (Key_eq_dec (lineKey l) k); congruence.
Qed.

Lemma findByKey_In k ls l :
  In l ls -> lineKey l = k -> findByKey k ls <> None.
Proof.
  intros Hin Hk Hnone. exact (findByKey_None k ls Hnone l Hin Hk).
Qed.

Lemma findByKey_cons k l ls :
  findByKey k (l :: ls)
  = if Key_eq_dec (lineKey l) k then Some l else findByKey k ls.
Proof.
  unfold findByKey. cbn [find].
  destruct (Key_eq_dec (lineKey l) k); reflexivity.
Qed.

Lemma lineKey_removedCopy o : lineKey (removedCopy o) = lineKey o.
Proof. reflexivity. Qed.

Lemma lineKey_logLine old l : lineKey (logLine old l) = lineKey l.
Proof.
  unfold logLine. destruct (findByKey _ old) as [o|]; [|reflexivity].
  destruct (_ >? _); reflexivity.
Qed.

(** The removal loop appends, for each key of the old lines that the list
    does not hold yet, a flagged copy of the first old line of that key. *)
Lemma customerRemoved_fold changedBy olds acc history :
  exists extra,
    fst (fold_left (customerRemovedStep changedBy) olds (acc, history))
    = acc ++ extra
    /\ Forall
         (fun x =>
            exists o, In o olds /\ x = removedCopy o
                      /\ findByKey (lineKey o) acc = None) extra
    /\ (forall o,
           In o olds -> findByKey (lineKey o) acc = None ->
           exists o0,
             findByKey (lineKey o) olds = Some o0
             /\ In (removedCopy o0) extra).
Proof.
  revert acc history.
  induction olds as [|o olds IH]; intros acc history.
  - exists []. simpl. rewrite app_nil_r. repeat split.
    + constructor.
    + intros o [].
  - cbn [fold_left]. unfold customerRemovedStep at 2.
    destruct (findByKey (lineKey o) acc) as [found|] eqn:Hfound.
    + destruct (IH acc history) as (extra & Hfst & Hall & Hcov).
      exists extra. split; [exact Hfst|]. split.
      * eapply Forall_impl; [|exact Hall].
        intros x (o' & Hin & Hx & Hn). exists o'. repeat split; auto.
        now right.
      * intros o' [<- | Hin] Hnone; [congruence|].
        destruct (Hcov o' Hin Hnone) as (o0 & Hf & Hi).
        exists o0. split; [|assumption].
        rewrite findByKey_cons.
        destruct (Key_eq_dec (lineKey o) (lineKey o')) as [Heq|];
          [|assumption].
        rewrite Heq in Hfound. congruence.
    + destruct (IH (acc ++ [removedCopy o])
                  (history ++
                     [ChangeEvent.mk item_removed (OrderLine.name o)
                        (Some (OrderLine.quantity o)) None changedBy]))
        as (extra & Hfst & Hall & Hcov).
      exists (removedCopy o :: extra).
      split; [rewrite Hfst, <- app_assoc; reflexivity|]. split.
      * constructor.
        -- exists o. repeat split; auto. now left.
        -- eapply Forall_impl; [|exact Hall].
           intros x (o' & Hin & Hx & Hn). exists o'. repeat split; auto.
           ++ now right.
           ++ rewrite findByKey_app in Hn.
              destruct (findByKey (lineKey o') acc); congruence.
      * intros o' Hin' Hnone. rewrite findByKey_cons.
        destruct (Key_eq_dec (lineKey o) (lineKey o')) as [Heq|Hne].
        -- exists o. split; [reflexivity | now left].
        -- destruct Hin' as [<- | Hin']; [congruence|].
           destruct (Hcov o' Hin') as (o0 & Hf & Hi).
           { rewrite findByKey_app, Hnone, findByKey_cons.
             rewrite lineKey_removedCopy.
             destruct (Key_eq_dec (lineKey o) (lineKey o')); [contradiction|].
             reflexivity. }
           exists o0. split; [assumption | now right].
Qed.

(** The shape of the customer branch's result. *)
Lemma customerReconcile_shape catalog changedBy oldItems items L H T :
  customerReconcile catalog changedBy oldItems items = Some (L, H, T) ->
  let old' := map sortLineAddons oldItems in
  exists consolidatedMap extra,
    fold_left (consolidateStep catalog (buildExistingItemsMap oldItems))
      items (Some []) = Some consolidatedMap
    /\ L = map (logLine old') (mapValues consolidatedMap) ++ extra
    /\ T = sumLinePrices (mapValues consolidatedMap)
    /\ Forall
         (fun x =>
            exists o, In o old' /\ x = removedCopy o
                      /\ findByKey (lineKey o)
                           (map (logLine old') (mapValues consolidatedMap))
                         = None) extra
    /\ (forall o,
           In o old' ->
           findByKey (lineKey o)
             (map (logLine old') (mapValues consolidatedMap)) = None ->
           exists o0,
             findByKey (lineKey o) old' = Some o0
             /\ In (removedCopy o0) extra).
Proof.
  intros Hrec old'. unfold customerReconcile in Hrec.
  destruct (fold_left (consolidateStep _ _) items (Some []))
    as [consolidatedMap|]; [|discriminate].
  fold old' in Hrec.
  pose proof (customerLog_fold changedBy old' (mapValues consolidatedMap)
                [] []) as Hlog.
  destruct (fold_left (customerLogStep changedBy old')
              (mapValues consolidatedMap) ([], [])) as [logged history].
  cbn [fst app] in Hlog. subst logged.
  destruct (customerRemoved_fold changedBy old'
              (map (logLine old') (mapValues consolidatedMap)) history)
    as (extra & Hfst & Hall & Hcov).
  destruct (fold_left (customerRemovedStep changedBy) old' _)
    as [L' H'].
  cbn [fst] in Hfst. subst L'.
  injection Hrec as <- <- <-.
  exists consolidatedMap, extra. repeat split; assumption.
Qed.

Lemma consolidate_present catalog em k items m m' :
  fold_left (consolidateStep catalog em) items (Some m) = Some m' ->
  mapGet Key_eq_dec k m <> None \/ submitted k items ->
  mapGet Key_eq_dec k m' <> None.
Proof.
  revert m. induction items as [|item items IH]; intros m.
  - simpl. intros Heq. injection Heq as <-.
    intros [Hm | (x & [] & _)]. exact Hm.
  - cbn [fold_left]. intros Hfold Hor.
    destruct (consolidateStep catalog em (Some m) item) as [m1|] eqn:Hm1;
      [|rewrite consolidateStep_fold_None in Hfold; discriminate].
    assert (Hpres : mapGet Key_eq_dec k m <> None \/ reqKey item = k ->
                    mapGet Key_eq_dec k m1 <> None).
    { unfold consolidateStep in Hm1. rewrite reqKey_sortReqAddons in Hm1.
      assert (Hset : forall v,
                mapGet Key_eq_dec k m <> None \/ reqKey item = k ->
                mapGet Key_eq_dec k (mapSet Key_eq_dec (reqKey item) v m)
                <> None).
      { intros v [Hm | Hk].
        - destruct (Key_eq_dec (reqKey item) k) as [<-|Hne].
          + rewrite mapGet_mapSet_same. discriminate.
          + now rewrite mapGet_mapSet_other.
        - subst k. rewrite mapGet_mapSet_same. discriminate. }
      destruct (mapGet Key_eq_dec (reqKey item) m) as [existing|].
      - injection Hm1 as <-. apply Hset.
      - destruct (menuItemMap catalog _) as [menuItem|]; [|discriminate].
        injection Hm1 as <-. apply Hset. }
    apply (IH _ Hfold).
    destruct Hor as [Hm | (x & [<- | Hin] & Hk)].
    + left. apply Hpres. now left.
    + left. apply Hpres. now right.
    + right. exists x. split; assumption.
Qed.

Lemma consolidatedFor_key catalog em items k v :
  consolidatedFor catalog em items k = Some v -> lineKey v = k.
Proof.
  unfold consolidatedFor.
  destruct (find _ items) as [first|] eqn:Hfind; [|discriminate].
  destruct (menuItemMap catalog (ReqItem.menuItemId first)) as [menuItem|]
    eqn:Hm; [|discriminate].
  intros Heq. injection Heq as <-.
  apply menuItemMap_id in Hm.
  apply firstSubmitted_key in Hfind. destruct Hfind as [_ Hk].
  unfold lineKey. cbn. rewrite Hm, keyOf_sortAddons. exact Hk.
Qed.

Lemma linesWithKey_values k (m : list (Key * OrderLine.t)) :
  NoDup (mapKeys m) ->
  (forall k' v, In (k', v) m -> lineKey v = k') ->
  linesWithKey k (mapValues m)
  = match mapGet Key_eq_dec k m with Some v => [v] | None => [] end.
Proof.
  induction m as [|[k0 v0] m IH]; intros Hnd Hkeys; [reflexivity|].
  inversion Hnd as [|? ? Hnotin Hnd']; subst.
  assert (Hv0 : lineKey v0 = k0) by (apply Hkeys; now left).
  assert (Hkeys' : forall k' v, In (k', v) m -> lineKey v = k')
    by (intros k' v Hin; apply Hkeys; now right).
  specialize (IH Hnd' Hkeys').
  cbn [mapValues map snd linesWithKey filter mapGet].
  fold (mapValues m). fold (linesWithKey k (mapValues m)).
  unfold hasKey. rewrite Hv0.
  destruct (Key_eq_dec k0 k) as [->|Hne].
  - destruct (Key_eq_dec k k); [|congruence].
    rewrite IH.
    destruct (mapGet Key_eq_dec k m) as [v|] eqn:Hget; [|reflexivity].
    exfalso. apply Hnotin. apply mapGet_In in Hget.
    change k with (fst (k, v)). unfold mapKeys. now apply in_map.
  - destruct (Key_eq_dec k k0); [congruence|]. exact IH.
Qed.

Lemma linesWithKey_logLine k old ls :
  linesWithKey k (map (logLine old) ls)
  = map (logLine old) (linesWithKey k ls).
Proof.
  induction ls as [|l ls IH]; [reflexivity|].
  cbn [map linesWithKey filter].
  assert (Hk : hasKey k (logLine old l) = hasKey k l)
    by (unfold hasKey; now rewrite lineKey_logLine).
  rewrite Hk. fold (linesWithKey k (map (logLine old) ls)).
  fold (linesWithKey k ls).
  destruct (hasKey k l); cbn [map]; now rewrite IH.
Qed.

Lemma linesWithKey_nil k ls :
  (forall l, In l ls -> lineKey l <> k) -> linesWithKey k ls = [].
Proof.
  induction ls as [|l ls IH]; intros H; simpl; [reflexivity|].
  assert (Hf : hasKey k l = false)
    by (apply hasKey_false, H; now left).
  rewrite Hf. apply IH. intros l' Hl'. apply H. now right.
Qed.

Lemma findByKey_map_sort k ls :
  findByKey k (map sortLineAddons ls)
  = option_map sortLineAddons (findByKey k ls).
Proof.
  induction ls as [|l ls IH]; [reflexivity|].
  cbn [map]. rewrite !findByKey_cons, lineKey_sortLineAddons.
  destruct (Key_eq_dec (lineKey l) k); [reflexivity | exact IH].
Qed.

(** The customer branch leaves exactly one line for a submitted key: the
    consolidated one, as the change-log loop marked it. *)
Lemma customer_key_line catalog changedBy oldItems items L H T k :
  customerReconcile catalog changedBy oldItems items = Some (L, H, T) ->
  submitted k items ->
  exists first menuItem,
    firstSubmitted k items = Some first
    /\ menuItemMap catalog (ReqItem.menuItemId first) = Some menuItem
    /\ linesWithKey k L
       = [logLine (map sortLineAddons oldItems)
            (OrderLine.setQuantity (desiredQty k items)
               (consolidatedLine menuItem (sortReqAddons first)
                  (option_map sortLineAddons (lastWithKey k oldItems))))].
Proof.
  intros Hrec Hsub.
  destruct (customerReconcile_shape _ _ _ _ _ _ _ Hrec)
    as (m' & extra & Hfold & -> & _ & Hextra & _).
  pose proof (consolidate_fold _ _ k _ _ _ Hfold) as Hget.
  cbn [mapGet] in Hget.
  pose proof (consolidate_present _ _ k _ _ _ Hfold (or_intror Hsub))
    as Hpresent.
  pose proof (consolidate_NoDup _ _ _ _ _ Hfold (NoDup_nil _)) as Hnd.
  assert (Hkeys : forall k' v, In (k', v) m' -> lineKey v = k').
  { intros k' v Hin.
    apply (In_mapGet Key_eq_dec k' v m' Hnd) in Hin.
    rewrite (consolidate_fold _ _ k' _ _ _ Hfold) in Hin.
    cbn [mapGet] in Hin. now apply consolidatedFor_key in Hin. }
  destruct (mapGet Key_eq_dec k m') as [v|] eqn:Hv; [|congruence].
  symmetry in Hget. unfold consolidatedFor in Hget.
  fold (firstSubmitted k items) in Hget.
  destruct (firstSubmitted k items) as [first|] eqn:Hfirst; [|discriminate].
  destruct (menuItemMap catalog (ReqItem.menuItemId first)) as [menuItem|]
    eqn:Hm; [|discriminate].
  injection Hget as Hv'. rewrite existingItemsMap_get in Hv'.
  exists first, menuItem. split; [reflexivity|]. split; [exact Hm|].
  rewrite linesWithKey_app, linesWithKey_logLine.
  rewrite (linesWithKey_values k m' Hnd Hkeys), Hv. cbn [map].
  rewrite (linesWithKey_nil k extra).
  - rewrite <- Hv'. reflexivity.
  - intros x Hx Hk. rewrite Forall_forall in Hextra.
    destruct (Hextra x Hx) as (o & _ & -> & Hnone).
    rewrite lineKey_removedCopy in Hk. rewrite Hk in Hnone.
    apply (findByKey_In k (map (logLine (map sortLineAddons oldItems))
                              (mapValues m'))
             (logLine (map sortLineAddons oldItems) v)); [| |exact Hnone].
    + apply in_map. apply mapGet_In in Hv.
      unfold mapValues. change v with (snd (k, v)). now apply in_map.
    + rewrite lineKey_logLine. apply (Hkeys k v).
      now apply mapGet_In in Hv.
Qed.

Lemma lastWithKey_nil k ls : linesWithKey k ls = [] -> lastWithKey k ls = None.
Proof.
  induction ls as [|l ls IH]; [reflexivity|].
  cbn [linesWithKey filter]. rewrite lastWithKey_cons.
  destruct (hasKey k l); [discriminate|].
  intros H. now rewrite IH.
Qed.

Lemma lastWithKey_single k ls e :
  linesWithKey k ls = [e] -> lastWithKey k ls = Some e.
Proof.
  induction ls as [|l ls IH]; [discriminate|].
  cbn [linesWithKey filter]. rewrite lastWithKey_cons.
  destruct (hasKey k l).
  - intros H. injection H as -> Hrest.
    now rewrite (lastWithKey_nil k ls Hrest).
  - intros H. now rewrite IH.
Qed.

(** ** The customer policy, seen from the handler *)

Lemma updateOrder_customer {M : Mongoose} catalog req order code order' :
  reply (updateOrder false catalog req order) = Success code order' ->
  exists L H T,
    customerReconcile catalog customer (nonRemoved (Order.items order))
      (UpdateReq.items req) = Some (L, H, T)
    /\ Order.items order' = L
    /\ Order.totalPrice order' = round2 T
    /\ Forall (fun item => 1 <= ReqItem.quantity item) (UpdateReq.items req).
Proof.
  intros Hok. apply updateOrder_success in Hok.
  destruct Hok as (L & H & T & Hrec & -> & _ & _ & Hq & _).
  exists L, H, T.
  rewrite applyUpdate_items, applyUpdate_totalPrice. repeat split; assumption.
Qed.

(** C9, as stated, fails where it says that [isNew] is set only on lines
    whose key did not exist before: a customer raising an existing line from
    1 to 2 gets that line back with its id and status, and with
    [isNew = true]. *)
Lemma customer_identity_counterexample :
  let order :=
    Sample.order [Sample.line 11 Sample.burger 1 IPreparing false]
      Preparing in
  let req := Sample.request [Sample.item Sample.burger 2] in
  let order' := persisted (updateOrder false Sample.catalog req order) in
  reply (updateOrder false Sample.catalog req order) = Success 200 order'
  /\ findByKey Sample.burgerKey (nonRemoved (Order.items order))
     = Some (Sample.line 11 Sample.burger 1 IPreparing false)
  /\ Order.items order'
     = [OrderLine.mk (Some 11%N) 1%N "Burger" 10 2 [] EmptyString true false
          IPreparing].
Proof.
  repeat split; vm_compute; reflexivity.
Qed.

(** C9, amended. When a customer edit is applied, every submitted key has
    exactly one line in the new list, at the submitted quantity and not
    flagged removed.  It carries the id and the status of the last existing
    non-removed line of that key (of the only one, when there is just one),
    and no id and status [pending] when the key did not exist.  Its [isNew]
    flag is set exactly when the key did not exist or the submitted quantity
    exceeds the quantity of the first existing line of that key. *)
Theorem customer_identity_preservation {M : Mongoose} :
  forall catalog req order code order' k,
    reply (updateOrder false catalog req order) = Success code order' ->
    submitted k (UpdateReq.items req) ->
    let oldItems := nonRemoved (Order.items order) in
    let desired := desiredQty k (UpdateReq.items req) in
    exists line,
      linesWithKey k (Order.items order') = [line]
      /\ OrderLine.quantity line = desired
      /\ OrderLine.isRemoved line = false
      /\ OrderLine._id line
         = match lastWithKey k oldItems with
           | Some e => OrderLine._id e
           | None => None
           end
      /\ OrderLine.status line
         = match lastWithKey k oldItems with
           | Some e => OrderLine.status e
           | None => IPending
           end
      /\ (OrderLine.isNew line = true <->
          match findByKey k oldItems with
          | None => True
          | Some o => OrderLine.quantity o < desired
          end)
      /\ (forall e,
             linesWithKey k oldItems = [e] ->
             OrderLine._id line = OrderLine._id e
             /\ OrderLine.status line = OrderLine.status e).
Proof.
  intros catalog req order code order' k Hok Hsub oldItems desired.
  destruct (updateOrder_customer _ _ _ _ _ Hok)
    as (L & H & T & Hrec & HL & _ & Hq).
  destruct (customer_key_line _ _ _ _ _ _ _ k Hrec Hsub)
    as (first & menuItem & Hfirst & Hmenu & Hlines).
  fold oldItems desired in Hlines.
  set (v := OrderLine.setQuantity desired
              (consolidatedLine menuItem (sortReqAddons first)
                 (option_map sortLineAddons (lastWithKey k oldItems))))
    in *.
  assert (Hvk : lineKey v = k).
  { unfold v, lineKey. cbn.
    rewrite (menuItemMap_id _ _ _ Hmenu), keyOf_sortAddons.
    apply firstSubmitted_key in Hfirst. apply Hfirst. }
  assert (Hid : OrderLine._id (logLine (map sortLineAddons oldItems) v)
                = OrderLine._id v
                /\ OrderLine.status (logLine (map sortLineAddons oldItems) v)
                   = OrderLine.status v
                /\ OrderLine.quantity
                     (logLine (map sortLineAddons oldItems) v)
                   = OrderLine.quantity v
                /\ OrderLine.isRemoved
                     (logLine (map sortLineAddons oldItems) v)
                   = OrderLine.isRemoved v).
  { unfold logLine. destruct (findByKey _ _) as [o|]; [|repeat split].
    destruct (_ >? _); repeat split. }
  destruct Hid as (Hid & Hst & Hqty & Hrm).
  exists (logLine (map sortLineAddons oldItems) v).
  rewrite HL. split; [exact Hlines|].
  split; [rewrite Hqty; reflexivity|].
  split; [rewrite Hrm; reflexivity|].
  assert (Hidv : OrderLine._id v
                 = match lastWithKey k oldItems with
                   | Some e => OrderLine._id e
                   | None => None
                   end)
    by (unfold v; cbn; destruct (lastWithKey k oldItems); reflexivity).
  assert (Hstv : OrderLine.status v
                 = match lastWithKey k oldItems with
                   | Some e => OrderLine.status e
                   | None => IPending
                   end)
    by (unfold v; cbn; destruct (lastWithKey k oldItems); reflexivity).
  split; [now rewrite Hid|]. split; [now rewrite Hst|].
  split.
  - unfold logLine. rewrite Hvk, findByKey_map_sort.
    destruct (findByKey k oldItems) as [o|]; cbn [option_map].
    + change (OrderLine.quantity (sortLineAddons o))
        with (OrderLine.quantity o).
      change (OrderLine.quantity v) with desired.
      destruct (Z.gtb_spec desired (OrderLine.quantity o)) as [Hgt|Hle].
      * split; [intros _; lia | reflexivity].
      * change (OrderLine.isNew v) with false.
        split; [discriminate | lia].
    + split; [trivial | reflexivity].
  - intros e He. rewrite Hid, Hst, Hidv, Hstv.
    rewrite (lastWithKey_single k oldItems e He). split; reflexivity.
Qed.

Lemma customer_identity_preservation_witness :
  let order :=
    Sample.order [Sample.line 11 Sample.burger 1 IPreparing false]
      Preparing in
  let req := Sample.request [Sample.item Sample.burger 2] in
  let order' := persisted (updateOrder false Sample.catalog req order) in
  exists line,
    linesWithKey Sample.burgerKey (Order.items order') = [line]
    /\ OrderLine.quantity line = 2
    /\ OrderLine._id line = Some 11%N
    /\ OrderLine.status line = IPreparing.
Proof.
  intros order req order'.
  assert (Hok : reply (updateOrder false Sample.catalog req order)
                = Success 200 order') by (vm_compute; reflexivity).
  assert (Hsub : submitted Sample.burgerKey (UpdateReq.items req)).
  { exists (Sample.item Sample.burger 2). split; [now left | reflexivity]. }
  destruct (customer_identity_preservation Sample.catalog req order 200
              order' Sample.burgerKey Hok Hsub)
    as (line & Hl & Hq & _ & Hid & Hst & _).
  exists line. repeat split; assumption.
Defined.

(** ** Retention of lines *)

Lemma nonRemoved_idempotent ls : nonRemoved (nonRemoved ls) = nonRemoved ls.
Proof. apply nonRemoved_all, nonRemoved_Forall. Qed.

Lemma Forall2_In_l {A B : Type} (R : A -> B -> Prop) la lb a :
  Forall2 R la lb -> In a la -> exists b, In b lb /\ R a b.
Proof.
  induction 1 as [|x y la lb Hxy _ IH]; intros Hin; [contradiction|].
  destruct Hin as [<- | Hin].
  - exists y. split; [now left | assumption].
  - destruct (IH Hin) as (b & Hb & Hab). exists b. split; [now right|].
    assumption.
Qed.

(** Under the staff policy an existing line of a submitted key stays in the
    list, as it was, lowered in place, or flagged removed. *)
Lemma staff_line_kept catalog changedBy oldItems items L H o :
  staffReconcile catalog changedBy oldItems items = Some (L, H) ->
  In o oldItems ->
  submitted (lineKey o) items ->
  exists l', In l' L /\ lineEdit (sortLineAddons o) l'.
Proof.
  intros Hrec Hin Hsub.
  destruct (staff_key_summary _ _ _ _ _ _ _ Hrec Hsub)
    as (first & menuItem & _ & _ & Hlines & _).
  set (k := lineKey o) in *.
  set (existing := map sortLineAddons (linesWithKey k oldItems)) in *.
  assert (Hex : In (sortLineAddons o) existing).
  { unfold existing. apply in_map. apply filter_In. split; [assumption|].
    now apply hasKey_true. }
  assert (Hsubset : forall l', In l' (linesWithKey k L) -> In l' L)
    by (intros l' Hl'; now apply filter_In in Hl').
  set (incoming := Incoming.mk (desiredQty k items) (sortReqAddons first))
    in *.
  destruct (Z.lt_total (Incoming.qty incoming) (totalQuantity existing))
    as [Hlt | [Heq | Hgt]].
  - rewrite staffKey_decrease in Hlines by assumption.
    cbn [fst] in Hlines.
    assert (Hsorted : In (sortLineAddons o) (sortByPriority existing)).
    { eapply Permutation_in; [|exact Hex].
      symmetry. apply sortByPriority_perm. }
    destruct (Forall2_In_l _ _ _ _
                (removeFromExisting_edits (sortByPriority existing)
                   (totalQuantity existing - Incoming.qty incoming))
                Hsorted) as (l' & Hl' & Hedit).
    exists l'. split; [|assumption].
    apply Hsubset. now rewrite Hlines.
  - rewrite staffKey_unchanged in Hlines by assumption.
    cbn [fst] in Hlines.
    exists (sortLineAddons o). split; [|constructor].
    apply Hsubset. now rewrite Hlines.
  - rewrite staffKey_increase in Hlines by lia.
    cbn [fst] in Hlines.
    exists (sortLineAddons o). split; [|constructor].
    apply Hsubset. rewrite Hlines. apply in_or_app. now left.
Qed.

Lemma consolidated_values_submitted catalog em items m' v :
  fold_left (consolidateStep catalog em) items (Some []) = Some m' ->
  In v (mapValues m') ->
  submitted (lineKey v) items.
Proof.
  intros Hfold Hin. unfold mapValues in Hin.
  apply in_map_iff in Hin. destruct Hin as ([k v'] & Hv & Hin).
  cbn [snd] in Hv. subst v'.
  pose proof (consolidate_NoDup _ _ _ _ _ Hfold (NoDup_nil _)) as Hnd.
  apply (In_mapGet Key_eq_dec k v m' Hnd) in Hin.
  rewrite (consolidate_fold _ _ k _ _ _ Hfold) in Hin. cbn [mapGet] in Hin.
  rewrite (consolidatedFor_key _ _ _ _ _ Hin).
  apply firstSubmitted_submitted.
  unfold consolidatedFor in Hin. fold (firstSubmitted k items) in Hin.
  destruct (firstSubmitted k items); [discriminate | discriminate].
Qed.

(** Under the customer policy a key that is no longer submitted leaves a
    flagged copy of its first line. *)
Lemma customer_line_flagged catalog changedBy oldItems items L H T o :
  customerReconcile catalog changedBy oldItems items = Some (L, H, T) ->
  In o oldItems ->
  ~ submitted (lineKey o) items ->
  exists o0,
    findByKey (lineKey o) oldItems = Some o0
    /\ In (removedCopy (sortLineAddons o0)) L.
Proof.
  intros Hrec Hin Hnot.
  destruct (customerReconcile_shape _ _ _ _ _ _ _ Hrec)
    as (m' & extra & Hfold & -> & _ & _ & Hcov).
  destruct (Hcov (sortLineAddons o)) as (o0' & Hfind & Hextra).
  - now apply in_map.
  - rewrite lineKey_sortLineAddons.
    destruct (findByKey (lineKey o) _) as [x|] eqn:Hx; [|reflexivity].
    exfalso. apply findByKey_Some in Hx. destruct Hx as [Hxin Hxk].
    apply in_map_iff in Hxin. destruct Hxin as (v & <- & Hv).
    rewrite lineKey_logLine in Hxk.
    apply Hnot. rewrite <- Hxk.
    eapply consolidated_values_submitted; eassumption.
  - rewrite lineKey_sortLineAddons, findByKey_map_sort in Hfind.
    destruct (findByKey (lineKey o) oldItems) as [o0|]; [|discriminate].
    cbn [option_map] in Hfind. injection Hfind as <-.
    exists o0. split; [reflexivity|].
    apply in_or_app. now right.
Qed.

Lemma updateOrder_same_active {M : Mongoose} isStaffEdit catalog req order
  order2 code order' code2 order2' :
  nonRemoved (Order.items order2) = nonRemoved (Order.items order) ->
  reply (updateOrder isStaffEdit catalog req order) = Success code order' ->
  reply (updateOrder isStaffEdit catalog req order2) = Success code2 order2' ->
  Order.items order2' = Order.items order'.
Proof.
  intros Hsame Hok Hok2.
  destruct (updateOrder_success _ _ _ _ _ _ Hok)
    as (L & H & T & Hrec & -> & _).
  destruct (updateOrder_success _ _ _ _ _ _ Hok2)
    as (L2 & H2 & T2 & Hrec2 & -> & _).
  rewrite !applyUpdate_items. rewrite Hsame, Hrec in Hrec2.
  now injection Hrec2 as <- _ _.
Qed.

Lemma lineEdit_explicit e l :
  lineEdit (sortLineAddons e) l ->
  keptFrom e l \/ (exists r, loweredFrom r e l) \/ flaggedFrom e l.
Proof.
  assert (Hsame : forall l0,
             OrderLine._id l0 = OrderLine._id (sortLineAddons e) ->
             OrderLine.menuItemId l0
             = OrderLine.menuItemId (sortLineAddons e) ->
             OrderLine.name l0 = OrderLine.name (sortLineAddons e) ->
             OrderLine.price l0 = OrderLine.price (sortLineAddons e) ->
             OrderLine.specialInstructions l0
             = OrderLine.specialInstructions (sortLineAddons e) ->
             OrderLine.status l0 = OrderLine.status (sortLineAddons e) ->
             lineKey l0 = lineKey (sortLineAddons e) ->
             sameLine e l0).
  { intros l0 H1 H2 H3 H4 H5 H6 H7. unfold sameLine.
    rewrite H1, H2, H3, H4, H5, H6, H7, lineKey_sortLineAddons.
    repeat split. }
  intros Hedit. inversion Hedit as [|q Hq|]; subst.
  - left. split; [apply Hsame; reflexivity|]. repeat split.
  - right. left. exists (OrderLine.quantity e - q).
    split; [apply Hsame; reflexivity|].
    cbn in Hq |- *. repeat split; lia.
  - right. right. split; [apply Hsame; reflexivity|]. repeat split.
Qed.

Lemma findByKey_first k ls e :
  findByKey k ls = Some e -> firstOfKey k ls e.
Proof.
  induction ls as [|x ls IH]; [discriminate|].
  rewrite findByKey_cons.
  destruct (Key_eq_dec (lineKey x) k) as [Hk|Hk].
  - intros H. injection H as <-. exists [], ls. repeat split.
    + assumption.
    + constructor.
  - intros H. destruct (IH H) as (pre & post & -> & He & Hpre).
    exists (x :: pre), post. repeat split; [assumption|].
    constructor; assumption.
Qed.

Lemma removedCopy_flaggedCopyOf e :
  flaggedCopyOf e (removedCopy (sortLineAddons e)).
Proof.
  unfold flaggedCopyOf. rewrite lineKey_removedCopy, lineKey_sortLineAddons.
  repeat split.
Qed.

Lemma logLine_isRemoved old l :
  OrderLine.isRemoved (logLine old l) = OrderLine.isRemoved l.
Proof.
  unfold logLine. destruct (findByKey _ old) as [o|]; [|reflexivity].
  destruct (_ >? _); reflexivity.
Qed.

Lemma customer_key_line_active catalog changedBy oldItems items L H T k :
  customerReconcile catalog changedBy oldItems items = Some (L, H, T) ->
  submitted k items ->
  exists line,
    linesWithKey k L = [line] /\ OrderLine.isRemoved line = false.
Proof.
  intros Hrec Hsub.
  destruct (customer_key_line _ _ _ _ _ _ _ k Hrec Hsub)
    as (first & menuItem & _ & _ & Hlines).
  eexists. split; [exact Hlines|].
  rewrite logLine_isRemoved. reflexivity.
Qed.

(** C2, as stated, fails on a line that an earlier edit flagged removed:
    the next edit (here a customer resubmitting the burger) builds the new
    list from the non-removed lines only, and the flagged line is gone. *)
Lemma no_deletion_counterexample :
  let order :=
    Sample.order
      [Sample.line 11 Sample.burger 1 IPending false;
       Sample.line 12 Sample.fries 1 IPending true] Pending in
  let req := Sample.request [Sample.item Sample.burger 1] in
  let order' := persisted (updateOrder false Sample.catalog req order) in
  reply (updateOrder false Sample.catalog req order) = Success 200 order'
  /\ In (Sample.line 12 Sample.fries 1 IPending true) (Order.items order)
  /\ Order.items order' = [Sample.line 11 Sample.burger 1 IPending false]
  /\ ~ (exists l, In l (Order.items order')
                  /\ OrderLine._id l = Some 12%N)
  /\ linesWithKey Sample.friesKey (Order.items order') = [].
Proof.
  repeat split; try (vm_compute; reflexivity).
  - right. now left.
  - intros (l & Hin & Hid). vm_compute in Hin.
    destruct Hin as [<- | []]. discriminate.
Qed.

(** C2, amended. When an edit is applied, every line that was not flagged
    removed and whose key is submitted stays in the new list: under the staff
    policy as the same line (same id and status), with its quantity and
    flags untouched, or lowered in place, or at its quantity with
    [isRemoved = true]; under the customer policy as the unflagged line of
    its key.  Under the customer policy a non-removed line whose key is no
    longer submitted leaves a copy of the first line of that key with
    [isRemoved = true] and [isNew = false], with the same menu item, name,
    price, quantity, text and key.  Lines that were already flagged removed
    take no part: the new list is the same for every order with the same
    non-removed lines. *)
Theorem removed_lines_retention {M : Mongoose} :
  forall isStaffEdit catalog req order code order',
    reply (updateOrder isStaffEdit catalog req order) = Success code order' ->
    let oldItems := nonRemoved (Order.items order) in
    let items := UpdateReq.items req in
    (forall o,
        In o oldItems -> submitted (lineKey o) items ->
        if isStaffEdit then
          exists l',
            In l' (Order.items order')
            /\ (keptFrom o l' \/ (exists r, loweredFrom r o l')
                \/ flaggedFrom o l')
        else
          exists l', In l' (Order.items order')
                     /\ lineKey l' = lineKey o
                     /\ OrderLine.isRemoved l' = false)
    /\ (isStaffEdit = false ->
        forall o,
          In o oldItems -> ~ submitted (lineKey o) items ->
          exists o0 l',
            firstOfKey (lineKey o) oldItems o0
            /\ In l' (Order.items order')
            /\ flaggedCopyOf o0 l')
    /\ (forall order2 code2 order2',
          nonRemoved (Order.items order2) = oldItems ->
          reply (updateOrder isStaffEdit catalog req order2)
          = Success code2 order2' ->
          Order.items order2' = Order.items order').
Proof.
  intros isStaffEdit catalog req order code order' Hok oldItems items.
  split; [|split].
  - intros o Hin Hsub. destruct isStaffEdit.
    + destruct (updateOrder_staff _ _ _ _ _ Hok)
        as (L & H & Hrec & HL & _).
      rewrite HL.
      destruct (staff_line_kept _ _ _ _ _ _ _ Hrec Hin Hsub)
        as (l' & Hl' & Hedit).
      exists l'. split; [assumption|]. now apply lineEdit_explicit.
    + destruct (updateOrder_customer _ _ _ _ _ Hok)
        as (L & H & T & Hrec & HL & _).
      destruct (customer_key_line_active _ _ _ _ _ _ _ _ Hrec Hsub)
        as (line & Hlines & Hrm).
      rewrite <- HL in Hlines.
      exists line. split; [|split; [|exact Hrm]].
      * assert (Hl : In line (linesWithKey (lineKey o) (Order.items order')))
          by (rewrite Hlines; now left).
        now apply filter_In in Hl.
      * assert (Hl : In line (linesWithKey (lineKey o) (Order.items order')))
          by (rewrite Hlines; now left).
        apply filter_In in Hl. now apply hasKey_true.
  - intros -> o Hin Hnot.
    destruct (updateOrder_customer _ _ _ _ _ Hok)
      as (L & H & T & Hrec & HL & _).
    rewrite HL.
    destruct (customer_line_flagged _ _ _ _ _ _ _ _ Hrec Hin Hnot)
      as (o0 & Hfind & Hcopy).
    exists o0, (removedCopy (sortLineAddons o0)).
    split; [now apply findByKey_first|]. split; [assumption|].
    apply removedCopy_flaggedCopyOf.
  - intros order2 code2 order2' Hsame Hok2.
    exact (updateOrder_same_active _ _ _ _ _ _ _ _ _ Hsame Hok Hok2).
Qed.

Lemma removed_lines_retention_witness :
  let order :=
    Sample.order
      [Sample.line 11 Sample.burger 1 IPending false;
       Sample.line 12 Sample.fries 2 IPreparing false] Preparing in
  let req := Sample.request [Sample.item Sample.burger 1] in
  let order' := persisted (updateOrder false Sample.catalog req order) in
  exists l',
    In l' (Order.items order')
    /\ OrderLine.isRemoved l' = true
    /\ OrderLine.name l' = "Fries"
    /\ OrderLine.quantity l' = 2.
Proof.
  intros order req order'.
  assert (Hok : reply (updateOrder false Sample.catalog req order)
                = Success 200 order') by (vm_compute; reflexivity).
  destruct (proj1 (proj2 (removed_lines_retention false Sample.catalog req
                            order 200 order' Hok))
              eq_refl (Sample.line 12 Sample.fries 2 IPreparing false))
    as (o0 & l' & (pre & post & Hsplit & Hk & _) & Hin & Hcopy).
  - right. now left.
  - intros (item & [<- | []] & Hk). vm_compute in Hk. discriminate.
  - assert (Hin0 : In o0 (nonRemoved (Order.items order)))
      by (rewrite Hsplit; apply in_elt).
    destruct Hcopy as (Hrm & _ & _ & _ & Hname & _ & Hq & _).
    exists l'. split; [assumption|]. split; [assumption|].
    destruct Hin0 as [<- | [<- | []]].
    + vm_compute in Hk. discriminate.
    + split; assumption.
Defined.

(** The staff branch has no removal loop: the lines of a key that is not
    submitted are not in the new list at all, flagged or not. *)
Lemma staff_absent_key_dropped {M : Mongoose} catalog req order code order' k :
  reply (updateOrder true catalog req order) = Success code order' ->
  ~ submitted k (UpdateReq.items req) ->
  linesWithKey k (Order.items order') = [].
Proof.
  intros Hok Hnot.
  destruct (updateOrder_staff _ _ _ _ _ Hok) as (L & H & Hrec & -> & _).
  now apply (staffReconcile_lines _ _ _ _ _ _ k Hrec).
Qed.

(** C3 at the failing input.  An order with one pending burger and two
    fries being prepared; staff submits the burger alone, which lowers the
    key of the fries from 2 to 0.  Step 4 of the staff branch finds the key
    and leaves it to a removal loop that the branch does not have: the line
    of the fries is neither lowered nor kept with [isRemoved = true], it is
    gone from the list, and no [quantity_decreased] (nor any other) event is
    logged, so the order does not even count as changed.  On the same input
    the customer branch keeps a flagged copy of the line and logs its
    removal. *)
Theorem staff_removal_skips_absent_key :
  let order :=
    Sample.order
      [Sample.line 11 Sample.burger 1 IPending false;
       Sample.line 12 Sample.fries 2 IPreparing false] Preparing in
  let req := Sample.request [Sample.item Sample.burger 1] in
  let staffOrder := persisted (updateOrder true Sample.catalog req order) in
  let customerOrder :=
    persisted (updateOrder false Sample.catalog req order) in
  schemaAccepts order = true
  /\ existingTotalQty Sample.friesKey (Order.items order) = 2
  /\ desiredQty Sample.friesKey (UpdateReq.items req) = 0
  /\ updateOrder true Sample.catalog req order
     = mkOutcome (Success 200 staffOrder) staffOrder
  /\ Order.items staffOrder
     = [Sample.line 11 Sample.burger 1 IPending false]
  /\ linesWithKey Sample.friesKey (Order.items staffOrder) = []
  /\ Order.updateHistory staffOrder = []
  /\ Order.hasUnseenChanges staffOrder = false
  /\ updateOrder false Sample.catalog req order
     = mkOutcome (Success 200 customerOrder) customerOrder
  /\ (exists l,
        linesWithKey Sample.friesKey (Order.items customerOrder) = [l]
        /\ OrderLine.isRemoved l = true
        /\ OrderLine.name l = "Fries"
        /\ OrderLine.quantity l = 2)
  /\ (exists event,
        Order.updateHistory customerOrder = [event]
        /\ ChangeEvent.changeType event = item_removed
        /\ ChangeEvent.itemName event = "Fries"
        /\ ChangeEvent.oldQuantity event = Some 2).
Proof.
  repeat (split; [vm_compute; reflexivity|]).
  split; eexists; (split; [vm_compute; reflexivity|]); repeat split.
Qed.

(** ** Which lines the totals cover *)

Lemma createStep_fold_None catalog items :
  fold_left (createStep catalog) items None = None.
Proof. induction items; simpl; auto. Qed.

Lemma createStep_fold catalog items ls t ls' t' :
  fold_left (createStep catalog) items (Some (ls, t)) = Some (ls', t') ->
  exists new,
    ls' = ls ++ new
    /\ t' = fold_left (fun total l => (total + linePrice l)%Q) new t
    /\ Forall (fun l => OrderLine.isRemoved l = false) new.
Proof.
  revert ls t. induction items as [|item items IH]; intros ls t.
  - simpl. intros Heq. injection Heq as <- <-.
    exists []. rewrite app_nil_r. repeat split. constructor.
  - cbn [fold_left]. unfold createStep at 2.
    destruct (menuItemMap catalog (ReqItem.menuItemId item)) as [menuItem|];
      [|rewrite createStep_fold_None; discriminate].
    intros Hfold. destruct (IH _ _ Hfold) as (new & -> & -> & Hall).
    exists (createLine menuItem item :: new).
    rewrite <- app_assoc. repeat split.
    constructor; [reflexivity | assumption].
Qed.

(** A new order's total is the rounded sum over its lines, none of which
    is flagged. *)
Lemma placeOrder_total {M : Mongoose} catalog customerName specialInstructions items code o :
  placeOrder catalog customerName specialInstructions items = Success code o ->
  Order.totalPrice o = specTotal (Order.items o)
  /\ Order.status o = Pending.
Proof.
  unfold placeOrder.
  destruct items as [|i0 items]; [discriminate|].
  destruct (existsb _ (i0 :: items)); [discriminate|].
  destruct (existsb _ (i0 :: items)); [discriminate|].
  destruct (fold_left (createStep catalog) (i0 :: items) (Some ([], 0%Q)))
    as [[ls t]|] eqn:Hfold; [|discriminate].
  cbv zeta. destruct (saves _); [|discriminate].
  intros Heq. injection Heq as _ <-.
  destruct (createStep_fold _ _ _ _ _ _ Hfold) as (new & -> & -> & Hall).
  cbn [app Order.totalPrice Order.items Order.status].
  unfold specTotal. rewrite (nonRemoved_all _ Hall). split; reflexivity.
Qed.

(** The staff total runs over every line of the new list, flagged lines
    included. *)
Lemma staff_total_all_lines {M : Mongoose} catalog req order code order' :
  reply (updateOrder true catalog req order) = Success code order' ->
  Order.totalPrice order' = round2 (sumLinePrices (Order.items order')).
Proof.
  intros Hok.
  destruct (updateOrder_staff _ _ _ _ _ Hok) as (L & H & _ & -> & _ & -> & _).
  reflexivity.
Qed.

Lemma linePrice_logLine old l : linePrice (logLine old l) = linePrice l.
Proof.
  unfold logLine. destruct (findByKey _ old) as [o|]; [|reflexivity].
  destruct (_ >? _); reflexivity.
Qed.

Lemma sumLinePrices_logLine old ls :
  sumLinePrices (map (logLine old) ls) = sumLinePrices ls.
Proof.
  unfold sumLinePrices. generalize 0%Q as init.
  induction ls as [|l ls IH]; intros init; simpl; [reflexivity|].
  now rewrite linePrice_logLine, IH.
Qed.

Lemma consolidatedFor_active catalog em items k v :
  consolidatedFor catalog em items k = Some v ->
  OrderLine.isRemoved v = false.
Proof.
  unfold consolidatedFor.
  destruct (find _ items) as [first|]; [|discriminate].
  destruct (menuItemMap catalog _) as [menuItem|]; [|discriminate].
  intros Heq. injection Heq as <-. reflexivity.
Qed.

(** The customer total is the rounded sum over the lines of the new list
    that are not flagged removed. *)
Lemma customer_total_active_lines {M : Mongoose} catalog req order code order' :
  reply (updateOrder false catalog req order) = Success code order' ->
  Order.totalPrice order' = specTotal (Order.items order').
Proof.
  intros Hok.
  destruct (updateOrder_customer _ _ _ _ _ Hok)
    as (L & H & T & Hrec & -> & -> & _).
  destruct (customerReconcile_shape _ _ _ _ _ _ _ Hrec)
    as (m' & extra & Hfold & -> & -> & Hextra & _).
  unfold specTotal. f_equal.
  rewrite nonRemoved_app.
  assert (Hactive : Forall (fun l => OrderLine.isRemoved l = false)
                      (map (logLine
                              (map sortLineAddons
                                 (nonRemoved (Order.items order))))
                         (mapValues m'))).
  { apply Forall_map, Forall_forall. intros v Hv.
    rewrite logLine_isRemoved.
    unfold mapValues in Hv. apply in_map_iff in Hv.
    destruct Hv as ([k v'] & Heq & Hin). cbn [snd] in Heq. subst v'.
    pose proof (consolidate_NoDup _ _ _ _ _ Hfold (NoDup_nil _)) as Hnd.
    apply (In_mapGet Key_eq_dec k v m' Hnd) in Hin.
    rewrite (consolidate_fold _ _ k _ _ _ Hfold) in Hin.
    cbn [mapGet] in Hin. now apply consolidatedFor_active in Hin. }
  rewrite (nonRemoved_all _ Hactive).
  assert (Hflagged : nonRemoved extra = []).
  { clear - Hextra. induction Hextra as [|x extra Hx _ IH]; [reflexivity|].
    destruct Hx as (o & _ & -> & _). simpl. exact IH. }
  rewrite Hflagged, app_nil_r.
  symmetry. apply sumLinePrices_logLine.
Qed.

(** * Further properties of the handlers *)

(** ** Validation and the reconciliation never disagree *)

Lemma existsb_false_Forall {A : Type} (f : A -> bool) (P : A -> Prop) ls :
  (forall x, f x = false -> P x) ->
  existsb f ls = false -> Forall P ls.
Proof.
  intros HP. induction ls as [|x ls IH]; simpl; [constructor|].
  intros H. apply orb_false_iff in H. destruct H as [Hx Hls].
  constructor; auto.
Qed.

Lemma Forall_existsb_false {A : Type} (f : A -> bool) (P : A -> Prop) ls :
  (forall x, P x -> f x = false) ->
  Forall P ls -> existsb f ls = false.
Proof.
  intros HP. induction 1 as [|x ls Hx _ IH]; simpl; [reflexivity|].
  now rewrite (HP x Hx), IH.
Qed.

Lemma staffStep_fold_total catalog changedBy existingMap entries acc :
  Forall (fun e => entryOutput catalog changedBy existingMap e <> None)
    entries ->
  fold_left (staffStep catalog changedBy existingMap) entries (Some acc)
  <> None.
Proof.
  intros Hall. revert acc.
  induction Hall as [|[k inc] entries He _ IH]; intros [L H];
    cbn [fold_left]; [discriminate|].
  unfold staffStep at 2. unfold entryOutput in He. cbn [fst snd] in He.
  destruct (menuItemMap catalog (ReqItem.menuItemId (Incoming.data inc)))
    as [menuItem|]; [|congruence].
  destruct (staffKey changedBy menuItem inc (existingFor existingMap k)).
  apply IH.
Qed.

Lemma staffReconcile_total catalog changedBy oldItems items :
  Forall (menuFound catalog) items ->
  staffReconcile catalog changedBy oldItems items <> None.
Proof.
  intros Hfound. unfold staffReconcile. apply staffStep_fold_total.
  apply Forall_forall. intros [k inc] Hin.
  apply (In_mapGet Key_eq_dec k inc _ (incomingMap_NoDup items)) in Hin.
  rewrite incomingMap_get in Hin.
  destruct (firstSubmitted k items) as [first|] eqn:Hfirst; [|discriminate].
  injection Hin as <-.
  apply firstSubmitted_key in Hfirst. destruct Hfirst as [Hin _].
  rewrite Forall_forall in Hfound. specialize (Hfound first Hin).
  unfold entryOutput, menuFound in *. cbn.
  destruct (menuItemMap catalog (ReqItem.menuItemId first)); congruence.
Qed.

Lemma consolidate_total catalog em items m :
  Forall (menuFound catalog) items ->
  fold_left (consolidateStep catalog em) items (Some m) <> None.
Proof.
  intros Hall. revert m.
  induction Hall as [|item items Hitem _ IH]; intros m; cbn [fold_left];
    [discriminate|].
  unfold consolidateStep at 2.
  destruct (mapGet Key_eq_dec _ m); [apply IH|].
  unfold menuFound in Hitem. cbn [sortReqAddons ReqItem.menuItemId].
  destruct (menuItemMap catalog (ReqItem.menuItemId item)); [|congruence].
  apply IH.
Qed.

Lemma customerReconcile_total catalog changedBy oldItems items :
  Forall (menuFound catalog) items ->
  customerReconcile catalog changedBy oldItems items <> None.
Proof.
  intros Hfound. unfold customerReconcile.
  pose proof (consolidate_total catalog (buildExistingItemsMap oldItems)
                items [] Hfound) as Hc.
  destruct (fold_left (consolidateStep _ _) items (Some []))
    as [m|]; [|congruence].
  destruct (fold_left (customerRemovedStep changedBy) _ _). discriminate.
Qed.

Lemma updateOrder_cases {M : Mongoose} isStaffEdit catalog req order :
  (updateAccepted catalog req order
   /\ exists order',
        updateDocument isStaffEdit catalog req order = Some order'
        /\ saves order' = true
        /\ updateOrder isStaffEdit catalog req order
           = mkOutcome (Success 200 order') order')
  \/ (updateAccepted catalog req order
      /\ exists order',
           updateDocument isStaffEdit catalog req order = Some order'
           /\ saves order' = false
           /\ updateOrder isStaffEdit catalog req order
              = reject 500 "Server error while updating order" order)
  \/ (~ updateAccepted catalog req order
      /\ exists code message,
           updateOrder isStaffEdit catalog req order
           = reject code message order
           /\ (code = 400%nat \/ code = 404%nat)).
Proof.
  unfold updateOrder, updateAccepted, updateDocument, nonRemoved.
  destruct (UpdateReq.items req) as [|i0 items] eqn:Hitems.
  { right. right. split; [intros (H & _); congruence|].
    eexists _, _. split; [reflexivity | now left]. }
  destruct (isTerminal (Order.status order)) eqn:Hterm.
  { right. right. split; [intros (_ & H & _); congruence|].
    eexists _, _. split; [reflexivity | now left]. }
  destruct (existsb _ (i0 :: items)) eqn:Hq.
  { right. right. split.
    - intros (_ & _ & Hall & _).
      rewrite (Forall_existsb_false _ _ _ (fun x Hx =>
                 proj2 (Z.ltb_ge (ReqItem.quantity x) 1) Hx) Hall) in Hq.
      discriminate.
    - eexists _, _. split; [reflexivity | now left]. }
  destruct (existsb _ (i0 :: items)) eqn:Hm in |- *.
  { right. right. split.
    - intros (_ & _ & _ & Hall).
      rewrite (Forall_existsb_false _ (menuFound catalog) (i0 :: items))
        in Hm; [discriminate | | exact Hall].
      intros x Hx. unfold menuFound in Hx.
      destruct (menuItemMap catalog (ReqItem.menuItemId x)); congruence.
    - eexists _, _. split; [reflexivity | now right]. }
  assert (Hqty : Forall (fun item => 1 <= ReqItem.quantity item)
                   (i0 :: items)).
  { apply (existsb_false_Forall _ _ _ (fun x Hx =>
             proj1 (Z.ltb_ge (ReqItem.quantity x) 1) Hx) Hq). }
  assert (Hfound : Forall (menuFound catalog) (i0 :: items)).
  { apply (existsb_false_Forall
             (fun item =>
                match menuItemMap catalog (ReqItem.menuItemId item) with
                | Some _ => false
                | None => true
                end) _ _); [|exact Hm].
    intros x Hx. unfold menuFound.
    destruct (menuItemMap catalog (ReqItem.menuItemId x)); congruence. }
  assert (Hacc : i0 :: items <> []
                 /\ false = false
                 /\ Forall (fun item => 1 <= ReqItem.quantity item)
                      (i0 :: items)
                 /\ Forall (menuFound catalog) (i0 :: items))
    by (repeat split; auto; discriminate).
  destruct isStaffEdit.
  - pose proof (staffReconcile_total catalog staff
                  (filter (fun item => negb (OrderLine.isRemoved item))
                     (Order.items order)) (i0 :: items) Hfound) as Ht.
    unfold staffReconcileTotal in *.
    destruct (staffReconcile _ _ _ _) as [[L H]|]; [|congruence].
    cbv zeta.
    match goal with
    | |- context [saves ?d] => destruct (saves d) eqn:Hsave
    end.
    + left. split; [exact Hacc|]. eexists. repeat split. exact Hsave.
    + right. left. split; [exact Hacc|]. eexists. repeat split.
      exact Hsave.
  - pose proof (customerReconcile_total catalog customer
                  (filter (fun item => negb (OrderLine.isRemoved item))
                     (Order.items order)) (i0 :: items) Hfound) as Ht.
    destruct (customerReconcile _ _ _ _) as [[[L H] T]|]; [|congruence].
    cbv zeta.
    match goal with
    | |- context [saves ?d] => destruct (saves d) eqn:Hsave
    end.
    + left. split; [exact Hacc|]. eexists. repeat split. exact Hsave.
    + right. left. split; [exact Hacc|]. eexists. repeat split.
      exact Hsave.
Qed.

(** X1. The update handler succeeds exactly when the submission is not
    empty, the order is neither paid nor cancelled, every quantity is at
    least 1, every menu item is found, and [save()] accepts the document the
    reconciliation builds.  Once the guards pass the reconciliation always
    builds a document (its own server-error path is unreachable), and the
    order of a successful reply is that document, saved. *)
Theorem updateOrder_succeeds_iff_valid {M : Mongoose} :
  forall isStaffEdit catalog req order,
    (updateAccepted catalog req order ->
     exists doc, updateDocument isStaffEdit catalog req order = Some doc)
    /\ ((exists order',
           updateOrder isStaffEdit catalog req order
           = mkOutcome (Success 200 order') order')
        <-> updateAccepted catalog req order
            /\ exists doc,
                 updateDocument isStaffEdit catalog req order = Some doc
                 /\ saves doc = true)
    /\ (forall code order',
          reply (updateOrder isStaffEdit catalog req order)
          = Success code order' ->
          code = 200%nat
          /\ updateDocument isStaffEdit catalog req order = Some order'
          /\ persisted (updateOrder isStaffEdit catalog req order) = order').
Proof.
  intros isStaffEdit catalog req order.
  destruct (updateOrder_cases isStaffEdit catalog req order)
    as [(Hacc & doc & Hdoc & Hsave & Hrun)
       | [(Hacc & doc & Hdoc & Hsave & Hrun)
         | (Hnot & code & message & Hrun & _)]];
    rewrite Hrun.
  - split; [intros _; now exists doc|]. split.
    + split; [intros _|intros _; now exists doc].
      split; [assumption|]. now exists doc.
    + cbn. intros code order' H. injection H as <- <-. repeat split.
      assumption.
  - split; [intros _; now exists doc|]. split.
    + split; [intros (order' & H); discriminate|].
      intros (_ & doc' & Hdoc' & Hsave'). congruence.
    + cbn. intros code order' H. discriminate.
  - split; [contradiction|]. split.
    + split; [intros (order' & H); discriminate|]. intros (H & _).
      contradiction.
    + cbn. intros code' order' H. discriminate.
Qed.

Lemma updateOrder_succeeds_iff_valid_witness :
  let order :=
    Sample.order [Sample.line 11 Sample.burger 3 IPreparing false]
      Preparing in
  let req := Sample.request [Sample.item Sample.burger 4] in
  exists order',
    updateOrder true Sample.catalog req order
    = mkOutcome (Success 200 order') order'.
Proof.
  intros order req.
  apply (proj1 (proj2 (updateOrder_succeeds_iff_valid true Sample.catalog
                         req order))).
  split.
  - repeat split; [discriminate | repeat constructor; cbn; lia
                  | repeat constructor; cbn; discriminate].
  - eexists. split; [reflexivity | vm_compute; reflexivity].
Defined.

(** X2. Whenever the update handler does not succeed, the stored order is
    exactly the one it loaded.  It replies 400 or 404 exactly when one of its
    guards fails, and 500 exactly when the guards pass and [save()] refuses
    the document that was built. *)
Theorem updateOrder_rejection_is_atomic {M : Mongoose} :
  forall isStaffEdit catalog req order code message flag,
    reply (updateOrder isStaffEdit catalog req order)
    = Failure code message flag ->
    persisted (updateOrder isStaffEdit catalog req order) = order
    /\ flag = false
    /\ (((code = 400%nat \/ code = 404%nat)
         /\ ~ updateAccepted catalog req order)
        \/ (code = 500%nat
            /\ updateAccepted catalog req order
            /\ exists doc,
                 updateDocument isStaffEdit catalog req order = Some doc
                 /\ saves doc = false)).
Proof.
  intros isStaffEdit catalog req order code message flag Hfail.
  destruct (updateOrder_cases isStaffEdit catalog req order)
    as [(_ & order' & _ & _ & Hok)
       | [(Hacc & doc & Hdoc & Hsave & Hrej)
         | (Hnot & code' & message' & Hrej & Hcode)]].
  - rewrite Hok in Hfail. discriminate.
  - rewrite Hrej in Hfail |- *. cbn in Hfail |- *.
    injection Hfail as <- <- <-. split; [reflexivity|].
    split; [reflexivity|]. right. split; [reflexivity|].
    split; [assumption|]. now exists doc.
  - rewrite Hrej in Hfail |- *. cbn in Hfail |- *.
    injection Hfail as <- <- <-. split; [reflexivity|].
    split; [reflexivity|]. left. split; assumption.
Qed.

Lemma updateOrder_rejection_is_atomic_witness :
  let order :=
    Sample.order [Sample.line 11 Sample.burger 3 IPreparing false]
      Preparing in
  let req :=
    UpdateReq.mk [Sample.item Sample.burger 4] (Some Sample.longName) None in
  persisted (updateOrder true Sample.catalog req order) = order
  /\ updateAccepted Sample.catalog req order.
Proof.
  intros order req.
  destruct (updateOrder_rejection_is_atomic true Sample.catalog req order
              500 "Server error while updating order" false)
    as (Hp & _ & [([H4 | H4] & _) | (_ & Hacc & _)]);
    [vm_compute; reflexivity | discriminate | discriminate |].
  split; assumption.
Defined.

(** ** Bookkeeping of an applied update *)

Lemma staffKey_attributed changedBy menuItem incoming existingList :
  attributedTo changedBy
    (snd (staffKey changedBy menuItem incoming existingList)).
Proof.
  unfold staffKey, attributedTo.
  destruct (_ =? _); [constructor|].
  destruct (_ >? _); cbn [snd].
  - destruct (_ =? 0); repeat constructor.
  - repeat constructor.
Qed.

Lemma staffReconcile_attributed catalog changedBy oldItems items L H :
  staffReconcile catalog changedBy oldItems items = Some (L, H) ->
  attributedTo changedBy H.
Proof.
  intros Hrec. apply staffReconcile_by_key in Hrec.
  destruct Hrec as (_ & -> & _).
  unfold attributedTo. apply Forall_flat_map, Forall_forall.
  intros k _. unfold staffKeyEvents, staffKeyOutput.
  destruct (mapGet Key_eq_dec k (buildIncomingMap items)) as [inc|];
    [|constructor].
  destruct (menuItemMap catalog _) as [menuItem|]; [|constructor].
  pose proof (staffKey_attributed changedBy menuItem inc
                (existingFor (buildExistingMap oldItems) k)) as Hatt.
  destruct (staffKey _ _ _ _). exact Hatt.
Qed.

Lemma customerLog_attributed changedBy oldItems ls acc :
  attributedTo changedBy (snd acc) ->
  attributedTo changedBy
    (snd (fold_left (customerLogStep changedBy oldItems) ls acc)).
Proof.
  revert acc. induction ls as [|l ls IH]; intros [done history] Hacc;
    cbn [fold_left]; [exact Hacc|].
  apply IH. unfold customerLogStep, attributedTo in *. cbn [snd] in Hacc.
  destruct (findByKey _ oldItems) as [o|].
  - destruct (_ >? _); cbn [snd].
    + apply Forall_app. split; [assumption | repeat constructor].
    + destruct (_ <? _); cbn [snd]; [|assumption].
      apply Forall_app. split; [assumption | repeat constructor].
  - cbn [snd]. apply Forall_app. split; [assumption | repeat constructor].
Qed.

Lemma customerRemoved_attributed changedBy olds acc :
  attributedTo changedBy (snd acc) ->
  attributedTo changedBy
    (snd (fold_left (customerRemovedStep changedBy) olds acc)).
Proof.
  revert acc. induction olds as [|o olds IH]; intros [L history] Hacc;
    cbn [fold_left]; [exact Hacc|].
  apply IH. unfold customerRemovedStep, attributedTo in *. cbn [snd] in Hacc.
  destruct (findByKey _ L); cbn [snd]; [assumption|].
  apply Forall_app. split; [assumption | repeat constructor].
Qed.

Lemma customerReconcile_attributed catalog changedBy oldItems items L H T :
  customerReconcile catalog changedBy oldItems items = Some (L, H, T) ->
  attributedTo changedBy H.
Proof.
  unfold customerReconcile.
  destruct (fold_left (consolidateStep _ _) items (Some []))
    as [m|]; [|discriminate].
  intros Heq.
  pose proof (customerRemoved_attributed changedBy
                (map sortLineAddons oldItems)
                (fold_left
                   (customerLogStep changedBy (map sortLineAddons oldItems))
                   (mapValues m) ([], []))
                (customerLog_attributed changedBy _ _ ([], [])
                   (Forall_nil _))) as Hatt.
  destruct (fold_left (customerRemovedStep changedBy) _ _) as [L' H'].
  injection Heq as <- <- <-. exact Hatt.
Qed.

(** X3. An applied update raises [updateCount] by one, sets [isUpdated],
    leaves the ticket ledger and the payment method alone, and only appends
    to [updateHistory]; every event it appends is attributed to the actor of
    the edit, staff when the request was authenticated and customer
    otherwise. *)
Theorem updateOrder_bookkeeping {M : Mongoose} :
  forall isStaffEdit catalog req order code order',
    reply (updateOrder isStaffEdit catalog req order) = Success code order' ->
    Order.updateCount order' = Order.updateCount order + 1
    /\ Order.isUpdated order' = true
    /\ Order.kots order' = Order.kots order
    /\ Order.paymentMethod order' = Order.paymentMethod order
    /\ exists log,
         Order.updateHistory order' = Order.updateHistory order ++ log
         /\ attributedTo (if isStaffEdit then staff else customer) log
         /\ (log <> [] -> Order.hasUnseenChanges order' = true)
         /\ (log = [] ->
             Order.hasUnseenChanges order' = Order.hasUnseenChanges order
             /\ Order.status order' = Order.status order
             /\ Order.batchStatus order' = Order.batchStatus order).
Proof.
  intros isStaffEdit catalog req order code order' Hok.
  destruct (updateOrder_success _ _ _ _ _ _ Hok)
    as (L & H & T & Hrec & -> & _).
  assert (Hatt : attributedTo (if isStaffEdit then staff else customer) H).
  { destruct isStaffEdit.
    - unfold staffReconcileTotal in Hrec.
      destruct (staffReconcile _ _ _ _) as [[L' H']|] eqn:Hs;
        [|discriminate].
      injection Hrec as <- <- _.
      eapply staffReconcile_attributed; eassumption.
    - eapply customerReconcile_attributed; eassumption. }
  unfold applyUpdate. destruct H as [|h H].
  - cbn. repeat split. exists []. rewrite app_nil_r.
    repeat split; [constructor | congruence].
  - cbn. repeat split. exists (h :: H).
    repeat split; [assumption | discriminate | discriminate
                  | discriminate].
Qed.

Lemma updateOrder_bookkeeping_witness :
  let order :=
    Sample.order [Sample.line 11 Sample.burger 3 IPreparing false]
      Preparing in
  let req := Sample.request [Sample.item Sample.burger 5] in
  let order' := persisted (updateOrder true Sample.catalog req order) in
  Order.updateCount order' = 1 /\ Order.isUpdated order' = true.
Proof.
  intros order req order'.
  assert (Hok : reply (updateOrder true Sample.catalog req order)
                = Success 200 order') by (vm_compute; reflexivity).
  destruct (updateOrder_bookkeeping true Sample.catalog req order 200 order'
              Hok) as (Hc & Hu & _).
  split; assumption.
Defined.

(** X4. [originalItems] is captured once: the first applied update stores
    the pre-edit lines with their [isNew] and [isRemoved] flags cleared, and
    no later update changes that snapshot. *)
Theorem originalItems_captured_once {M : Mongoose} :
  forall edit1 edit2 catalog1 catalog2 req1 req2 order code1 order1 code2
         order2,
    reply (updateOrder edit1 catalog1 req1 order) = Success code1 order1 ->
    reply (updateOrder edit2 catalog2 req2 order1) = Success code2 order2 ->
    Order.originalItems order2 = Order.originalItems order1
    /\ (Order.isUpdated order = false ->
        Order.originalItems order1 = map snapshotLine (Order.items order))
    /\ (Order.isUpdated order = true ->
        Order.originalItems order1 = Order.originalItems order).
Proof.
  intros edit1 edit2 catalog1 catalog2 req1 req2 order code1 order1 code2
    order2 Hok1 Hok2.
  destruct (updateOrder_success _ _ _ _ _ _ Hok1)
    as (L1 & H1 & T1 & _ & -> & _).
  destruct (updateOrder_success _ _ _ _ _ _ Hok2)
    as (L2 & H2 & T2 & _ & -> & _).
  assert (Hup : forall r o L H T,
             Order.isUpdated (applyUpdate r o L H T) = true
             /\ Order.originalItems (applyUpdate r o L H T)
                = if Order.isUpdated o then Order.originalItems o
                  else map snapshotLine (Order.items o)).
  { intros r o L H T. unfold applyUpdate. destruct H; split; reflexivity. }
  destruct (Hup req1 order L1 H1 T1) as [Hu1 Ho1].
  destruct (Hup req2 (applyUpdate req1 order L1 H1 T1) L2 H2 T2)
    as [_ Ho2].
  rewrite Hu1 in Ho2. split; [exact Ho2|].
  split; intros Hflag; rewrite Ho1, Hflag; reflexivity.
Qed.

Lemma originalItems_captured_once_witness :
  let order :=
    Sample.order [Sample.line 11 Sample.burger 3 IPreparing false]
      Preparing in
  let req1 := Sample.request [Sample.item Sample.burger 5] in
  let req2 := Sample.request [Sample.item Sample.fries 1] in
  let order1 := persisted (updateOrder true Sample.catalog req1 order) in
  let order2 := persisted (updateOrder false Sample.catalog req2 order1) in
  Order.originalItems order2
  = [Sample.line 11 Sample.burger 3 IPreparing false].
Proof.
  intros order req1 req2 order1 order2.
  assert (Hok1 : reply (updateOrder true Sample.catalog req1 order)
                 = Success 200 order1) by (vm_compute; reflexivity).
  assert (Hok2 : reply (updateOrder false Sample.catalog req2 order1)
                 = Success 200 order2) by (vm_compute; reflexivity).
  destruct (originalItems_captured_once true false Sample.catalog
              Sample.catalog req1 req2 order 200 order1 200 order2
              Hok1 Hok2) as (H2 & H1 & _).
  rewrite H2. exact (H1 eq_refl).
Defined.

(** ** Batch entries of the update handler *)

Lemma to_int_printable n :
  Z.to_int n <> Decimal.Pos Decimal.Nil
  /\ Z.to_int n <> Decimal.Neg Decimal.Nil.
Proof.
  destruct n as [|p|p]; cbn; split; try discriminate;
    intros H; injection H as H;
    exact (DecimalPos.Unsigned.to_uint_nonnil p H).
Qed.

Lemma updateBatchId_injective n m :
  updateBatchId n = updateBatchId m -> n = m.
Proof.
  unfold updateBatchId. cbn [String.append]. intros H.
  injection H as H.
  apply (f_equal NilZero.int_of_string) in H.
  destruct (to_int_printable n) as [Hn1 Hn2].
  destruct (to_int_printable m) as [Hm1 Hm2].
  rewrite !NilZero.isi in H by assumption.
  injection H as H. now apply DecimalZ.to_int_inj.
Qed.

Lemma updateBatchId_not_original n : updateBatchId n <> "original".
Proof. unfold updateBatchId. cbn [String.append]. discriminate. Qed.

Lemma applyUpdate_batch req order L h H T :
  0 <= Order.updateCount order ->
  let order' := applyUpdate req order L (h :: H) T in
  mapGet string_dec (updateBatchId (Order.updateCount order'))
    (Order.batchStatus order') = Some (Order.status order')
  /\ forall key,
       key <> updateBatchId (Order.updateCount order') ->
       mapGet string_dec key (Order.batchStatus order')
       = mapGet string_dec key (Order.batchStatus order).
Proof.
  intros Hcount order'. unfold order', applyUpdate.
  destruct (Z.eqb_spec (Order.updateCount order + 1) 0) as [Hz|_]; [lia|].
  cbn [Order.updateCount Order.batchStatus Order.status]. split.
  - apply mapGet_mapSet_same.
  - intros key Hkey. apply mapGet_mapSet_other. congruence.
Qed.

(** X5. An applied update that logs at least one change records the
    order's resulting status under the batch key [update-N], N being the new
    [updateCount], and leaves every other batch entry as it was (for an order
    whose [updateCount] is not negative, as the schema requires). *)
Theorem update_records_its_batch {M : Mongoose} :
  forall isStaffEdit catalog req order code order',
    reply (updateOrder isStaffEdit catalog req order) = Success code order' ->
    0 <= Order.updateCount order ->
    Order.updateHistory order' <> Order.updateHistory order ->
    mapGet string_dec (updateBatchId (Order.updateCount order + 1))
      (Order.batchStatus order') = Some (Order.status order')
    /\ forall key,
         key <> updateBatchId (Order.updateCount order + 1) ->
         mapGet string_dec key (Order.batchStatus order')
         = mapGet string_dec key (Order.batchStatus order).
Proof.
  intros isStaffEdit catalog req order code order' Hok Hcount Hlog.
  destruct (updateOrder_success _ _ _ _ _ _ Hok)
    as (L & H & T & _ & -> & _).
  destruct H as [|h H].
  - exfalso. apply Hlog. rewrite applyUpdate_updateHistory.
    apply app_nil_r.
  - pose proof (applyUpdate_batch req order L h H T Hcount) as Hb.
    cbn zeta in Hb.
    assert (Hc : Order.updateCount (applyUpdate req order L (h :: H) T)
                 = Order.updateCount order + 1) by reflexivity.
    rewrite Hc in Hb. exact Hb.
Qed.

Lemma update_records_its_batch_witness :
  let order :=
    Sample.order [Sample.line 11 Sample.burger 3 IReady false] Ready in
  let req := Sample.request [Sample.item Sample.burger 5] in
  let order' := persisted (updateOrder true Sample.catalog req order) in
  mapGet string_dec "update-1" (Order.batchStatus order') = Some Pending
  /\ mapGet string_dec "original" (Order.batchStatus order') = Some Pending.
Proof.
  intros order req order'.
  assert (Hok : reply (updateOrder true Sample.catalog req order)
                = Success 200 order') by (vm_compute; reflexivity).
  destruct (update_records_its_batch true Sample.catalog req order 200
              order' Hok) as [Hnew Hold].
  - vm_compute. discriminate.
  - vm_compute. discriminate.
  - split; [exact Hnew|].
    rewrite (Hold "original"); [reflexivity|]. vm_compute. discriminate.
Defined.

(** X6. Batch keys of successive updates never collide: after two applied
    updates that both log changes, the entry of the first update still holds
    the status the order had after the first update, next to the entry of
    the second. *)
Theorem successive_updates_keep_their_batches {M : Mongoose} :
  forall edit1 edit2 catalog1 catalog2 req1 req2 order code1 order1 code2
         order2,
    reply (updateOrder edit1 catalog1 req1 order) = Success code1 order1 ->
    reply (updateOrder edit2 catalog2 req2 order1) = Success code2 order2 ->
    0 <= Order.updateCount order ->
    Order.updateHistory order1 <> Order.updateHistory order ->
    Order.updateHistory order2 <> Order.updateHistory order1 ->
    mapGet string_dec (updateBatchId (Order.updateCount order + 1))
      (Order.batchStatus order2) = Some (Order.status order1)
    /\ mapGet string_dec (updateBatchId (Order.updateCount order + 2))
         (Order.batchStatus order2) = Some (Order.status order2).
Proof.
  intros edit1 edit2 catalog1 catalog2 req1 req2 order code1 order1 code2
    order2 Hok1 Hok2 Hcount Hlog1 Hlog2.
  destruct (updateOrder_success _ _ _ _ _ _ Hok1)
    as (L1 & H1 & T1 & _ & -> & _).
  destruct (updateOrder_success _ _ _ _ _ _ Hok2)
    as (L2 & H2 & T2 & _ & -> & _).
  destruct H1 as [|h1 H1];
    [exfalso; apply Hlog1; rewrite applyUpdate_updateHistory;
     apply app_nil_r|].
  destruct H2 as [|h2 H2];
    [exfalso; apply Hlog2; rewrite applyUpdate_updateHistory;
     apply app_nil_r|].
  set (order1 := applyUpdate req1 order L1 (h1 :: H1) T1) in *.
  assert (Hc1 : Order.updateCount order1 = Order.updateCount order + 1)
    by reflexivity.
  destruct (applyUpdate_batch req1 order L1 h1 H1 T1 Hcount) as [Hb1 _].
  fold order1 in Hb1.
  assert (Hcount1 : 0 <= Order.updateCount order1) by lia.
  destruct (applyUpdate_batch req2 order1 L2 h2 H2 T2 Hcount1)
    as [Hb2 Hkeep].
  assert (Hc2 : Order.updateCount (applyUpdate req2 order1 L2 (h2 :: H2) T2)
                = Order.updateCount order + 2)
    by (change (Order.updateCount order1 + 1 = Order.updateCount order + 2);
        lia).
  rewrite Hc2 in Hb2, Hkeep. rewrite Hc1 in Hb1. split; [|exact Hb2].
  rewrite Hkeep; [exact Hb1|].
  intros Heq. apply updateBatchId_injective in Heq. lia.
Qed.

Lemma successive_updates_keep_their_batches_witness :
  let order :=
    Sample.order [Sample.line 11 Sample.burger 3 IReady false] Ready in
  let req1 := Sample.request [Sample.item Sample.burger 5] in
  let req2 := Sample.request [Sample.item Sample.burger 2] in
  let order1 := persisted (updateOrder true Sample.catalog req1 order) in
  let order2 := persisted (updateOrder true Sample.catalog req2 order1) in
  mapGet string_dec "update-1" (Order.batchStatus order2) = Some Pending
  /\ mapGet string_dec "update-2" (Order.batchStatus order2) = Some Pending.
Proof.
  intros order req1 req2 order1 order2.
  assert (Hok1 : reply (updateOrder true Sample.catalog req1 order)
                 = Success 200 order1) by (vm_compute; reflexivity).
  assert (Hok2 : reply (updateOrder true Sample.catalog req2 order1)
                 = Success 200 order2) by (vm_compute; reflexivity).
  apply (successive_updates_keep_their_batches true true Sample.catalog
           Sample.catalog req1 req2 order 200 order1 200 order2 Hok1 Hok2).
  - vm_compute. discriminate.
  - vm_compute. discriminate.
  - vm_compute. discriminate.
Defined.

(** ** A key whose quantity does not change *)

(** X7. Under the staff policy a submitted key whose quantity equals the
    total of its existing non-removed lines keeps those lines as they are
    (their addon arrays only went through the in-place sort) and logs nothing;
    when this holds for every submitted key, the update appends no event and
    leaves status, batch statuses and [hasUnseenChanges] untouched. *)
Theorem staff_quantity_unchanged {M : Mongoose} :
  forall catalog req order code order',
    reply (updateOrder true catalog req order) = Success code order' ->
    let items := UpdateReq.items req in
    let oldItems := nonRemoved (Order.items order) in
    (forall k,
        submitted k items ->
        desiredQty k items = existingTotalQty k (Order.items order) ->
        linesWithKey k (Order.items order')
        = map sortLineAddons (linesWithKey k oldItems)
        /\ staffKeyEvents catalog staff oldItems items k = [])
    /\ ((forall k, submitted k items ->
                   desiredQty k items
                   = existingTotalQty k (Order.items order)) ->
        Order.updateHistory order' = Order.updateHistory order
        /\ Order.status order' = Order.status order
        /\ Order.batchStatus order' = Order.batchStatus order
        /\ Order.hasUnseenChanges order' = Order.hasUnseenChanges order).
Proof.
  intros catalog req order code order' Hok items oldItems.
  destruct (updateOrder_success _ _ _ _ _ _ Hok)
    as (L & H & T & Hrec & -> & _).
  unfold staffReconcileTotal in Hrec.
  destruct (staffReconcile _ _ _ _) as [[L' H']|] eqn:Hs; [|discriminate].
  injection Hrec as -> -> _.
  fold items oldItems in Hs.
  assert (Hkey : forall k,
             submitted k items ->
             desiredQty k items = existingTotalQty k (Order.items order) ->
             linesWithKey k L = map sortLineAddons (linesWithKey k oldItems)
             /\ staffKeyEvents catalog staff oldItems items k = []).
  { intros k Hsub Heq.
    destruct (staff_key_summary _ _ _ _ _ _ k Hs Hsub)
      as (first & menuItem & _ & _ & Hlines & Hevents).
    rewrite staffKey_unchanged in Hlines, Hevents
      by (cbn [Incoming.qty]; rewrite totalQuantity_sortLineAddons;
          exact Heq).
    split; assumption. }
  split.
  - intros k Hsub Heq. rewrite applyUpdate_items. now apply Hkey.
  - intros Hall.
    assert (HH : H = []).
    { apply staffReconcile_by_key in Hs. destruct Hs as (_ & -> & _).
      apply flat_map_nil. intros k Hk.
      apply submittedKeys_In in Hk.
      apply (Hkey k Hk (Hall k Hk)). }
    subst H. unfold applyUpdate. cbn. repeat split.
Qed.

Lemma staff_quantity_unchanged_witness :
  let order :=
    Sample.order [Sample.line 11 Sample.burger 3 IReady false] Ready in
  let req := Sample.request [Sample.item Sample.burger 3] in
  let order' := persisted (updateOrder true Sample.catalog req order) in
  Order.updateHistory order' = [] /\ Order.status order' = Ready.
Proof.
  intros order req order'.
  assert (Hok : reply (updateOrder true Sample.catalog req order)
                = Success 200 order') by (vm_compute; reflexivity).
  destruct (proj2 (staff_quantity_unchanged Sample.catalog req order 200
                     order' Hok)) as (Hh & Hs & _).
  - intros k (item & [<- | []] & <-). vm_compute. reflexivity.
  - split; assumption.
Defined.

(** ** The quantity an edit leaves active *)

Lemma sumOverKeys_cons g k keys :
  sumOverKeys g (k :: keys) = g k + sumOverKeys g keys.
Proof. reflexivity. Qed.

Lemma sumOverKeys_zero g keys :
  (forall k, In k keys -> g k = 0) -> sumOverKeys g keys = 0.
Proof.
  induction keys as [|k keys IH]; intros H; [reflexivity|].
  rewrite sumOverKeys_cons, (H k (or_introl eq_refl)), IH; [reflexivity|].
  intros k' Hk'. apply H. now right.
Qed.

Lemma sumOverKeys_indicator k0 q keys :
  NoDup keys -> In k0 keys ->
  sumOverKeys (fun k => if Key_eq_dec k0 k then q else 0) keys = q.
Proof.
  induction 1 as [|k keys Hnotin Hnd IH]; [contradiction|].
  intros [-> | Hin]; rewrite sumOverKeys_cons.
  - destruct (Key_eq_dec k0 k0); [|congruence].
    rewrite sumOverKeys_zero; [lia|].
    intros k Hk. destruct (Key_eq_dec k0 k) as [->|_];
      [contradiction | reflexivity].
  - destruct (Key_eq_dec k0 k) as [->|_]; [contradiction|].
    rewrite (IH Hin). lia.
Qed.

Lemma sumOverKeys_add g1 g2 keys :
  sumOverKeys (fun k => g1 k + g2 k) keys
  = sumOverKeys g1 keys + sumOverKeys g2 keys.
Proof.
  induction keys as [|k keys IH]; [reflexivity|].
  rewrite !sumOverKeys_cons, IH. lia.
Qed.

Lemma sumOverKeys_ext g1 g2 keys :
  (forall k, In k keys -> g1 k = g2 k) ->
  sumOverKeys g1 keys = sumOverKeys g2 keys.
Proof.
  induction keys as [|k keys IH]; intros H; [reflexivity|].
  rewrite !sumOverKeys_cons, (H k (or_introl eq_refl)). f_equal.
  apply IH. intros k' Hk'. apply H. now right.
Qed.

(** Summed over distinct keys that cover the submission, the per-key
    quantities give the total. *)
Lemma desiredQty_partition items keys :
  NoDup keys ->
  (forall item, In item items -> In (reqKey item) keys) ->
  sumOverKeys (fun k => desiredQty k items) keys = submittedTotal items.
Proof.
  intros Hnd. induction items as [|item items IH]; intros Hcover.
  - apply sumOverKeys_zero. reflexivity.
  - rewrite (sumOverKeys_ext _
               (fun k => (if Key_eq_dec (reqKey item) k
                          then ReqItem.quantity item else 0)
                         + desiredQty k items))
      by (intros k _; rewrite desiredQty_cons;
          destruct (Key_eq_dec (reqKey item) k); lia).
    rewrite sumOverKeys_add, sumOverKeys_indicator
      by (auto; apply Hcover; now left).
    rewrite IH by (intros x Hx; apply Hcover; now right).
    reflexivity.
Qed.

Lemma totalQuantity_nonRemoved_flat_map (f : Key -> list OrderLine.t) keys :
  totalQuantity (nonRemoved (flat_map f keys))
  = sumOverKeys (fun k => totalQuantity (nonRemoved (f k))) keys.
Proof.
  induction keys as [|k keys IH]; [reflexivity|].
  cbn [flat_map]. rewrite sumOverKeys_cons.
  rewrite nonRemoved_app, totalQuantity_app, IH. reflexivity.
Qed.

(** What one key's iteration leaves active adds up to the quantity asked. *)
Lemma staffKey_active_total changedBy menuItem incoming existing :
  Forall (fun l => OrderLine.isRemoved l = false) existing ->
  0 <= Incoming.qty incoming ->
  totalQuantity
    (nonRemoved (fst (staffKey changedBy menuItem incoming existing)))
  = Incoming.qty incoming.
Proof.
  intros Hactive Hpos.
  destruct (Z.lt_total (Incoming.qty incoming) (totalQuantity existing))
    as [Hlt | [Heq | Hgt]].
  - rewrite staffKey_decrease by assumption. cbn [fst].
    pose proof (sortByPriority_perm existing) as Hperm.
    destruct (removeFromExisting_sums (sortByPriority existing)
                (totalQuantity existing - Incoming.qty incoming))
      as [Hact _].
    + eapply Permutation_Forall; [symmetry; exact Hperm | exact Hactive].
    + rewrite (totalQuantity_perm _ _ Hperm). lia.
    + rewrite (totalQuantity_perm _ _ Hperm) in Hact. lia.
  - rewrite staffKey_unchanged by assumption. cbn [fst].
    now rewrite (nonRemoved_all _ Hactive).
  - rewrite staffKey_increase by lia. cbn [fst].
    rewrite nonRemoved_app, (nonRemoved_all _ Hactive).
    cbn [nonRemoved filter OrderLine.isRemoved negb].
    rewrite totalQuantity_app, totalQuantity_cons.
    cbn [OrderLine.quantity]. change (totalQuantity []) with 0. lia.
Qed.

Lemma staffKeyLines_active_total catalog changedBy oldItems items k :
  Forall (fun l => OrderLine.isRemoved l = false) oldItems ->
  Forall (fun item => 1 <= ReqItem.quantity item) items ->
  staffKeyOutput catalog changedBy oldItems items k <> None ->
  totalQuantity (nonRemoved (staffKeyLines catalog changedBy oldItems items k))
  = desiredQty k items.
Proof.
  intros Hactive Hq Hout. unfold staffKeyLines.
  destruct (staffKeyOutput catalog changedBy oldItems items k) as [out|]
    eqn:Ho; [|congruence].
  destruct (staffKeyOutput_spec _ _ _ _ _ _ Ho)
    as (first & menuItem & _ & _ & ->).
  pose proof (staffKey_active_total changedBy menuItem
                (Incoming.mk (desiredQty k items) (sortReqAddons first))
                (map sortLineAddons (linesWithKey k oldItems))) as Ht.
  destruct (staffKey _ _ _ _) as [ls evs]. cbn [fst Incoming.qty] in Ht.
  apply Ht.
  - apply Forall_map, Forall_forall. intros l Hin.
    apply filter_In in Hin. destruct Hin as [Hin _].
    rewrite Forall_forall in Hactive. exact (Hactive l Hin).
  - now apply desiredQty_nonneg.
Qed.

Lemma totalQuantity_logLine old ls :
  totalQuantity (map (logLine old) ls) = totalQuantity ls.
Proof.
  induction ls as [|l ls IH]; [reflexivity|].
  cbn [map]. rewrite !totalQuantity_cons, IH. f_equal.
  unfold logLine. destruct (findByKey _ old) as [o|]; [|reflexivity].
  destruct (_ >? _); reflexivity.
Qed.

Lemma consolidated_total catalog em items (m : list (Key * OrderLine.t)) :
  (forall k v, In (k, v) m ->
               consolidatedFor catalog em items k = Some v) ->
  totalQuantity (mapValues m)
  = sumOverKeys (fun k => desiredQty k items) (mapKeys m).
Proof.
  induction m as [|[k v] m IH]; intros Hm; [reflexivity|].
  change (mapValues ((k, v) :: m)) with (v :: mapValues m).
  change (mapKeys ((k, v) :: m)) with (k :: mapKeys m).
  rewrite totalQuantity_cons, sumOverKeys_cons.
  rewrite <- IH by (intros k' v' Hin; apply Hm; now right).
  f_equal. specialize (Hm k v (or_introl eq_refl)).
  unfold consolidatedFor in Hm.
  destruct (find _ items); [|discriminate].
  destruct (menuItemMap catalog _); [|discriminate].
  injection Hm as <-. reflexivity.
Qed.

(** X8. After an applied update, under either policy, the quantities of
    the lines that are not flagged removed add up to the total quantity of
    the submission; this sum is the [itemCount] announced with the
    [order-updated] event. *)
Theorem update_leaves_submitted_total {M : Mongoose} :
  forall isStaffEdit catalog req order code order',
    reply (updateOrder isStaffEdit catalog req order) = Success code order' ->
    updatedItemCount order' = submittedTotal (UpdateReq.items req).
Proof.
  intros isStaffEdit catalog req order code order' Hok.
  change (updatedItemCount order')
    with (totalQuantity (nonRemoved (Order.items order'))).
  destruct isStaffEdit.
  - destruct (updateOrder_staff _ _ _ _ _ Hok)
      as (L & H & Hrec & -> & _ & _ & Hq).
    destruct (staffReconcile_by_key _ _ _ _ _ _ Hrec) as (-> & _ & Hall).
    rewrite totalQuantity_nonRemoved_flat_map.
    rewrite (sumOverKeys_ext _
               (fun k => desiredQty k (UpdateReq.items req))).
    + apply desiredQty_partition; [apply incomingMap_NoDup|].
      intros item Hin. apply submittedKeys_In. now exists item.
    + intros k Hk. rewrite Forall_forall in Hall.
      apply staffKeyLines_active_total;
        [apply nonRemoved_Forall | assumption | now apply Hall].
  - destruct (updateOrder_customer _ _ _ _ _ Hok)
      as (L & H & T & Hrec & -> & _ & Hq).
    destruct (customerReconcile_shape _ _ _ _ _ _ _ Hrec)
      as (m' & extra & Hfold & -> & _ & Hextra & _).
    pose proof (consolidate_NoDup _ _ _ _ _ Hfold (NoDup_nil _)) as Hnd.
    assert (Hvals : forall k v, In (k, v) m' ->
              consolidatedFor catalog
                (buildExistingItemsMap (nonRemoved (Order.items order)))
                (UpdateReq.items req) k = Some v).
    { intros k v Hin.
      apply (In_mapGet Key_eq_dec k v m' Hnd) in Hin.
      rewrite (consolidate_fold _ _ k _ _ _ Hfold) in Hin. exact Hin. }
    rewrite nonRemoved_app.
    assert (Hflagged : nonRemoved extra = []).
    { clear - Hextra. induction Hextra as [|x extra Hx _ IH]; [reflexivity|].
      destruct Hx as (o & _ & -> & _). simpl. exact IH. }
    rewrite Hflagged, app_nil_r.
    rewrite nonRemoved_all.
    + rewrite totalQuantity_logLine.
      rewrite (consolidated_total _ _ _ _ Hvals).
      apply desiredQty_partition; [exact Hnd|].
      intros item Hin.
      assert (Hp : mapGet Key_eq_dec (reqKey item) m' <> None).
      { apply (consolidate_present _ _ _ _ _ _ Hfold). right.
        now exists item. }
      destruct (in_dec Key_eq_dec (reqKey item) (mapKeys m'))
        as [Hin'|Hnin]; [assumption|].
      apply (proj2 (mapGet_None_keys Key_eq_dec _ _)) in Hnin. congruence.
    + apply Forall_map, Forall_forall. intros v Hv.
      rewrite logLine_isRemoved.
      unfold mapValues in Hv. apply in_map_iff in Hv.
      destruct Hv as ([k v'] & Heq & Hin). cbn [snd] in Heq. subst v'.
      apply Hvals in Hin. now apply consolidatedFor_active in Hin.
Qed.

Lemma update_leaves_submitted_total_witness :
  let order :=
    Sample.order
      [Sample.line 11 Sample.burger 3 IPreparing false;
       Sample.line 12 Sample.burger 2 IPending false] Preparing in
  let req :=
    Sample.request [Sample.item Sample.burger 3; Sample.item Sample.fries 2]
  in
  updatedItemCount (persisted (updateOrder true Sample.catalog req order))
  = 5.
Proof.
  intros order req.
  apply (update_leaves_submitted_total true Sample.catalog req order 200).
  vm_compute. reflexivity.
Defined.

(** ** Keys a customer no longer submits *)

Lemma customerRemovedStep_pair changedBy acc history o :
  customerRemovedStep changedBy (acc, history) o
  = match findByKey (lineKey o) acc with
    | Some _ => (acc, history)
    | None =>
        (acc ++ [removedCopy o],
         history ++
           [ChangeEvent.mk item_removed (OrderLine.name o)
              (Some (OrderLine.quantity o)) None changedBy])
    end.
Proof. reflexivity. Qed.

Lemma customerRemoved_key changedBy k olds acc history :
  (linesWithKey k acc <> [] ->
   linesWithKey k
     (fst (fold_left (customerRemovedStep changedBy) olds (acc, history)))
   = linesWithKey k acc)
  /\ (linesWithKey k acc = [] ->
      linesWithKey k
        (fst (fold_left (customerRemovedStep changedBy) olds (acc, history)))
      = match findByKey k olds with
        | Some o0 => [removedCopy o0]
        | None => []
        end).
Proof.
  revert acc history.
  induction olds as [|o olds IH]; intros acc history.
  - split; intros H; [reflexivity | exact H].
  - cbn [fold_left]. rewrite customerRemovedStep_pair, findByKey_cons.
    destruct (findByKey (lineKey o) acc) as [found|] eqn:Hfound.
    + destruct (IH acc history) as [Hkeep Hnew].
      split; [exact Hkeep|].
      intros Hnil. rewrite (Hnew Hnil).
      destruct (Key_eq_dec (lineKey o) k) as [Hk|_]; [|reflexivity].
      rewrite Hk, findByKey_hd, Hnil in Hfound. discriminate.
    + destruct (IH (acc ++ [removedCopy o])
                  (history ++
                     [ChangeEvent.mk item_removed (OrderLine.name o)
                        (Some (OrderLine.quantity o)) None changedBy]))
        as [Hkeep Hnew].
      rewrite linesWithKey_app in Hkeep, Hnew.
      cbn [linesWithKey filter] in Hkeep, Hnew.
      unfold hasKey in Hkeep, Hnew.
      rewrite lineKey_removedCopy in Hkeep, Hnew.
      fold (linesWithKey k acc) in Hkeep, Hnew.
      destruct (Key_eq_dec (lineKey o) k) as [Hk|Hk].
      * split.
        -- intros Hne. exfalso. apply Hne.
           rewrite <- Hk. rewrite findByKey_hd in Hfound.
           destruct (linesWithKey (lineKey o) acc); [reflexivity|].
           discriminate.
        -- intros Hnil. rewrite Hkeep.
           ++ now rewrite Hnil.
           ++ rewrite Hnil. discriminate.
      * rewrite app_nil_r in Hkeep, Hnew. split; assumption.
Qed.

Lemma customerReconcile_lines catalog changedBy oldItems items L H T :
  customerReconcile catalog changedBy oldItems items = Some (L, H, T) ->
  exists consolidatedMap history,
    fold_left (consolidateStep catalog (buildExistingItemsMap oldItems))
      items (Some []) = Some consolidatedMap
    /\ L = fst (fold_left (customerRemovedStep changedBy)
                  (map sortLineAddons oldItems)
                  (map (logLine (map sortLineAddons oldItems))
                     (mapValues consolidatedMap), history)).
Proof.
  unfold customerReconcile.
  destruct (fold_left (consolidateStep _ _) items (Some []))
    as [m|]; [|discriminate].
  pose proof (customerLog_fold changedBy (map sortLineAddons oldItems)
                (mapValues m) [] []) as Hlog.
  destruct (fold_left (customerLogStep changedBy _) (mapValues m) ([], []))
    as [logged history].
  cbn [fst app] in Hlog. subst logged.
  intros Heq. exists m, history. split; [reflexivity|].
  destruct (fold_left (customerRemovedStep changedBy) _ _) as [L' H'].
  injection Heq as <- _ _. reflexivity.
Qed.

Lemma customer_absent_key catalog changedBy oldItems items L H T k :
  customerReconcile catalog changedBy oldItems items = Some (L, H, T) ->
  ~ submitted k items ->
  linesWithKey k L
  = match findByKey k oldItems with
    | Some o0 => [removedCopy (sortLineAddons o0)]
    | None => []
    end.
Proof.
  intros Hrec Hnot.
  destruct (customerReconcile_lines _ _ _ _ _ _ _ Hrec)
    as (m' & history & Hfold & ->).
  destruct (customerRemoved_key changedBy k
              (map sortLineAddons oldItems)
              (map (logLine (map sortLineAddons oldItems))
                 (mapValues m')) history) as [_ Hnew].
  rewrite Hnew.
  - rewrite findByKey_map_sort.
    destruct (findByKey k oldItems); reflexivity.
  - apply linesWithKey_nil. intros l Hin Hk.
    apply in_map_iff in Hin. destruct Hin as (v & <- & Hv).
    rewrite lineKey_logLine in Hk. apply Hnot. rewrite <- Hk.
    eapply consolidated_values_submitted; eassumption.
Qed.

Lemma firstOfKey_findByKey k ls e :
  firstOfKey k ls e -> findByKey k ls = Some e.
Proof.
  intros (pre & post & -> & Hk & Hpre).
  induction Hpre as [|x pre Hx _ IH]; cbn [app]; rewrite findByKey_cons.
  - destruct (Key_eq_dec (lineKey e) k); congruence.
  - destruct (Key_eq_dec (lineKey x) k); [contradiction | exact IH].
Qed.

(** X9. Under the customer policy a key that is not submitted leaves at
    most one line in the new list.  When the order had no non-removed line
    of the key it leaves none.  Otherwise it leaves exactly one line, however
    many lines the key had: a copy of the first of them with
    [isRemoved = true] and [isNew = false], no id, the schema's default
    status, and the menu item, name, price, quantity, text and key of that
    first line. *)
Theorem customer_absent_key_flagged_once {M : Mongoose} :
  forall catalog req order code order' k,
    reply (updateOrder false catalog req order) = Success code order' ->
    ~ submitted k (UpdateReq.items req) ->
    let oldItems := nonRemoved (Order.items order) in
    (linesWithKey k oldItems = [] ->
     linesWithKey k (Order.items order') = [])
    /\ (forall e,
          firstOfKey k oldItems e ->
          exists l',
            linesWithKey k (Order.items order') = [l']
            /\ OrderLine.isRemoved l' = true
            /\ OrderLine.isNew l' = false
            /\ OrderLine._id l' = None
            /\ OrderLine.status l' = IPending
            /\ OrderLine.menuItemId l' = OrderLine.menuItemId e
            /\ OrderLine.name l' = OrderLine.name e
            /\ OrderLine.price l' = OrderLine.price e
            /\ OrderLine.quantity l' = OrderLine.quantity e
            /\ OrderLine.specialInstructions l'
               = OrderLine.specialInstructions e
            /\ lineKey l' = k).
Proof.
  intros catalog req order code order' k Hok Hnot oldItems.
  destruct (updateOrder_customer _ _ _ _ _ Hok)
    as (L & H & T & Hrec & -> & _).
  pose proof (customer_absent_key _ _ _ _ _ _ _ k Hrec Hnot) as Hlines.
  fold oldItems in Hlines. split.
  - intros Hnone. rewrite Hlines, findByKey_hd, Hnone. reflexivity.
  - intros e He. pose proof He as (pre & post & _ & Hk & _).
    rewrite (firstOfKey_findByKey _ _ _ He) in Hlines.
    exists (removedCopy (sortLineAddons e)). split; [exact Hlines|].
    rewrite lineKey_removedCopy, lineKey_sortLineAddons.
    repeat split. exact Hk.
Qed.

Lemma customer_absent_key_flagged_once_witness :
  let order :=
    Sample.order
      [Sample.line 11 Sample.burger 1 IPending false;
       Sample.line 12 Sample.fries 2 IPreparing false;
       Sample.line 13 Sample.fries 1 IPending false] Preparing in
  let req := Sample.request [Sample.item Sample.burger 1] in
  let order' := persisted (updateOrder false Sample.catalog req order) in
  exists l',
    linesWithKey Sample.friesKey (Order.items order') = [l']
    /\ OrderLine.isRemoved l' = true
    /\ OrderLine.quantity l' = 2
    /\ OrderLine.name l' = "Fries".
Proof.
  intros order req order'.
  assert (Hok : reply (updateOrder false Sample.catalog req order)
                = Success 200 order') by (vm_compute; reflexivity).
  destruct (customer_absent_key_flagged_once Sample.catalog req order 200
              order' Sample.friesKey Hok) as [_ Hone].
  - intros (item & [<- | []] & Hk). vm_compute in Hk. discriminate.
  - destruct (Hone (Sample.line 12 Sample.fries 2 IPreparing false))
      as (l' & Hl & Hrm & _ & _ & _ & _ & Hname & _ & Hq & _).
    + exists [Sample.line 11 Sample.burger 1 IPending false],
        [Sample.line 13 Sample.fries 1 IPending false].
      split; [reflexivity|]. split; [reflexivity|].
      constructor; [|constructor]. vm_compute. discriminate.
    + exists l'. repeat split; assumption.
Defined.

(** ** Placing an order *)

Lemma createStep_fold_lines catalog items ls t :
  Forall (menuFound catalog) items ->
  exists new t',
    fold_left (createStep catalog) items (Some (ls, t))
    = Some (ls ++ new, t')
    /\ Forall2 (placedFrom catalog) items new.
Proof.
  intros Hall. revert ls t.
  induction Hall as [|item items Hitem _ IH]; intros ls t.
  - exists [], t. rewrite app_nil_r. split; [reflexivity | constructor].
  - cbn [fold_left]. unfold createStep at 2. unfold menuFound in Hitem.
    destruct (menuItemMap catalog (ReqItem.menuItemId item))
      as [menuItem|] eqn:Hm; [|congruence].
    destruct (IH (ls ++ [createLine menuItem item])
                (t + (MenuItem.price menuItem
                      * inject_Z (ReqItem.quantity item)
                      + calculateAddonPrice (ReqItem.addons item)
                          (ReqItem.quantity item)))%Q)
      as (new & t' & Hfold & Hlines).
    exists (createLine menuItem item :: new), t'.
    rewrite Hfold, <- app_assoc. split; [reflexivity|].
    constructor; [|assumption]. exists menuItem. split; [assumption|].
    reflexivity.
Qed.

Lemma Forall2_quantity_total catalog items ls :
  Forall2 (placedFrom catalog) items ls ->
  totalQuantity ls = submittedTotal items.
Proof.
  induction 1 as [|item l items ls (menuItem & _ & ->) _ IH];
    [reflexivity|].
  rewrite totalQuantity_cons, IH. reflexivity.
Qed.

Lemma placedFrom_placedLine catalog item l :
  placedFrom catalog item l -> placedLine catalog item l.
Proof.
  intros (menuItem & Hm & ->). exists menuItem.
  split; [assumption|]. unfold lineKey, reqKey. cbn.
  rewrite (menuItemMap_id _ _ _ Hm). repeat split.
Qed.

Lemma placeOrder_cases {M : Mongoose} catalog customerName
  specialInstructions items :
  (placeAccepted catalog items
   /\ exists order,
        placedDocument catalog customerName specialInstructions items
        = Some order
        /\ Forall2 (placedFrom catalog) items (Order.items order)
        /\ ((saves order = true
             /\ placeOrder catalog customerName specialInstructions items
                = Success 201 order)
            \/ (saves order = false
                /\ placeOrder catalog customerName specialInstructions items
                   = Failure 500 "Server error while creating order" false)))
  \/ (~ placeAccepted catalog items
      /\ exists code message,
           placeOrder catalog customerName specialInstructions items
           = Failure code message false
           /\ (code = 400%nat \/ code = 404%nat)).
Proof.
  unfold placeOrder, placeAccepted, placedDocument.
  destruct items as [|i0 items].
  { right. split; [intros (H & _); congruence|].
    eexists _, _. split; [reflexivity | now left]. }
  destruct (existsb _ (i0 :: items)) eqn:Hq.
  { right. split.
    - intros (_ & Hall & _).
      rewrite (Forall_existsb_false _ _ _ (fun x Hx =>
                 proj2 (Z.ltb_ge (ReqItem.quantity x) 1) Hx) Hall) in Hq.
      discriminate.
    - eexists _, _. split; [reflexivity | now left]. }
  destruct (existsb _ (i0 :: items)) eqn:Hm in |- *.
  { right. split.
    - intros (_ & _ & Hall).
      rewrite (Forall_existsb_false _ (menuFound catalog) (i0 :: items))
        in Hm; [discriminate | | exact Hall].
      intros x Hx. unfold menuFound in Hx.
      destruct (menuItemMap catalog (ReqItem.menuItemId x)); congruence.
    - eexists _, _. split; [reflexivity | now right]. }
  left.
  assert (Hquant : Forall (fun item => 1 <= ReqItem.quantity item)
                     (i0 :: items)).
  { apply (existsb_false_Forall _ _ _ (fun x Hx =>
             proj1 (Z.ltb_ge (ReqItem.quantity x) 1) Hx) Hq). }
  assert (Hfound : Forall (menuFound catalog) (i0 :: items)).
  { apply (existsb_false_Forall
             (fun item =>
                match menuItemMap catalog (ReqItem.menuItemId item) with
                | Some _ => false
                | None => true
                end) _ _); [|exact Hm].
    intros x Hx. unfold menuFound.
    destruct (menuItemMap catalog (ReqItem.menuItemId x)); congruence. }
  split; [repeat split; [discriminate | assumption | assumption]|].
  destruct (createStep_fold_lines catalog (i0 :: items) [] 0%Q Hfound)
    as (new & t' & Hfold & Hlines).
  rewrite Hfold. cbn [app]. cbv zeta.
  eexists. split; [reflexivity|]. split; [exact Hlines|].
  match goal with
  | |- context [saves ?d] => destruct (saves d) eqn:Hsave
  end; [left | right]; split; reflexivity.
Qed.

(** X10. A submission that passes the three guards of the create handler
    (not empty, every quantity at least 1, every menu item found) always
    yields a document, and the handler answers 201 with it exactly when
    [save()] accepts it (500 otherwise).  The document is [pending] with the
    single batch [original], was never updated, printed or paid, and holds
    one line per submitted item, in submission order: without id, with the
    menu item's id, name and price, the item's quantity, addons and text,
    not flagged new or removed, status [pending]; its item count is the
    submitted total. *)
Theorem placeOrder_creates_pending_order {M : Mongoose} :
  forall catalog customerName specialInstructions items,
    placeAccepted catalog items ->
    exists order,
      placedDocument catalog customerName specialInstructions items
      = Some order
      /\ (saves order = true ->
          placeOrder catalog customerName specialInstructions items
          = Success 201 order)
      /\ (saves order = false ->
          placeOrder catalog customerName specialInstructions items
          = Failure 500 "Server error while creating order" false)
      /\ Order.status order = Pending
      /\ Order.batchStatus order = [("original", Pending)]
      /\ Order.paymentMethod order = None
      /\ Order.isUpdated order = false
      /\ Order.updateCount order = 0
      /\ Order.hasUnseenChanges order = false
      /\ Order.kots order = []
      /\ Order.updateHistory order = []
      /\ Forall2 (placedLine catalog) items (Order.items order)
      /\ newOrderItemCount order = submittedTotal items.
Proof.
  intros catalog customerName specialInstructions items Hacc.
  destruct (placeOrder_cases catalog customerName specialInstructions items)
    as [(_ & order & Hdoc & Hlines & Hrun) | (Hnot & _)];
    [|contradiction].
  exists order. split; [exact Hdoc|].
  split; [|split].
  - intros Hs. destruct Hrun as [(_ & Hrun) | (Hs' & _)];
      [exact Hrun | congruence].
  - intros Hs. destruct Hrun as [(Hs' & _) | (_ & Hrun)];
      [congruence | exact Hrun].
  - unfold placedDocument in Hdoc.
    destruct (fold_left _ items (Some ([], 0%Q))) as [[ls t]|];
      [|discriminate].
    injection Hdoc as <-. cbn [Order.items] in Hlines.
    cbn [Order.status Order.batchStatus Order.paymentMethod Order.isUpdated
           Order.updateCount Order.hasUnseenChanges Order.kots
           Order.updateHistory Order.items].
    repeat (split; [reflexivity|]). split.
    + eapply Forall2_impl; [|exact Hlines].
      intros item l. apply placedFrom_placedLine.
    + change (totalQuantity ls = submittedTotal items).
      eapply Forall2_quantity_total; eassumption.
Qed.

Lemma placeOrder_creates_pending_order_witness :
  exists order,
    placeOrder Sample.catalog "Asha" EmptyString
      [Sample.item Sample.burger 2; Sample.item Sample.fries 1]
    = Success 201 order
    /\ Order.status order = Pending
    /\ newOrderItemCount order = 3.
Proof.
  destruct (placeOrder_creates_pending_order Sample.catalog "Asha"
              EmptyString
              [Sample.item Sample.burger 2; Sample.item Sample.fries 1])
    as (order & Hdoc & Hok & _ & Hs & _ & _ & _ & _ & _ & _ & _ & _ & Hc).
  - split; [discriminate|]. split.
    + repeat constructor; cbn; lia.
    + repeat constructor; cbn; discriminate.
  - exists order. split; [|split; assumption].
    apply Hok. vm_compute in Hdoc. injection Hdoc as <-.
    vm_compute. reflexivity.
Defined.

(** X11. Whenever the create handler does not succeed, it answers 400
    (empty list, quantity below 1) or 404 (menu item not found) exactly when
    one of its guards fails, and 500 exactly when the guards pass and
    [save()] refuses the document that was built; a success is always a 201
    that carries that document. *)
Theorem placeOrder_rejects_invalid {M : Mongoose} :
  forall catalog customerName specialInstructions items,
    (forall code message flag,
        placeOrder catalog customerName specialInstructions items
        = Failure code message flag ->
        flag = false
        /\ (((code = 400%nat \/ code = 404%nat)
             /\ ~ placeAccepted catalog items)
            \/ (code = 500%nat
                /\ placeAccepted catalog items
                /\ exists doc,
                     placedDocument catalog customerName specialInstructions
                       items = Some doc
                     /\ saves doc = false)))
    /\ (forall code order,
          placeOrder catalog customerName specialInstructions items
          = Success code order ->
          code = 201%nat
          /\ placeAccepted catalog items
          /\ placedDocument catalog customerName specialInstructions items
             = Some order
          /\ saves order = true).
Proof.
  intros catalog customerName specialInstructions items.
  destruct (placeOrder_cases catalog customerName specialInstructions items)
    as [(Hacc & order & Hdoc & _ & [(Hs & ->) | (Hs & ->)])
       | (Hnot & code' & message' & -> & Hcode)].
  - split; [discriminate|]. intros code o H. injection H as <- <-.
    split; [reflexivity|]. split; [assumption|]. split; assumption.
  - split; [|discriminate]. intros code message flag H.
    injection H as <- <- <-. split; [reflexivity|]. right.
    split; [reflexivity|]. split; [assumption|]. now exists order.
  - split; [|discriminate]. intros code message flag H.
    injection H as <- <- <-. split; [reflexivity|]. left.
    split; assumption.
Qed.

Lemma placeOrder_rejects_invalid_witness :
  placeOrder Sample.catalog Sample.longName EmptyString
    [Sample.item Sample.burger 1]
  = Failure 500 "Server error while creating order" false
  /\ placeAccepted Sample.catalog [Sample.item Sample.burger 1].
Proof.
  destruct (proj1 (placeOrder_rejects_invalid Sample.catalog Sample.longName
                     EmptyString [Sample.item Sample.burger 1])
              500%nat "Server error while creating order" false)
    as (_ & [([H | H] & _) | (_ & Hacc & _)]);
    [vm_compute; reflexivity | discriminate | discriminate |].
  split; [vm_compute; reflexivity | exact Hacc].
Defined.

(** ** The order-status route *)

Lemma parseOrderStatus_valid status :
  parseOrderStatus status <> None <-> In status validOrderStatuses.
Proof.
  unfold parseOrderStatus, validOrderStatuses.
  repeat match goal with
         | |- context [String.eqb status ?s] =>
             destruct (String.eqb_spec status s) as [->|?]
         end; cbn; intuition congruence.
Qed.

Lemma orderStatus_eqb_eq a b : orderStatus_eqb a b = true <-> a = b.
Proof. destruct a, b; cbn; split; congruence. Qed.

Lemma batchStep_fold_None {M : Mongoose} s ids :
  fold_left (batchStep s) ids None = None.
Proof. induction ids; cbn; auto. Qed.

Lemma batchStep_fold {M : Mongoose} s ids (m : list (string * OrderStatus)) :
  fold_left (batchStep s) ids (Some m)
  = if forallb
         (fun batchId =>
            String.eqb (trim batchId) EmptyString || validKey batchId) ids
    then Some
           (fold_left
              (fun m batchId =>
                 if negb (String.eqb (trim batchId) EmptyString)
                 then mapSet string_dec batchId s m else m) ids m)
    else None.
Proof.
  revert m. induction ids as [|x ids IH]; intros m; [reflexivity|].
  cbn [fold_left forallb batchStep].
  destruct (String.eqb (trim x) EmptyString); cbn [negb orb andb].
  - apply IH.
  - destruct (validKey x); cbn [andb];
      [apply IH | apply batchStep_fold_None].
Qed.

Lemma setOrderStatus_cases {M : Mongoose} status batchIds order :
  (parseOrderStatus status = None
   /\ exists message,
        setOrderStatus status batchIds order = reject 400 message order)
  \/ (exists s,
        parseOrderStatus status = Some s
        /\ hasBatchSelection batchIds = true
        /\ batchKeysValid batchIds = false
        /\ setOrderStatus status batchIds order
           = reject 500 "Server error while updating order status" order)
  \/ (exists s order',
        parseOrderStatus status = Some s
        /\ setOrderStatus status batchIds order
           = mkOutcome (Success 200 order') order'
        /\ (hasBatchSelection batchIds = false
            \/ (hasBatchSelection batchIds = true
                /\ batchKeysValid batchIds = true))
        /\ order'
           = if hasBatchSelection batchIds then
               let batchStatus :=
                 fold_left
                   (fun m batchId =>
                      if negb (String.eqb (trim batchId) EmptyString)
                      then mapSet string_dec batchId s m else m)
                   (batchIdArray batchIds) (Order.batchStatus order) in
               if allOneStatus batchStatus
               then Order.setStatus s
                      (Order.setBatchStatus batchStatus order)
               else Order.setBatchStatus batchStatus order
             else
               Order.setBatchStatus [("all", s)] (Order.setStatus s order)).
Proof.
  unfold setOrderStatus, batchKeysValid.
  destruct (parseOrderStatus status) as [s|].
  2:{ left. split; [reflexivity|]. eexists. reflexivity. }
  right. destruct (hasBatchSelection batchIds) eqn:Hb.
  - rewrite batchStep_fold.
    destruct (forallb _ (batchIdArray batchIds)) eqn:Hkeys.
    + right. eexists s, _. split; [reflexivity|].
      split; [reflexivity|]. split; [right; now split | reflexivity].
    + left. exists s. repeat split.
  - right. eexists s, _. split; [reflexivity|].
    split; [reflexivity|]. split; [now left | reflexivity].
Qed.

Lemma setOrderStatus_frame {M : Mongoose} status batchIds order :
  let order' := persisted (setOrderStatus status batchIds order) in
  Order.items order' = Order.items order
  /\ Order.totalPrice order' = Order.totalPrice order
  /\ Order.paymentMethod order' = Order.paymentMethod order
  /\ Order.updateCount order' = Order.updateCount order
  /\ Order.updateHistory order' = Order.updateHistory order
  /\ Order.kots order' = Order.kots order.
Proof.
  destruct (setOrderStatus_cases status batchIds order)
    as [(_ & m & ->) | [(s & _ & _ & _ & ->)
                       | (s & order' & _ & -> & _ & ->)]];
    cbn; try tauto.
  destruct (hasBatchSelection batchIds); [|cbn; tauto].
  cbv zeta. destruct (allOneStatus _); cbn; tauto.
Qed.

(** X12. The order-status route answers 400 exactly when the status is not
    one of the six status names, and then leaves the document alone; no
    current status of the order makes it refuse a request.  It answers 500,
    again without storing anything, exactly when the status is valid, batch
    ids are selected and one of those it would set is a key the batch map
    does not accept; otherwise it succeeds.  In every case the lines, the
    total, the payment method, the update counter, the change log and the
    tickets are those of before. *)
Theorem setOrderStatus_accepts_valid_names {M : Mongoose} :
  forall status batchIds order,
    let out := setOrderStatus status batchIds order in
    ((exists message, out = reject 400 message order)
     <-> ~ In status validOrderStatuses)
    /\ ((exists message, out = reject 500 message order)
        <-> In status validOrderStatuses
            /\ hasBatchSelection batchIds = true
            /\ batchKeysValid batchIds = false)
    /\ ((exists order', out = mkOutcome (Success 200 order') order')
        <-> In status validOrderStatuses
            /\ (hasBatchSelection batchIds = false
                \/ batchKeysValid batchIds = true))
    /\ Order.items (persisted out) = Order.items order
    /\ Order.totalPrice (persisted out) = Order.totalPrice order
    /\ Order.paymentMethod (persisted out) = Order.paymentMethod order
    /\ Order.updateCount (persisted out) = Order.updateCount order
    /\ Order.updateHistory (persisted out) = Order.updateHistory order
    /\ Order.kots (persisted out) = Order.kots order.
Proof.
  intros status batchIds order out.
  split; [|split; [|split;
                     [|exact (setOrderStatus_frame status batchIds order)]]];
    subst out; rewrite <- parseOrderStatus_valid;
    destruct (setOrderStatus_cases status batchIds order)
      as [(Hp & msg & ->) | [(s & Hp & Hb & Hk & ->)
                         | (s & order' & Hp & -> & Hsel & _)]];
    rewrite Hp.
  - split; [intros _ H; now apply H|]. intros _. now exists msg.
  - split; [intros (msg' & H); discriminate|]. intros H. exfalso. apply H.
    discriminate.
  - split; [intros (msg' & H); discriminate|]. intros H. exfalso. apply H.
    discriminate.
  - split; [intros (msg' & H); discriminate|]. intros (H & _). congruence.
  - split; [intros _|intros _; eexists; reflexivity].
    split; [discriminate|]. split; assumption.
  - split; [intros (msg' & H); discriminate|]. intros (_ & Hb & Hk).
    destruct Hsel as [Hsel | (_ & Hsel)]; congruence.
  - split; [intros (o & H); discriminate|]. intros (H & _). congruence.
  - split; [intros (o & H); discriminate|]. intros (_ & [H | H]);
      congruence.
  - split; [intros _|intros _; now exists order'].
    split; [discriminate|]. destruct Hsel as [Hsel | (_ & Hsel)];
      [now left | now right].
Qed.

Lemma setOrderStatus_accepts_valid_names_witness :
  let order :=
    Sample.order [Sample.line 11 Sample.burger 1 IServed false] Served in
  (exists message,
      setOrderStatus "served" (BatchIdsString "update.1") order
      = reject 500 message order)
  /\ (exists order',
        setOrderStatus "served" (BatchIdsString "update-1") order
        = mkOutcome (Success 200 order') order').
Proof.
  intros order. split.
  - apply (proj1 (proj2 (setOrderStatus_accepts_valid_names "served"
                           (BatchIdsString "update.1") order))).
    split; [cbn; tauto|]. split; reflexivity.
  - apply (proj1 (proj2 (proj2 (setOrderStatus_accepts_valid_names "served"
                                  (BatchIdsString "update-1") order)))).
    split; [cbn; tauto|]. right. reflexivity.
Defined.

(** X13. Without a batch selection the order-status route overrides the
    whole order: the request succeeds from any current status, paid and
    cancelled included, the status becomes the requested one, every batch
    entry is replaced by the single entry [all], and a repeated request
    changes nothing more.  When the requested status is neither paid nor
    cancelled, the guards of the update handler pass again on the resulting
    order for every valid submission, so that an update succeeds whenever
    [save()] accepts the document it builds. *)
Theorem setOrderStatus_whole_order {M : Mongoose} :
  forall status s batchIds order,
    parseOrderStatus status = Some s ->
    hasBatchSelection batchIds = false ->
    let order' := persisted (setOrderStatus status batchIds order) in
    setOrderStatus status batchIds order
    = mkOutcome (Success 200 order') order'
    /\ Order.status order' = s
    /\ Order.batchStatus order' = [("all", s)]
    /\ setOrderStatus status batchIds order'
       = mkOutcome (Success 200 order') order'
    /\ (isTerminal s = false ->
        forall isStaffEdit catalog req,
          UpdateReq.items req <> [] ->
          Forall (fun item => 1 <= ReqItem.quantity item)
            (UpdateReq.items req) ->
          Forall (menuFound catalog) (UpdateReq.items req) ->
          updateAccepted catalog req order'
          /\ exists doc,
               updateDocument isStaffEdit catalog req order' = Some doc
               /\ (saves doc = true ->
                   updateOrder isStaffEdit catalog req order'
                   = mkOutcome (Success 200 doc) doc)).
Proof.
  intros status s batchIds order Hs Hb order'.
  subst order'. unfold setOrderStatus. rewrite Hs, Hb. cbn.
  split; [reflexivity|]. split; [reflexivity|]. split; [reflexivity|].
  split; [reflexivity|].
  intros Hterm isStaffEdit catalog req Hne Hq Hfound.
  match goal with
  | |- updateAccepted _ _ ?o /\ _ =>
      assert (Hacc : updateAccepted catalog req o)
        by (repeat split; assumption);
      destruct (updateOrder_cases isStaffEdit catalog req o)
        as [(_ & doc & Hdoc & Hsave & Hrun)
           | [(_ & doc & Hdoc & Hsave & Hrun) | (Hnot & _)]]
  end.
  - split; [exact Hacc|]. exists doc. split; [exact Hdoc|].
    intros _. exact Hrun.
  - split; [exact Hacc|]. exists doc. split; [exact Hdoc|].
    intros Hs'. congruence.
  - contradiction.
Qed.

Lemma setOrderStatus_whole_order_witness :
  let order :=
    Order.setBatchStatus [("original", Served); ("update-1", Ready)]
      (Sample.order [Sample.line 11 Sample.burger 1 IServed false]
         Cancelled) in
  let order' := persisted (setOrderStatus "pending" BatchIdsAbsent order) in
  Order.status order' = Pending
  /\ Order.batchStatus order' = [("all", Pending)]
  /\ exists order'',
       updateOrder true Sample.catalog
         (Sample.request [Sample.item Sample.fries 1]) order'
       = mkOutcome (Success 200 order'') order''.
Proof.
  intros order order'.
  destruct (setOrderStatus_whole_order "pending" Pending BatchIdsAbsent
              order eq_refl eq_refl) as (_ & Hs & Hb & _ & Hedit).
  split; [exact Hs|]. split; [exact Hb|].
  destruct (Hedit eq_refl true Sample.catalog
              (Sample.request [Sample.item Sample.fries 1]))
    as (_ & doc & Hdoc & Hrun).
  - discriminate.
  - repeat constructor. cbn. lia.
  - repeat constructor. cbn. discriminate.
  - exists doc. apply Hrun.
    vm_compute in Hdoc. injection Hdoc as <-. vm_compute. reflexivity.
Defined.

Lemma batchFold_get s ids id (m : list (string * OrderStatus)) :
  mapGet string_dec id
    (fold_left
       (fun m batchId =>
          if negb (String.eqb (trim batchId) EmptyString)
          then mapSet string_dec batchId s m else m)
       ids m)
  = if existsb
         (fun batchId =>
            negb (String.eqb (trim batchId) EmptyString)
            && String.eqb batchId id) ids
    then Some s
    else mapGet string_dec id m.
Proof.
  revert m. induction ids as [|x ids IH]; intros m; [reflexivity|].
  cbn [fold_left existsb]. rewrite IH.
  destruct (existsb _ ids); [now rewrite orb_true_r|].
  rewrite orb_false_r.
  destruct (negb (String.eqb (trim x) EmptyString)); cbn [andb];
    [|reflexivity].
  destruct (String.eqb_spec x id) as [->|Hne].
  - apply mapGet_mapSet_same.
  - now apply mapGet_mapSet_other.
Qed.

Lemma batchFold_blank s ids (m : list (string * OrderStatus)) :
  (forall id, In id ids -> trim id = EmptyString) ->
  fold_left
    (fun m batchId =>
       if negb (String.eqb (trim batchId) EmptyString)
       then mapSet string_dec batchId s m else m)
    ids m
  = m.
Proof.
  revert m. induction ids as [|x ids IH]; intros m Hall; [reflexivity|].
  cbn [fold_left]. rewrite (Hall x (or_introl eq_refl)). cbn.
  apply IH. intros id Hid. apply Hall. now right.
Qed.

Lemma allOneStatus_values (m : list (string * OrderStatus)) s :
  allOneStatus m = true ->
  In s (mapValues m) ->
  Forall (eq s) (mapValues m).
Proof.
  unfold allOneStatus.
  destruct (mapValues m) as [|s0 rest]; [discriminate|].
  intros Hall Hin.
  assert (Hrest : Forall (eq s0) rest).
  { apply Forall_forall. intros v Hv.
    rewrite forallb_forall in Hall. now apply orderStatus_eqb_eq, Hall. }
  assert (Hs : s = s0).
  { destruct Hin as [<-|Hin]; [reflexivity|].
    rewrite Forall_forall in Hrest. symmetry. now apply Hrest. }
  subst s0. constructor; [reflexivity | assumption].
Qed.

(** X14. With a batch selection whose ids are keys the batch map accepts,
    the order-status route succeeds and sets exactly the selected batch
    entries (the ids that are not blank) to the requested status, leaving
    every other entry as it was.  The order's own status becomes the
    requested one when all entries then share one status, and stays what it
    was otherwise; when it is synced after at least one entry was set, every
    entry has the requested status.  A selection of blank ids only changes
    no entry. *)
Theorem setOrderStatus_batch_selection {M : Mongoose} :
  forall status s batchIds order,
    parseOrderStatus status = Some s ->
    hasBatchSelection batchIds = true ->
    batchKeysValid batchIds = true ->
    let order' := persisted (setOrderStatus status batchIds order) in
    setOrderStatus status batchIds order
    = mkOutcome (Success 200 order') order'
    /\ (forall id,
          mapGet string_dec id (Order.batchStatus order')
          = if selectedBatch batchIds id then Some s
            else mapGet string_dec id (Order.batchStatus order))
    /\ Order.status order'
       = (if allOneStatus (Order.batchStatus order') then s
          else Order.status order)
    /\ (forall id,
          selectedBatch batchIds id = true ->
          allOneStatus (Order.batchStatus order') = true ->
          Forall (eq s) (mapValues (Order.batchStatus order')))
    /\ ((forall id, In id (batchIdArray batchIds) -> trim id = EmptyString)
        -> Order.batchStatus order' = Order.batchStatus order).
Proof.
  intros status s batchIds order Hs Hb Hk order'.
  destruct (setOrderStatus_cases status batchIds order)
    as [(Hp & _) | [(s' & _ & _ & Hk' & _)
                   | (s' & o' & Hp & Hrun & _ & Ho')]];
    [congruence | congruence |].
  rewrite Hs in Hp. injection Hp as <-.
  subst order'. rewrite Hrun. cbn [persisted]. rewrite Hb in Ho'.
  cbv zeta in Ho'.
  set (m' := fold_left _ (batchIdArray batchIds) (Order.batchStatus order))
    in Ho'.
  assert (Hm' : Order.batchStatus o' = m')
    by (rewrite Ho'; destruct (allOneStatus m'); reflexivity).
  rewrite Hm'.
  split; [reflexivity|]. split; [|split; [|split]].
  - intros id. apply batchFold_get.
  - rewrite Ho'. destruct (allOneStatus m'); reflexivity.
  - intros id Hsel Hall. apply allOneStatus_values; [assumption|].
    assert (Hget : mapGet string_dec id m' = Some s).
    { subst m'. rewrite batchFold_get.
      unfold selectedBatch in Hsel. now rewrite Hsel. }
    apply mapGet_In in Hget. unfold mapValues.
    change s with (snd (id, s)). now apply in_map.
  - intros Hblank. subst m'. now apply batchFold_blank.
Qed.

Lemma setOrderStatus_batch_selection_witness :
  let order :=
    Order.setBatchStatus [("original", Served); ("update-1", Pending)]
      (Sample.order [Sample.line 11 Sample.burger 1 IServed false]
         Preparing) in
  let order' :=
    persisted (setOrderStatus "served" (BatchIdsArray ["update-1"]) order)
  in
  mapGet string_dec "update-1" (Order.batchStatus order') = Some Served
  /\ mapGet string_dec "original" (Order.batchStatus order') = Some Served
  /\ Order.status order' = Served.
Proof.
  intros order order'.
  destruct (setOrderStatus_batch_selection (M := orderSchema) "served"
              Served (BatchIdsArray ["update-1"]) order eq_refl eq_refl
              eq_refl)
    as (_ & Hget & Hstatus & _).
  split; [exact (Hget "update-1")|].
  split; [exact (Hget "original") | exact Hstatus].
Defined.

(** ** The guarded routes *)

Lemma runGuarded_cases route order :
  (exists order',
      runGuarded route order = mkOutcome (Success 200 order') order'
      /\ isTerminal (Order.status order) = false
      /\ Order.status order' <> Order.status order
      /\ Order.status order' <> Served
      /\ (Order.status order' = Paid -> Order.status order = Served)
      /\ Order.items order' = Order.items order
      /\ Order.totalPrice order' = Order.totalPrice order
      /\ Order.batchStatus order' = Order.batchStatus order
      /\ Order.kots order' = Order.kots order
      /\ Order.updateHistory order' = Order.updateHistory order)
  \/ (exists message, runGuarded route order = reject 400 message order).
Proof.
  destruct route; cbn [runGuarded];
    unfold startPreparing, markReady, recordPayment, cancelOrder;
    destruct (Order.status order) eqn:Hs; cbn [orderStatus_eqb];
    try (right; eexists; reflexivity);
    left; eexists; (split; [reflexivity|]); cbn; rewrite ?Hs;
    repeat split; congruence.
Qed.

(** X15. None of the guarded routes (start preparing, mark ready, payment,
    cancellation) accepts a paid or cancelled order: each answers 400 and
    leaves the document as it is. *)
Theorem guarded_routes_reject_terminal :
  forall route order,
    isTerminal (Order.status order) = true ->
    exists message, runGuarded route order = reject 400 message order.
Proof.
  intros route order Hterm.
  destruct (runGuarded_cases route order)
    as [(order' & _ & Hnot & _) | Hrej]; [congruence | exact Hrej].
Qed.

Lemma guarded_routes_reject_terminal_witness :
  exists message,
    runGuarded (Payment cash)
      (Sample.order [Sample.line 11 Sample.burger 1 IServed false] Paid)
    = reject 400 message
        (Sample.order [Sample.line 11 Sample.burger 1 IServed false] Paid).
Proof.
  apply guarded_routes_reject_terminal. reflexivity.
Defined.

(** X16. A guarded route is one-shot: after it succeeded, the same request
    on the resulting order is answered 400 and changes nothing.  A success
    changes the status only: lines, total, batch entries, tickets and change
    log are kept. *)
Theorem guarded_routes_are_one_shot :
  forall route order code order',
    reply (runGuarded route order) = Success code order' ->
    (exists message, runGuarded route order' = reject 400 message order')
    /\ persisted (runGuarded route order) = order'
    /\ Order.items order' = Order.items order
    /\ Order.totalPrice order' = Order.totalPrice order
    /\ Order.batchStatus order' = Order.batchStatus order
    /\ Order.kots order' = Order.kots order
    /\ Order.updateHistory order' = Order.updateHistory order.
Proof.
  intros route order code order' Hok.
  destruct (runGuarded_cases route order)
    as [(o1 & Hrun & _ & _ & _ & _ & Hframe) | (message & Hrej)];
    [|rewrite Hrej in Hok; discriminate].
  rewrite Hrun in Hok |- *. cbn in Hok. injection Hok as _ <-.
  split; [|split; [reflexivity | exact Hframe]].
  revert Hrun.
  destruct route; cbn [runGuarded];
    unfold startPreparing, markReady, recordPayment, cancelOrder;
    destruct (Order.status order); cbn [orderStatus_eqb];
    try discriminate; intros Hrun; injection Hrun as <-; cbn;
    eexists; reflexivity.
Qed.

Lemma guarded_routes_are_one_shot_witness :
  let order :=
    Sample.order [Sample.line 11 Sample.burger 1 IServed false] Served in
  let order' := persisted (runGuarded (Payment upi) order) in
  exists message, runGuarded (Payment upi) order' = reject 400 message order'.
Proof.
  intros order order'.
  destruct (guarded_routes_are_one_shot (Payment upi) order 200 order')
    as (Hrej & _); [reflexivity | exact Hrej].
Defined.

Lemma runGuarded_step route order :
  Order.status order <> Served ->
  Order.status order <> Paid ->
  Order.status (persisted (runGuarded route order)) <> Served
  /\ Order.status (persisted (runGuarded route order)) <> Paid.
Proof.
  intros Hs Hp.
  destruct (runGuarded_cases route order)
    as [(o1 & -> & _ & _ & Hserved & Hpaid & _) | (message & ->)].
  - cbn. split; [exact Hserved|]. intros H. apply Hs. now apply Hpaid.
  - cbn. split; assumption.
Qed.

(** X17. The guarded routes alone never serve an order and never get it
    paid: from an order that is neither served nor paid, no sequence of
    requests to them reaches [served] or [paid], and none of them touches
    the lines. *)
Theorem guarded_routes_never_serve :
  forall routes order,
    Order.status order <> Served ->
    Order.status order <> Paid ->
    Order.status (runGuardedAll routes order) <> Served
    /\ Order.status (runGuardedAll routes order) <> Paid
    /\ Order.items (runGuardedAll routes order) = Order.items order.
Proof.
  unfold runGuardedAll.
  induction routes as [|route routes IH]; intros order Hs Hp.
  - cbn. repeat split; assumption.
  - cbn [fold_left].
    destruct (runGuarded_step route order Hs Hp) as [Hs' Hp'].
    destruct (IH _ Hs' Hp') as (H1 & H2 & H3).
    split; [exact H1|]. split; [exact H2|]. rewrite H3.
    destruct (runGuarded_cases route order)
      as [(o1 & -> & _ & _ & _ & _ & Hitems & _) | (message & ->)];
      [exact Hitems | reflexivity].
Qed.

Lemma guarded_routes_never_serve_witness :
  let order :=
    Sample.order [Sample.line 11 Sample.burger 1 IPending false] Pending in
  let order' :=
    runGuardedAll [StartPreparing; MarkReady; Payment cash; Cancel] order in
  Order.status order' <> Served
  /\ Order.status order' <> Paid
  /\ Order.items order' = Order.items order.
Proof.
  intros order order'.
  apply (guarded_routes_never_serve
           [StartPreparing; MarkReady; Payment cash; Cancel] order);
    discriminate.
Defined.

(** ** The item-status routes *)

Lemma itemStatus_eqb_eq a b : itemStatus_eqb a b = true <-> a = b.
Proof. destruct a, b; cbn; split; congruence. Qed.

Lemma hasLine_cons itemId l ls :
  hasLine itemId (l :: ls)
  = match OrderLine._id l with
    | Some id => N.eqb id itemId || hasLine itemId ls
    | None => hasLine itemId ls
    end.
Proof. unfold hasLine. cbn [existsb]. now destruct (OrderLine._id l). Qed.

Lemma setLineStatus_split itemId s ls ls' :
  setLineStatus itemId s ls = Some ls' ->
  exists pre l post,
    ls = pre ++ l :: post
    /\ hasLine itemId pre = false
    /\ OrderLine._id l = Some itemId
    /\ ls' = pre ++ OrderLine.setStatus s l :: post.
Proof.
  revert ls'. induction ls as [|l ls IH]; intros ls' H; [discriminate|].
  cbn [setLineStatus] in H.
  assert (Hrec : forall r,
             hasLine itemId [l] = false ->
             option_map (cons l) (setLineStatus itemId s ls) = Some r ->
             exists pre l0 post,
               l :: ls = pre ++ l0 :: post
               /\ hasLine itemId pre = false
               /\ OrderLine._id l0 = Some itemId
               /\ r = pre ++ OrderLine.setStatus s l0 :: post).
  { intros r Hl Hr.
    destruct (setLineStatus itemId s ls) as [r0|]; [|discriminate].
    cbn in Hr. injection Hr as <-.
    destruct (IH r0 eq_refl) as (pre & l0 & post & -> & Hpre & Hl0 & ->).
    exists (l :: pre), l0, post. repeat split; try assumption.
    rewrite hasLine_cons. rewrite hasLine_cons in Hl.
    destruct (OrderLine._id l); [|assumption].
    apply orb_false_elim in Hl as [-> _]. exact Hpre. }
  destruct (OrderLine._id l) as [id|] eqn:Hid.
  - destruct (N.eqb_spec id itemId) as [->|Hne].
    + injection H as <-. exists [], l, ls. repeat split; assumption.
    + apply Hrec; [|assumption].
      rewrite hasLine_cons, Hid. cbn.
      rewrite orb_false_r. now apply N.eqb_neq.
  - apply Hrec; [|assumption]. rewrite hasLine_cons, Hid. reflexivity.
Qed.

Lemma setLineStatus_found itemId s ls :
  setLineStatus itemId s ls <> None <-> hasLine itemId ls = true.
Proof.
  induction ls as [|l ls IH]; [cbn; split; congruence|].
  cbn [setLineStatus]. rewrite hasLine_cons.
  destruct (OrderLine._id l) as [id|].
  - destruct (N.eqb id itemId); cbn [orb]; [split; congruence|].
    rewrite <- IH. destruct (setLineStatus itemId s ls); cbn;
      split; congruence.
  - rewrite <- IH. destruct (setLineStatus itemId s ls); cbn;
      split; congruence.
Qed.

Lemma setLineStatus_ids itemId s ls ls' :
  setLineStatus itemId s ls = Some ls' ->
  map OrderLine._id ls' = map OrderLine._id ls.
Proof.
  intros H. apply setLineStatus_split in H.
  destruct H as (pre & l & post & -> & _ & _ & ->).
  rewrite !map_app. reflexivity.
Qed.

Lemma hasLine_ids itemId a b :
  map OrderLine._id a = map OrderLine._id b ->
  hasLine itemId a = hasLine itemId b.
Proof.
  revert b. induction a as [|x a IH]; intros [|y b] H; try discriminate;
    [reflexivity|].
  cbn [map] in H. injection H as Hx Hab.
  rewrite !hasLine_cons, Hx, (IH b Hab). reflexivity.
Qed.

Lemma deriveStatus_cases s ls current :
  deriveStatus s ls current = current
  \/ (deriveStatus s ls current = orderStatusOfItem s
      /\ s <> ICancelled
      /\ activeItems ls <> []
      /\ Forall (fun l => OrderLine.status l = s) (activeItems ls))
  \/ (s = IPreparing /\ current = Pending
      /\ deriveStatus s ls current = Preparing).
Proof.
  unfold deriveStatus. fold (activeItems ls).
  destruct (activeItems ls) as [|l active] eqn:Hact; [now left|].
  destruct (forallb _ (l :: active)) eqn:Hall.
  - right. left. rewrite forallb_forall in Hall.
    assert (Hl : In l (activeItems ls)) by (rewrite Hact; now left).
    apply filter_In in Hl. destruct Hl as [_ Hl].
    apply andb_prop in Hl. destruct Hl as [Hl _].
    assert (Hls : OrderLine.status l = s)
      by (apply itemStatus_eqb_eq, Hall; now left).
    split; [reflexivity|]. split; [|split; [discriminate|]].
    + intros ->. rewrite Hls in Hl. discriminate.
    + apply Forall_forall. intros x Hx. now apply itemStatus_eqb_eq, Hall.
  - destruct s, current; cbn; auto.
Qed.

Lemma setItemStatus_success itemId status order code order' :
  reply (setItemStatus itemId status order) = Success code order' ->
  exists s ls,
    parseItemStatus status = Some s
    /\ setLineStatus itemId s (Order.items order) = Some ls
    /\ order'
       = Order.setStatus (deriveStatus s ls (Order.status order))
           (Order.setItems ls order)
    /\ persisted (setItemStatus itemId status order) = order'.
Proof.
  unfold setItemStatus.
  destruct (parseItemStatus status) as [s|]; [|discriminate].
  destruct (setLineStatus itemId s (Order.items order)) as [ls|] eqn:Hset;
    [|discriminate].
  cbn. intros H. injection H as _ <-. exists s, ls.
  repeat split. exact Hset.
Qed.

(** X18. A successful item-status request changes one line only: the first
    line of the order whose id is the requested one gets the new status,
    every other line and every other field of that line is kept (a line
    flagged removed is found like any other), and the total, the batch
    entries, the tickets, the change log and the update counter are
    untouched. *)
Theorem setItemStatus_changes_one_line :
  forall itemId status order code order',
    reply (setItemStatus itemId status order) = Success code order' ->
    exists s pre l post,
      parseItemStatus status = Some s
      /\ Order.items order = pre ++ l :: post
      /\ hasLine itemId pre = false
      /\ OrderLine._id l = Some itemId
      /\ Order.items order' = pre ++ OrderLine.setStatus s l :: post
      /\ persisted (setItemStatus itemId status order) = order'
      /\ Order.totalPrice order' = Order.totalPrice order
      /\ Order.batchStatus order' = Order.batchStatus order
      /\ Order.kots order' = Order.kots order
      /\ Order.updateHistory order' = Order.updateHistory order
      /\ Order.updateCount order' = Order.updateCount order
      /\ updatedItemCount order' = updatedItemCount order.
Proof.
  intros itemId status order code order' Hok.
  destruct (setItemStatus_success _ _ _ _ _ Hok)
    as (s & ls & Hs & Hset & -> & Hp).
  destruct (setLineStatus_split _ _ _ _ Hset)
    as (pre & l & post & Hitems & Hpre & Hl & ->).
  exists s, pre, l, post.
  repeat (split; [first [assumption | reflexivity]|]).
  unfold updatedItemCount. cbn [Order.items Order.setStatus Order.setItems].
  rewrite Hitems, !filter_app. cbn [filter OrderLine.isRemoved
                                     OrderLine.setStatus].
  destruct (negb (OrderLine.isRemoved l)); [|reflexivity].
  rewrite !fold_left_app. reflexivity.
Qed.

Lemma setItemStatus_changes_one_line_witness :
  let order :=
    Sample.order
      [Sample.line 11 Sample.burger 1 IPending false;
       Sample.line 12 Sample.fries 2 IPending false] Pending in
  exists s pre l post,
    parseItemStatus "ready" = Some s
    /\ Order.items order = pre ++ l :: post
    /\ Order.items (persisted (setItemStatus 12%N "ready" order))
       = pre ++ OrderLine.setStatus s l :: post.
Proof.
  intros order.
  destruct (setItemStatus_changes_one_line 12%N "ready" order 200
              (persisted (setItemStatus 12%N "ready" order)) eq_refl)
    as (s & pre & l & post & Hs & Hitems & _ & _ & Hitems' & _).
  exists s, pre, l, post. repeat split; assumption.
Defined.

(** X19. The order status an item-status request leaves is the previous
    one, or the requested item status when, after the change, every line
    that is neither cancelled nor removed has it, or [preparing] when the
    request asked for [preparing] on a pending order.  Cancelling an item
    never changes the order status, so the route never cancels an order and
    never marks one paid. *)
Theorem setItemStatus_derives_order_status :
  forall itemId status order code order',
    reply (setItemStatus itemId status order) = Success code order' ->
    exists s,
      parseItemStatus status = Some s
      /\ (Order.status order' = Order.status order
          \/ (Order.status order' = orderStatusOfItem s
              /\ s <> ICancelled
              /\ Forall (fun l => OrderLine.status l = s)
                   (activeItems (Order.items order')))
          \/ (s = IPreparing /\ Order.status order = Pending
              /\ Order.status order' = Preparing))
      /\ (s = ICancelled -> Order.status order' = Order.status order)
      /\ (Order.status order' = Cancelled -> Order.status order = Cancelled)
      /\ (Order.status order' = Paid -> Order.status order = Paid).
Proof.
  intros itemId status order code order' Hok.
  destruct (setItemStatus_success _ _ _ _ _ Hok)
    as (s & ls & Hs & _ & -> & _).
  exists s. split; [assumption|].
  cbn [Order.status Order.items Order.setStatus Order.setItems].
  destruct (deriveStatus_cases s ls (Order.status order))
    as [H | [(H & Hnc & _ & Hall) | (H1 & H2 & H3)]].
  - rewrite H. repeat split; auto.
  - rewrite H. split; [right; left; repeat split; assumption|].
    split; [contradiction|].
    destruct s; cbn; split; congruence.
  - rewrite H3. split; [right; right; repeat split; assumption|].
    subst s. repeat split; discriminate.
Qed.

Lemma setItemStatus_derives_order_status_witness :
  let order :=
    Sample.order
      [Sample.line 11 Sample.burger 1 IPending false;
       Sample.line 12 Sample.fries 2 IPending false] Pending in
  Order.status (persisted (setItemStatus 11%N "cancelled" order)) = Pending.
Proof.
  intros order.
  destruct (setItemStatus_derives_order_status 11%N "cancelled" order 200
              (persisted (setItemStatus 11%N "cancelled" order)) eq_refl)
    as (s & Hs & _ & Hcancel & _).
  apply Hcancel. vm_compute in Hs. now injection Hs as <-.
Defined.

(** X20. The item-status route succeeds exactly when the status is one of
    the five item statuses and the order has a line with the requested id;
    an unknown status is answered 400, a missing line 404, and in both cases
    the document is left alone. *)
Theorem setItemStatus_succeeds_iff_found :
  forall itemId status order,
    let out := setItemStatus itemId status order in
    ((exists order', out = mkOutcome (Success 200 order') order')
     <-> parseItemStatus status <> None
         /\ hasLine itemId (Order.items order) = true)
    /\ ((exists message, out = reject 400 message order)
        <-> parseItemStatus status = None)
    /\ ((exists message, out = reject 404 message order)
        <-> parseItemStatus status <> None
            /\ hasLine itemId (Order.items order) = false).
Proof.
  intros itemId status order out. subst out. unfold setItemStatus.
  destruct (parseItemStatus status) as [s|].
  - pose proof (setLineStatus_found itemId s (Order.items order)) as Hf.
    destruct (setLineStatus itemId s (Order.items order)) as [ls|].
    + assert (Hh : hasLine itemId (Order.items order) = true)
        by (apply Hf; discriminate).
      rewrite Hh. split; [|split].
      * split; [intros _; split; congruence|]. intros _. eexists.
        reflexivity.
      * split; [intros (m & H); discriminate | discriminate].
      * split; [intros (m & H); discriminate|]. intros (_ & H).
        discriminate.
    + assert (Hh : hasLine itemId (Order.items order) = false).
      { destruct (hasLine itemId (Order.items order)); [|reflexivity].
        exfalso. now apply (proj2 Hf). }
      rewrite Hh. split; [|split].
      * split; [intros (o & H); discriminate|]. intros (_ & H).
        discriminate.
      * split; [intros (m & H); discriminate | discriminate].
      * split; [intros _; split; congruence|]. intros _. eexists.
        reflexivity.
  - split; [|split].
    + split; [intros (o & H); discriminate|]. intros (H & _). congruence.
    + split; [reflexivity|]. intros _. eexists. reflexivity.
    + split; [intros (m & H); discriminate|]. intros (H & _). congruence.
Qed.

Lemma Order_setItems_same order : Order.setItems (Order.items order) order = order.
Proof. now destruct order. Qed.

(** X21. A bulk request for a single id leaves the same document as the
    item-status request for that id, whether the line is found, missing, or
    the status unknown; only the replies differ (the bulk route answers a
    missing line with a success that reports it in [notFoundIds]). *)
Theorem bulk_of_one_agrees_with_single :
  forall itemId status order,
    persisted (setItemsStatusBulk [itemId] status order)
    = persisted (setItemStatus itemId status order)
    /\ (parseItemStatus status <> None ->
        hasLine itemId (Order.items order) = false ->
        exists result,
          reply (setItemsStatusBulk [itemId] status order)
          = Success 200 result
          /\ BulkResult.updatedCount result = 0
          /\ BulkResult.notFoundIds result = [itemId]
          /\ BulkResult.data result = order).
Proof.
  intros itemId status order.
  unfold setItemsStatusBulk, setItemStatus.
  destruct (parseItemStatus status) as [s|]; [|split; [reflexivity|]].
  2:{ intros H. congruence. }
  cbn [fold_left bulkStep].
  pose proof (setLineStatus_found itemId s (Order.items order)) as Hf.
  destruct (setLineStatus itemId s (Order.items order)) as [ls|].
  - cbn. split; [reflexivity|]. intros _ Hh.
    exfalso. assert (Ht : hasLine itemId (Order.items order) = true)
      by (apply Hf; discriminate). congruence.
  - cbn. rewrite Order_setItems_same. split; [reflexivity|].
    intros _ _. eexists. repeat split.
Qed.

Lemma bulk_of_one_agrees_with_single_witness :
  let order :=
    Sample.order [Sample.line 11 Sample.burger 1 IPending false] Pending in
  exists result,
    reply (setItemsStatusBulk [99%N] "ready" order) = Success 200 result
    /\ BulkResult.notFoundIds result = [99%N]
    /\ BulkResult.data result = order.
Proof.
  intros order.
  destruct (bulk_of_one_agrees_with_single 99%N "ready" order) as [_ H].
  destruct H as (result & Hrun & _ & Hn & Hd);
    [discriminate | reflexivity |].
  exists result. repeat split; assumption.
Defined.

Lemma lineSelected_status ids s l :
  lineSelected ids (OrderLine.setStatus s l) = lineSelected ids l.
Proof. reflexivity. Qed.

Lemma hasLine_lineIds itemId ls :
  hasLine itemId ls = true <-> In itemId (lineIds ls).
Proof.
  induction ls as [|l ls IH]; [cbn; split; [discriminate | tauto]|].
  rewrite hasLine_cons. unfold lineIds. cbn [flat_map].
  fold (lineIds ls).
  destruct (OrderLine._id l) as [id|]; [|exact IH].
  cbn [app]. rewrite orb_true_iff, IH, N.eqb_eq. cbn. tauto.
Qed.

Lemma map_unselected itemId s ls :
  hasLine itemId ls = false ->
  map (fun l => if lineSelected [itemId] l then OrderLine.setStatus s l
                else l) ls
  = ls.
Proof.
  induction ls as [|l ls IH]; [reflexivity|].
  rewrite hasLine_cons. intros H. cbn [map]. unfold lineSelected at 1.
  destruct (OrderLine._id l) as [id|].
  - apply orb_false_elim in H. destruct H as [H1 H2].
    cbn [existsb]. rewrite H1. cbn. now rewrite IH.
  - now rewrite IH.
Qed.

Lemma setLineStatus_distinct itemId s ls :
  NoDup (lineIds ls) ->
  hasLine itemId ls = true ->
  setLineStatus itemId s ls
  = Some (map (fun l => if lineSelected [itemId] l
                        then OrderLine.setStatus s l else l) ls).
Proof.
  induction ls as [|l ls IH]; [discriminate|].
  unfold lineIds. cbn [flat_map]. fold (lineIds ls).
  rewrite hasLine_cons. cbn [setLineStatus map]. unfold lineSelected at 1.
  destruct (OrderLine._id l) as [id|]; cbn [app existsb].
  - intros Hnd Hh. inversion Hnd as [|? ? Hnotin Hnd']; subst.
    destruct (N.eqb_spec id itemId) as [->|Hne]; cbn [orb].
    + rewrite map_unselected; [reflexivity|].
      destruct (hasLine itemId ls) eqn:Hl; [|reflexivity].
      exfalso. now apply Hnotin, hasLine_lineIds.
    + cbn [orb] in Hh. rewrite (IH Hnd' Hh). reflexivity.
  - intros Hnd Hh. rewrite (IH Hnd Hh). reflexivity.
Qed.

Lemma lineIds_map_status (f : OrderLine.t -> bool) s ls :
  lineIds (map (fun l => if f l then OrderLine.setStatus s l else l) ls)
  = lineIds ls.
Proof.
  induction ls as [|l ls IH]; [reflexivity|].
  unfold lineIds in *. cbn [map flat_map]. rewrite IH.
  now destruct (f l).
Qed.

Lemma hasLine_map_status (f : OrderLine.t -> bool) itemId s ls :
  hasLine itemId
    (map (fun l => if f l then OrderLine.setStatus s l else l) ls)
  = hasLine itemId ls.
Proof.
  induction ls as [|l ls IH]; [reflexivity|].
  cbn [map]. rewrite !hasLine_cons, IH. now destruct (f l).
Qed.

Lemma bulk_fold s itemIds ls updatedCount notFoundIds :
  NoDup (lineIds ls) ->
  fold_left (bulkStep s) itemIds (ls, updatedCount, notFoundIds)
  = (map (fun l => if lineSelected itemIds l then OrderLine.setStatus s l
                   else l) ls,
     updatedCount
     + Z.of_nat (List.length (filter (fun id => hasLine id ls) itemIds)),
     notFoundIds ++ filter (fun id => negb (hasLine id ls)) itemIds).
Proof.
  revert ls updatedCount notFoundIds.
  induction itemIds as [|itemId itemIds IH];
    intros ls updatedCount notFoundIds Hnd.
  - cbn. rewrite Z.add_0_r, app_nil_r. f_equal. f_equal.
    induction ls as [|l ls IHl]; [reflexivity|].
    cbn [map]. unfold lineSelected at 1.
    unfold lineIds in Hnd. cbn [flat_map] in Hnd. fold (lineIds ls) in Hnd.
    rewrite <- IHl at 1.
    + destruct (OrderLine._id l); reflexivity.
    + destruct (OrderLine._id l); [now inversion Hnd | assumption].
  - cbn [fold_left bulkStep filter].
    assert (Hcompose :
              forall base,
                map (fun l => if lineSelected itemIds l
                              then OrderLine.setStatus s l else l)
                  (map (fun l => if lineSelected [itemId] l
                                 then OrderLine.setStatus s l else l) base)
                = map (fun l => if lineSelected (itemId :: itemIds) l
                                then OrderLine.setStatus s l else l) base).
    { intros base. rewrite map_map. apply map_ext. intros l.
      unfold lineSelected. destruct (OrderLine._id l) as [id|] eqn:Hid.
      - cbn [existsb]. rewrite orb_false_r.
        destruct (N.eqb id itemId); cbn [orb].
        + cbn [OrderLine._id OrderLine.setStatus]. rewrite Hid.
          now destruct (existsb (N.eqb id) itemIds).
        + rewrite Hid. reflexivity.
      - rewrite Hid. reflexivity. }
    destruct (hasLine itemId ls) eqn:Hh.
    + rewrite (setLineStatus_distinct itemId s ls Hnd Hh).
      rewrite IH by (now rewrite lineIds_map_status).
      rewrite Hcompose. cbn [negb List.length].
      f_equal; [f_equal|].
      * rewrite Nat2Z.inj_succ.
        rewrite (filter_ext _ (fun id => hasLine id ls)
                   (fun id => hasLine_map_status _ id s ls)).
        lia.
      * f_equal. apply filter_ext. intros id.
        now rewrite hasLine_map_status.
    + assert (Hnone : setLineStatus itemId s ls = None).
      { destruct (setLineStatus itemId s ls) eqn:Hset; [|reflexivity].
        assert (Ht : hasLine itemId ls = true)
          by (apply (setLineStatus_found itemId s ls); congruence).
        congruence. }
      rewrite Hnone, (IH ls _ _ Hnd). cbn [negb].
      rewrite <- (Hcompose ls), (map_unselected itemId s ls Hh).
      rewrite <- app_assoc. reflexivity.
Qed.

(** X22. On an order whose line ids are distinct, a bulk request gives the
    requested status to exactly the lines whose id is among [itemIds] and
    keeps every other line; [updatedCount] counts the submitted ids that
    name a line of the order, [notFoundIds] lists the others in their order
    of submission, and the two together account for every submitted id.
    When no id names a line the document is left as it was. *)
Theorem bulk_updates_selected_lines :
  forall itemIds status s order,
    itemIds <> [] ->
    parseItemStatus status = Some s ->
    NoDup (lineIds (Order.items order)) ->
    exists result,
      setItemsStatusBulk itemIds status order
      = mkOutcome (Success 200 result) (BulkResult.data result)
      /\ Order.items (BulkResult.data result)
         = map (fun l => if lineSelected itemIds l
                         then OrderLine.setStatus s l else l)
             (Order.items order)
      /\ BulkResult.updatedCount result
         = Z.of_nat
             (List.length
                (filter (fun id => hasLine id (Order.items order)) itemIds))
      /\ BulkResult.notFoundIds result
         = filter (fun id => negb (hasLine id (Order.items order))) itemIds
      /\ BulkResult.updatedCount result
         + Z.of_nat (List.length (BulkResult.notFoundIds result))
         = Z.of_nat (List.length itemIds)
      /\ (BulkResult.updatedCount result = 0 ->
          BulkResult.data result = order).
Proof.
  intros itemIds status s order Hne Hs Hnd.
  unfold setItemsStatusBulk. rewrite Hs.
  destruct itemIds as [|i0 itemIds]; [congruence|].
  rewrite (bulk_fold s (i0 :: itemIds) (Order.items order) 0 [] Hnd).
  set (ids := i0 :: itemIds).
  set (n := Z.of_nat (List.length (filter _ ids))).
  cbv beta iota. eexists (BulkResult.mk _ _ _).
  cbn [app BulkResult.data BulkResult.updatedCount BulkResult.notFoundIds].
  split; [reflexivity|].
  assert (Hlen : 0 + n
                 + Z.of_nat
                     (List.length
                        (filter
                           (fun id => negb (hasLine id (Order.items order)))
                           ids))
                 = Z.of_nat (List.length ids)).
  { subst n. rewrite Z.add_0_l, <- Nat2Z.inj_add. f_equal.
    induction ids as [|x xs IHx]; [reflexivity|].
    cbn [filter]. destruct (hasLine x (Order.items order));
      cbn [negb List.length]; lia. }
  split; [|split; [reflexivity|split; [reflexivity|split; [exact Hlen|]]]].
  - destruct (0 + n >? 0); reflexivity.
  - intros H0. rewrite H0. cbn.
    assert (Hnone : forall id, In id ids ->
                               hasLine id (Order.items order) = false).
    { intros id Hid.
      destruct (hasLine id (Order.items order)) eqn:Hh; [|reflexivity].
      assert (Hin : In id (filter (fun id => hasLine id (Order.items order))
                             ids)) by (apply filter_In; split; assumption).
      subst n. destruct (filter _ ids); [contradiction|].
      cbn [List.length] in H0. lia. }
    assert (Hmap : map (fun l => if lineSelected ids l
                                 then OrderLine.setStatus s l else l)
                     (Order.items order)
                   = Order.items order).
    { rewrite <- (map_id (Order.items order)) at 2.
      apply map_ext_in. intros l Hl. unfold lineSelected.
      destruct (OrderLine._id l) as [id|] eqn:Hid; [|reflexivity].
      destruct (existsb (N.eqb id) ids) eqn:He; [|reflexivity].
      apply existsb_exists in He. destruct He as (x & Hx & Heq).
      apply N.eqb_eq in Heq. subst x.
      specialize (Hnone id Hx).
      assert (Ht : hasLine id (Order.items order) = true).
      { apply hasLine_lineIds. unfold lineIds. apply in_flat_map.
        exists l. split; [assumption|]. rewrite Hid. now left. }
      congruence. }
    rewrite Hmap. apply Order_setItems_same.
Qed.

Lemma bulk_updates_selected_lines_witness :
  let order :=
    Sample.order
      [Sample.line 11 Sample.burger 1 IPending false;
       Sample.line 12 Sample.fries 2 IPending false;
       Sample.line 13 Sample.fries 1 IPending false] Pending in
  exists result,
    reply (setItemsStatusBulk [13%N; 99%N; 11%N] "ready" order)
    = Success 200 result
    /\ BulkResult.updatedCount result = 2
    /\ BulkResult.notFoundIds result = [99%N].
Proof.
  intros order.
  destruct (bulk_updates_selected_lines [13%N; 99%N; 11%N] "ready" IReady
              order) as (result & Hrun & _ & Hc & Hn & _).
  - discriminate.
  - reflexivity.
  - repeat constructor; cbn; intuition discriminate.
  - exists result. rewrite Hrun. repeat split; assumption.
Defined.

(** ** The schema minimums survive an update *)

Lemma In_linesWithKey l ls : In l ls -> In l (linesWithKey (lineKey l) ls).
Proof.
  intros H. apply filter_In. split; [assumption|].
  unfold hasKey. destruct (Key_eq_dec (lineKey l) (lineKey l)); congruence.
Qed.

Lemma removeFromExisting_positive ls a :
  Forall (fun l => 1 <= OrderLine.quantity l) ls ->
  Forall (fun l => 1 <= OrderLine.quantity l) (removeFromExisting ls a).
Proof.
  intros Hall. revert a.
  induction Hall as [|l ls Hl _ IH]; intros a; cbn [removeFromExisting];
    [constructor|].
  destruct (Z.leb_spec a 0).
  - constructor; [assumption | apply IH].
  - destruct (Z.ltb_spec a (OrderLine.quantity l)).
    + constructor; [cbn; lia | apply IH].
    + constructor; [exact Hl | apply IH].
Qed.

Lemma removeFromExisting_length ls a :
  List.length (removeFromExisting ls a) = List.length ls.
Proof.
  revert a. induction ls as [|l ls IH]; intros a; [reflexivity|].
  cbn [removeFromExisting].
  destruct (a <=? 0); [|destruct (a <? OrderLine.quantity l)];
    cbn [List.length]; now rewrite IH.
Qed.

Lemma staffKey_positive changedBy menuItem incoming existingList :
  1 <= Incoming.qty incoming ->
  Forall (fun l => 1 <= OrderLine.quantity l) existingList ->
  fst (staffKey changedBy menuItem incoming existingList) <> []
  /\ Forall (fun l => 1 <= OrderLine.quantity l)
       (fst (staffKey changedBy menuItem incoming existingList)).
Proof.
  intros Hq Hall.
  destruct (Z.lt_trichotomy (Incoming.qty incoming)
              (totalQuantity existingList)) as [Hlt | [Heq | Hgt]].
  - rewrite staffKey_decrease by assumption. cbn [fst]. split.
    + intros Hnil. apply (f_equal (@List.length _)) in Hnil.
      rewrite removeFromExisting_length,
        (Permutation_length (sortByPriority_perm existingList)) in Hnil.
      destruct existingList; [|discriminate].
      change (totalQuantity []) with 0 in Hlt. lia.
    + apply removeFromExisting_positive.
      eapply Permutation_Forall; [|exact Hall].
      apply Permutation_sym, sortByPriority_perm.
  - rewrite staffKey_unchanged by assumption. cbn [fst].
    split; [|assumption]. intros ->.
    change (totalQuantity []) with 0 in Heq. lia.
  - rewrite staffKey_increase by lia. cbn [fst]. split.
    + intros Hnil. now apply app_eq_nil in Hnil as [_ Hnil].
    + apply Forall_app. split; [assumption|].
      constructor; [cbn; lia | constructor].
Qed.

Lemma quantity_logLine old l :
  OrderLine.quantity (logLine old l) = OrderLine.quantity l.
Proof.
  unfold logLine. destruct (findByKey _ old); [|reflexivity].
  now destruct (_ >? _).
Qed.

Lemma old_lines_positive k (ls : list OrderLine.t) :
  Forall (fun l => 1 <= OrderLine.quantity l) ls ->
  Forall (fun l => 1 <= OrderLine.quantity l)
    (map sortLineAddons (linesWithKey k (nonRemoved ls))).
Proof.
  intros Hall. apply Forall_forall. intros x Hx.
  apply in_map_iff in Hx. destruct Hx as (l & <- & Hl).
  apply filter_In in Hl. destruct Hl as [Hl _].
  apply filter_In in Hl. destruct Hl as [Hl _].
  rewrite Forall_forall in Hall. exact (Hall l Hl).
Qed.

Lemma staff_lines_positive catalog changedBy ls items L H :
  staffReconcile catalog changedBy (nonRemoved ls) items = Some (L, H) ->
  Forall (fun item => 1 <= ReqItem.quantity item) items ->
  items <> [] ->
  Forall (fun l => 1 <= OrderLine.quantity l) ls ->
  L <> [] /\ Forall (fun l => 1 <= OrderLine.quantity l) L.
Proof.
  intros Hs Hq Hne Hall.
  assert (Hkey : forall k,
             submitted k items ->
             linesWithKey k L <> []
             /\ Forall (fun l => 1 <= OrderLine.quantity l)
                  (linesWithKey k L)).
  { intros k Hsub.
    destruct (staff_key_summary _ _ _ _ _ _ k Hs Hsub)
      as (first & menuItem & _ & _ & -> & _).
    apply staffKey_positive.
    - cbn [Incoming.qty]. now apply desiredQty_pos.
    - now apply old_lines_positive. }
  split.
  - destruct items as [|i0 items]; [congruence|].
    assert (Hsub : submitted (reqKey i0) (i0 :: items))
      by (exists i0; split; [now left | reflexivity]).
    destruct (Hkey _ Hsub) as [Hnil _].
    intros ->. now apply Hnil.
  - apply Forall_forall. intros l Hl.
    destruct (in_dec Key_eq_dec (lineKey l) (submittedKeys items))
      as [Hin | Hnin].
    + apply submittedKeys_In in Hin.
      destruct (Hkey _ Hin) as [_ Hpos].
      rewrite Forall_forall in Hpos. apply Hpos. now apply In_linesWithKey.
    + rewrite submittedKeys_In in Hnin.
      destruct (staffReconcile_lines _ _ _ _ _ _ (lineKey l) Hs)
        as [_ Hnone].
      apply In_linesWithKey in Hl. rewrite (Hnone Hnin) in Hl.
      contradiction.
Qed.

Lemma customer_lines_positive catalog changedBy ls items L H T :
  customerReconcile catalog changedBy (nonRemoved ls) items
  = Some (L, H, T) ->
  Forall (fun item => 1 <= ReqItem.quantity item) items ->
  items <> [] ->
  Forall (fun l => 1 <= OrderLine.quantity l) ls ->
  L <> [] /\ Forall (fun l => 1 <= OrderLine.quantity l) L.
Proof.
  intros Hrec Hq Hne Hall.
  split.
  - destruct items as [|i0 items]; [congruence|].
    assert (Hsub : submitted (reqKey i0) (i0 :: items))
      by (exists i0; split; [now left | reflexivity]).
    destruct (customer_key_line _ _ _ _ _ _ _ _ Hrec Hsub)
      as (first & menuItem & _ & _ & Hline).
    intros ->. discriminate.
  - apply Forall_forall. intros l Hl.
    apply In_linesWithKey in Hl.
    destruct (in_dec Key_eq_dec (lineKey l) (submittedKeys items))
      as [Hin | Hnin].
    + apply submittedKeys_In in Hin.
      destruct (customer_key_line _ _ _ _ _ _ _ _ Hrec Hin)
        as (first & menuItem & _ & _ & Hline).
      rewrite Hline in Hl. destruct Hl as [<- | []].
      rewrite quantity_logLine. cbn [OrderLine.quantity
                                       OrderLine.setQuantity].
      now apply desiredQty_pos.
    + rewrite submittedKeys_In in Hnin.
      rewrite (customer_absent_key _ _ _ _ _ _ _ _ Hrec Hnin) in Hl.
      destruct (findByKey (lineKey l) (nonRemoved ls)) as [o0|] eqn:Hf;
        [|contradiction].
      destruct Hl as [<- | []].
      apply findByKey_Some in Hf. destruct Hf as [Ho0 _].
      apply filter_In in Ho0. destruct Ho0 as [Ho0 _].
      rewrite Forall_forall in Hall. exact (Hall o0 Ho0).
Qed.

(** X23. With quantities that are whole numbers, as they are modelled
    here, two validators of the schema never fire on an update, the one that
    wants [items] not empty and the [min: 1] of a line's quantity: when every
    stored line has quantity at least 1 and the guards of the handler pass,
    the document the handler hands to [save()] has a line list that is not
    empty, and every line of it, flagged removed or not, has quantity at
    least 1.  This holds for both policies.  A submitted quantity that is not
    a whole number, which the guards let through, is outside this
    statement. *)
Theorem update_respects_schema_minimums :
  forall isStaffEdit catalog req order doc,
    updateAccepted catalog req order ->
    updateDocument isStaffEdit catalog req order = Some doc ->
    Forall (fun l => 1 <= OrderLine.quantity l) (Order.items order) ->
    Order.items doc <> []
    /\ Forall (fun l => 1 <= OrderLine.quantity l) (Order.items doc).
Proof.
  intros isStaffEdit catalog req order doc (Hne & _ & Hq & _) Hdoc Hall.
  unfold updateDocument in Hdoc.
  destruct isStaffEdit.
  - unfold staffReconcileTotal in Hdoc.
    destruct (staffReconcile _ _ _ _) as [[L H]|] eqn:Hs; [|discriminate].
    injection Hdoc as <-. rewrite applyUpdate_items.
    exact (staff_lines_positive _ _ _ _ _ _ Hs Hq Hne Hall).
  - destruct (customerReconcile _ _ _ _) as [[[L H] T]|] eqn:Hrec;
      [|discriminate].
    injection Hdoc as <-. rewrite applyUpdate_items.
    exact (customer_lines_positive _ _ _ _ _ _ _ Hrec Hq Hne Hall).
Qed.

Lemma update_respects_schema_minimums_witness :
  let order :=
    Sample.order
      [Sample.line 11 Sample.burger 3 IPreparing false;
       Sample.line 12 Sample.burger 2 IPending false] Preparing in
  let req := Sample.request [Sample.item Sample.burger 4] in
  exists doc,
    updateDocument true Sample.catalog req order = Some doc
    /\ List.length (Order.items doc) = 2%nat
    /\ Forall (fun l => 1 <= OrderLine.quantity l) (Order.items doc).
Proof.
  intros order req.
  destruct (updateDocument true Sample.catalog req order) as [doc|] eqn:Hdoc;
    [|vm_compute in Hdoc; discriminate].
  exists doc. split; [reflexivity|].
  split; [vm_compute in Hdoc; injection Hdoc as <-; reflexivity|].
  apply (update_respects_schema_minimums true Sample.catalog req order doc).
  - repeat split.
    + discriminate.
    + repeat constructor; cbn; lia.
    + repeat constructor; discriminate.
  - exact Hdoc.
  - repeat constructor; cbn; lia.
Defined.

(** ** The ticket ledger *)

Lemma generateTicket_cases order :
  (exists message noNewItems,
      generateTicket order
      = mkOutcome (Failure 400 message noNewItems) order
      /\ activeLinesHaveIds (Order.items order)
      /\ ticketLines (Order.kots order) (Order.items order) = [])
  \/ (exists message, generateTicket order = reject 500 message order)
  \/ (let kot :=
        Kot.mk (Z.of_nat (List.length (Order.kots order)) + 1)
          (ticketLines (Order.kots order) (Order.items order)) "Staff" in
      generateTicket order
      = mkOutcome (Success 200 kot)
          (Order.setKots (Order.kots order ++ [storedKot kot]) order)
      /\ activeLinesHaveIds (Order.items order)
      /\ ticketLines (Order.kots order) (Order.items order) <> []).
Proof.
  unfold generateTicket, itemsToPrint.
  destruct (fold_left _ (Order.items order) (Some [])) as [toPrint|] eqn:Hf.
  - pose proof (kotStep_fold_ids _ _ _ _ Hf) as Hids.
    rewrite (kotStep_fold (Order.kots order) (Order.items order) [] Hids)
      in Hf.
    cbn [app] in Hf. injection Hf as <-.
    destruct (ticketLines (Order.kots order) (Order.items order))
      as [|k ks] eqn:Ht.
    + left. eexists _, _. repeat split. assumption.
    + right. right. cbv zeta. repeat split; [assumption | discriminate].
  - right. left. eexists. reflexivity.
Qed.

(** X24. Printing keeps the ticket ledger well formed: when the tickets of
    an order are numbered 1, 2, ... and none is empty or holds a line of
    quantity 0 or less, the same is true after a print request, whether it
    printed or not; a printed ticket is appended last (as the sub-schema
    stores it) with the next number and is issued by [Staff]. *)
Theorem generateTicket_keeps_ledger_wellformed :
  forall order,
    kotsNumbered (Order.kots order) ->
    kotsPositive (Order.kots order) ->
    let order' := persisted (generateTicket order) in
    kotsNumbered (Order.kots order')
    /\ kotsPositive (Order.kots order')
    /\ (forall code kot,
          reply (generateTicket order) = Success code kot ->
          Order.kots order' = Order.kots order ++ [storedKot kot]
          /\ Kot.kotNumber kot
             = Z.of_nat (List.length (Order.kots order)) + 1
          /\ Kot.printedBy kot = "Staff").
Proof.
  intros order Hnum Hpos.
  destruct (generateTicket_cases order)
    as [(m & n & -> & _) | [(m & ->) | (-> & Hids & Hne)]]; cbn.
  - split; [assumption|split; [assumption|]].
    intros code kot H. discriminate.
  - split; [assumption|split; [assumption|]].
    intros code kot H. discriminate.
  - split; [|split].
    + unfold kotsNumbered in *.
      rewrite map_app, length_app, seq_app, map_app, Hnum. cbn.
      do 2 f_equal. lia.
    + apply Forall_app. split; [assumption|].
      constructor; [|constructor]. cbn. split.
      * intros Hnil. apply map_eq_nil in Hnil. contradiction.
      * apply Forall_forall. intros x Hx. apply in_map_iff in Hx.
        destruct Hx as (y & <- & Hy).
        pose proof (ticketLines_positive (Order.kots order)
                      (Order.items order)) as Hpos'.
        rewrite Forall_forall in Hpos'. exact (Hpos' y Hy).
    + intros code kot H. injection H as _ <-. repeat split.
Qed.

Lemma generateTicket_keeps_ledger_wellformed_witness :
  let order :=
    Sample.order
      [Sample.line 11 Sample.burger 3 IPreparing false;
       Sample.line 12 Sample.fries 1 IPending true] Preparing in
  let order' := persisted (generateTicket order) in
  kotsNumbered (Order.kots order') /\ kotsPositive (Order.kots order').
Proof.
  intros order order'.
  destruct (generateTicket_keeps_ledger_wellformed order)
    as (Hn & Hp & _).
  - reflexivity.
  - constructor.
  - split; assumption.
Defined.

Lemma ticketLines_cons kots x ls :
  ticketLines kots (x :: ls)
  = match OrderLine._id x with
    | Some id =>
        if negb (OrderLine.isRemoved x) && (remainingQty kots x >? 0)
        then [KotItem.mk id (OrderLine.name x) (remainingQty kots x)
                (OrderLine.addons x) (Some (OrderLine.specialInstructions x))]
        else []
    | None => []
    end ++ ticketLines kots ls.
Proof. reflexivity. Qed.

Lemma activeIds_cons x ls :
  lineIds (nonRemoved (x :: ls))
  = (if OrderLine.isRemoved x then []
     else match OrderLine._id x with Some id => [id] | None => [] end)
    ++ lineIds (nonRemoved ls).
Proof.
  unfold nonRemoved, lineIds. cbn [filter].
  destruct (OrderLine.isRemoved x); reflexivity.
Qed.

Lemma sumFor_ticketLine kots x id :
  (OrderLine.isRemoved x = false -> OrderLine._id x <> Some id) ->
  sumFor id
    match OrderLine._id x with
    | Some id0 =>
        if negb (OrderLine.isRemoved x) && (remainingQty kots x >? 0)
        then [KotItem.mk id0 (OrderLine.name x) (remainingQty kots x)
                (OrderLine.addons x) (Some (OrderLine.specialInstructions x))]
        else []
    | None => []
    end = 0.
Proof.
  intros Hx. destruct (OrderLine._id x) as [i|]; [|reflexivity].
  destruct (OrderLine.isRemoved x); cbn [negb andb]; [reflexivity|].
  destruct (remainingQty kots x >? 0); [|reflexivity].
  cbn. destruct (N.eq_dec i id) as [->|]; [|reflexivity].
  exfalso. now apply Hx.
Qed.

Lemma sumFor_ticketLines_absent kots ls id :
  ~ In id (lineIds (nonRemoved ls)) ->
  sumFor id (ticketLines kots ls) = 0.
Proof.
  induction ls as [|x ls IH]; [reflexivity|].
  rewrite activeIds_cons, ticketLines_cons, sumFor_app. intros Hnin.
  rewrite IH by (intros H; apply Hnin, in_or_app; now right).
  rewrite sumFor_ticketLine; [reflexivity|].
  intros Hrm Hid. apply Hnin, in_or_app. left.
  rewrite Hrm, Hid. now left.
Qed.

Lemma sumFor_ticketLines kots ls l id :
  NoDup (lineIds (nonRemoved ls)) ->
  In l ls ->
  OrderLine.isRemoved l = false ->
  OrderLine._id l = Some id ->
  sumFor id (ticketLines kots ls) = Z.max 0 (remainingQty kots l).
Proof.
  induction ls as [|x ls IH]; [contradiction|].
  rewrite activeIds_cons, ticketLines_cons, sumFor_app.
  intros Hnd [-> | Hin] Hrm Hid.
  - rewrite Hrm, Hid in *. cbn [negb andb app] in *.
    inversion Hnd as [|? ? Hnotin _]; subst.
    rewrite (sumFor_ticketLines_absent kots ls id Hnotin).
    destruct (Z.gtb_spec (remainingQty kots l) 0); cbn.
    + destruct (N.eq_dec id id); [lia | congruence].
    + lia.
  - assert (Hl : In id (lineIds (nonRemoved ls))).
    { unfold lineIds. apply in_flat_map. exists l. split.
      - apply filter_In. split; [assumption|]. now rewrite Hrm.
      - rewrite Hid. now left. }
    rewrite (IH (NoDup_app_remove_l _ _ Hnd) Hin Hrm Hid).
    rewrite sumFor_ticketLine; [lia|].
    intros Hrx Hix. rewrite Hrx, Hix in Hnd. cbn [app] in Hnd.
    inversion Hnd as [|? ? Hnotin _]; subst. contradiction.
Qed.

(** X25. On an order whose active lines have distinct ids, a printed ticket
    brings the printed quantity of every active line up to the line's
    quantity and never beyond: afterwards it is the larger of what was
    printed before and the quantity.  A line whose quantity fell below what
    was printed keeps its printed quantity (no negative ticket line), and
    ids of no active line are not printed at all. *)
Theorem generateTicket_prints_up_to_quantity :
  forall order code kot,
    reply (generateTicket order) = Success code kot ->
    NoDup (lineIds (nonRemoved (Order.items order))) ->
    let kots' := Order.kots (persisted (generateTicket order)) in
    (forall l id,
        In l (Order.items order) ->
        OrderLine.isRemoved l = false ->
        OrderLine._id l = Some id ->
        alreadyPrinted kots' id
        = Z.max (alreadyPrinted (Order.kots order) id)
            (OrderLine.quantity l))
    /\ (forall id,
          ~ In id (lineIds (nonRemoved (Order.items order))) ->
          alreadyPrinted kots' id = alreadyPrinted (Order.kots order) id).
Proof.
  intros order code kot Hok Hnd.
  destruct (generateTicket_cases order)
    as [(m & n & Hrun & _) | [(m & Hrun) | (Hrun & Hids & Hne)]];
    try (rewrite Hrun in Hok; discriminate).
  rewrite Hrun. cbn [persisted Order.kots Order.setKots]. split.
  - intros l id Hin Hrm Hid.
    rewrite alreadyPrinted_stored. cbn [Kot.items].
    rewrite (sumFor_ticketLines _ _ l id Hnd Hin Hrm Hid).
    unfold remainingQty. rewrite Hid. lia.
  - intros id Hnin. rewrite alreadyPrinted_stored. cbn [Kot.items].
    rewrite (sumFor_ticketLines_absent _ _ id Hnin). lia.
Qed.

Lemma generateTicket_prints_up_to_quantity_witness :
  let order :=
    Sample.order
      [Sample.line 11 Sample.burger 3 IPreparing false;
       Sample.line 12 Sample.fries 1 IPending true] Preparing in
  alreadyPrinted (Order.kots (persisted (generateTicket order))) 11%N
  = Z.max (alreadyPrinted (Order.kots order) 11%N) 3.
Proof.
  intros order.
  destruct (generateTicket_prints_up_to_quantity order 200
              (Kot.mk 1 [KotItem.mk 11%N "Burger" 3 [] (Some EmptyString)] "Staff"))
    as [Hlines _].
  - reflexivity.
  - repeat constructor. cbn. tauto.
  - apply (Hlines (Sample.line 11 Sample.burger 3 IPreparing false) 11%N);
      [now left | reflexivity | reflexivity].
Defined.

(** ** Marking an order seen *)

Lemma kotStep_setIsNew printed acc b l :
  kotStep printed acc (OrderLine.setIsNew b l) = kotStep printed acc l.
Proof. destruct acc; reflexivity. Qed.

Lemma kotStep_fold_setIsNew printed b ls acc :
  fold_left (kotStep printed) (map (OrderLine.setIsNew b) ls) acc
  = fold_left (kotStep printed) ls acc.
Proof.
  revert acc. induction ls as [|l ls IH]; intros acc; [reflexivity|].
  cbn [map fold_left]. now rewrite kotStep_setIsNew, IH.
Qed.

Lemma activeCount_setIsNew b ls init :
  fold_left (fun sum item => sum + OrderLine.quantity item)
    (filter (fun item => negb (OrderLine.isRemoved item))
       (map (OrderLine.setIsNew b) ls)) init
  = fold_left (fun sum item => sum + OrderLine.quantity item)
      (filter (fun item => negb (OrderLine.isRemoved item)) ls) init.
Proof.
  revert init. induction ls as [|l ls IH]; intros init; [reflexivity|].
  cbn [map filter OrderLine.isRemoved OrderLine.setIsNew].
  destruct (negb (OrderLine.isRemoved l)); [|apply IH].
  cbn [fold_left OrderLine.quantity OrderLine.setIsNew]. apply IH.
Qed.

(** X26. Marking an order seen only clears markers: afterwards no line is
    flagged new and the order has no unseen changes, while the identity key,
    id, quantity, removal flag and status of every line, the active item
    count, the order status and the batch entries are those of before.  The
    request is idempotent, and it never changes what the next print request
    answers. *)
Theorem markSeen_clears_markers_only :
  forall order,
    let order' := persisted (markSeen order) in
    reply (markSeen order) = Success 200 order'
    /\ Forall (fun l => OrderLine.isNew l = false) (Order.items order')
    /\ Order.hasUnseenChanges order' = false
    /\ map lineKey (Order.items order') = map lineKey (Order.items order)
    /\ map OrderLine._id (Order.items order')
       = map OrderLine._id (Order.items order)
    /\ map OrderLine.quantity (Order.items order')
       = map OrderLine.quantity (Order.items order)
    /\ map OrderLine.isRemoved (Order.items order')
       = map OrderLine.isRemoved (Order.items order)
    /\ map OrderLine.status (Order.items order')
       = map OrderLine.status (Order.items order)
    /\ updatedItemCount order' = updatedItemCount order
    /\ Order.status order' = Order.status order
    /\ Order.batchStatus order' = Order.batchStatus order
    /\ persisted (markSeen order') = order'
    /\ reply (generateTicket order') = reply (generateTicket order).
Proof.
  intros order order'.
  assert (Hitems : Order.items order'
                   = map (OrderLine.setIsNew false) (Order.items order))
    by reflexivity.
  assert (Hfield : forall (B : Type) (f : OrderLine.t -> B),
             (forall l, f (OrderLine.setIsNew false l) = f l) ->
             map f (Order.items order') = map f (Order.items order)).
  { intros B f Hf. rewrite Hitems, map_map. apply map_ext. exact Hf. }
  split; [reflexivity|].
  split.
  { rewrite Hitems. apply Forall_forall. intros l Hl.
    apply in_map_iff in Hl. destruct Hl as (x & <- & _). reflexivity. }
  split; [reflexivity|].
  split; [apply Hfield; reflexivity|].
  split; [apply Hfield; reflexivity|].
  split; [apply Hfield; reflexivity|].
  split; [apply Hfield; reflexivity|].
  split; [apply Hfield; reflexivity|].
  split.
  { unfold updatedItemCount. rewrite Hitems. apply activeCount_setIsNew. }
  split; [reflexivity|].
  split; [reflexivity|].
  split.
  { subst order'. unfold markSeen. cbn. f_equal.
    rewrite map_map. apply map_ext. intros l. reflexivity. }
  unfold generateTicket, itemsToPrint. rewrite Hitems.
  change (Order.kots order') with (Order.kots order).
  rewrite kotStep_fold_setIsNew.
  destruct (fold_left _ (Order.items order) (Some [])) as [[|k ks]|];
    reflexivity.
Qed.

(** ** Pricing is insensitive to the in-place sort *)

Lemma insertAddon_perm a l : Permutation (insertAddon a l) (a :: l).
Proof.
  induction l as [|b l IH]; [apply Permutation_refl|].
  cbn [insertAddon]. destruct (String.leb _ _); [apply Permutation_refl|].
  eapply Permutation_trans; [apply perm_skip, IH | apply perm_swap].
Qed.

Lemma sortAddons_perm l : Permutation (sortAddons l) l.
Proof.
  induction l as [|a l IH]; [apply Permutation_refl|].
  cbn [sortAddons fold_right]. fold (sortAddons l).
  eapply Permutation_trans; [apply insertAddon_perm | now apply perm_skip].
Qed.

Lemma addonTotal_from addons (init : Q) :
  (fold_left (fun sum addon => sum + addonUnitPrice addon) addons init
   == init
      + fold_left (fun sum addon => sum + addonUnitPrice addon) addons 0)%Q.
Proof.
  revert init. induction addons as [|a addons IH]; intros init.
  - cbn. ring.
  - cbn [fold_left]. rewrite IH, (IH (0 + addonUnitPrice a)%Q). ring.
Qed.

Lemma addonTotal_perm a b :
  Permutation a b ->
  (fold_left (fun sum addon => sum + addonUnitPrice addon) a 0
   == fold_left (fun sum addon => sum + addonUnitPrice addon) b 0)%Q.
Proof.
  induction 1 as [|x a b _ IH|x y a|a b c _ IH1 _ IH2].
  - reflexivity.
  - cbn [fold_left].
    rewrite (addonTotal_from a), (addonTotal_from b), IH. reflexivity.
  - cbn [fold_left].
    rewrite (addonTotal_from a (0 + addonUnitPrice y + addonUnitPrice x)%Q),
      (addonTotal_from a (0 + addonUnitPrice x + addonUnitPrice y)%Q).
    ring.
  - now rewrite IH1.
Qed.

Lemma calculateAddonPrice_total addons quantity :
  (calculateAddonPrice addons quantity
   == fold_left (fun sum addon => sum + addonUnitPrice addon) addons 0
      * inject_Z quantity)%Q.
Proof.
  destruct addons; [cbn; ring | reflexivity].
Qed.

(** X27. The price of a line does not depend on the order of its addons, so
    the in-place sort that computes the identity key never changes a price;
    the addon price is proportional to the quantity, and splitting a
    quantity over two lines of the same item leaves the price of the whole
    unchanged. *)
Theorem price_ignores_addon_order :
  forall l q1 q2,
    (linePrice (sortLineAddons l) == linePrice l)%Q
    /\ (calculateAddonPrice (OrderLine.addons l) (q1 + q2)
        == calculateAddonPrice (OrderLine.addons l) q1
           + calculateAddonPrice (OrderLine.addons l) q2)%Q
    /\ (linePrice (OrderLine.setQuantity (q1 + q2) l)
        == linePrice (OrderLine.setQuantity q1 l)
           + linePrice (OrderLine.setQuantity q2 l))%Q.
Proof.
  intros l q1 q2. unfold linePrice, sortLineAddons.
  cbn [OrderLine.price OrderLine.quantity OrderLine.addons
         OrderLine.setAddons OrderLine.setQuantity].
  rewrite !calculateAddonPrice_total.
  rewrite (addonTotal_perm _ _ (sortAddons_perm (OrderLine.addons l))).
  rewrite inject_Z_plus.
  repeat split; ring.
Qed.

(** ** Submitting a placed order again *)

Lemma placeOrder_success_inv {M : Mongoose} catalog customerName
  specialInstructions items code order :
  placeOrder catalog customerName specialInstructions items
  = Success code order ->
  exists ls t,
    order
    = Order.mk ls (round2 t) (trimmedOr (Some customerName) "Guest")
        (trim specialInstructions) Pending None false 0 [] [] []
        [("original", Pending)] false
    /\ Forall2 (placedFrom catalog) items ls
    /\ placeAccepted catalog items.
Proof.
  intros Hok.
  destruct (placeOrder_cases catalog customerName specialInstructions items)
    as [(Hacc & doc & Hdoc & Hlines & [(_ & Hrun) | (_ & Hrun)])
       | (_ & c & m & Hrun & _)];
    rewrite Hrun in Hok; try discriminate.
  injection Hok as _ <-.
  unfold placedDocument in Hdoc.
  destruct (fold_left _ items (Some ([], 0%Q))) as [[ls t]|];
    [|discriminate].
  injection Hdoc as <-. cbn [Order.items] in Hlines.
  exists ls, t. split; [reflexivity|]. split; assumption.
Qed.

Lemma placed_quantities catalog items ls k :
  Forall2 (placedFrom catalog) items ls ->
  desiredQty k items = existingTotalQty k ls.
Proof.
  unfold existingTotalQty.
  induction 1 as [|item l items ls (menuItem & Hm & ->) _ IH];
    [reflexivity|].
  rewrite desiredQty_cons.
  unfold nonRemoved. cbn [filter createLine OrderLine.isRemoved negb].
  fold (nonRemoved ls). unfold linesWithKey. cbn [filter].
  fold (linesWithKey k (nonRemoved ls)). unfold hasKey at 1.
  assert (Hk : lineKey (createLine menuItem item) = reqKey item).
  { unfold lineKey, reqKey. cbn.
    now rewrite (menuItemMap_id _ _ _ Hm). }
  rewrite Hk.
  destruct (Key_eq_dec (reqKey item) k); [|exact IH].
  rewrite totalQuantity_cons, IH. reflexivity.
Qed.

Lemma placed_keys_submitted catalog items ls l :
  Forall2 (placedFrom catalog) items ls ->
  In l ls -> submitted (lineKey l) items.
Proof.
  induction 1 as [|item l0 items ls (menuItem & Hm & ->) _ IH];
    [contradiction|].
  intros [<- | Hin].
  - exists item. split; [now left|].
    unfold lineKey, reqKey. cbn. now rewrite (menuItemMap_id _ _ _ Hm).
  - destruct (IH Hin) as (x & Hx & Hk). exists x. split; [now right|].
    exact Hk.
Qed.

(** X28. Submitting the items of a freshly placed order again as a staff
    edit passes the guards and is silent: the document the handler builds,
    which it saves and answers with whenever [save()] accepts it, logs
    nothing, stays [pending] with its single batch [original] and without
    unseen changes, keeps for every key exactly its lines (with their addons
    in sorted order), and records the request only in the update counter.
    This holds also when the submission names the same key several times. *)
Theorem staff_resubmission_is_silent {M : Mongoose} :
  forall catalog customerName specialInstructions items order req,
    placeOrder catalog customerName specialInstructions items
    = Success 201 order ->
    UpdateReq.items req = items ->
    updateAccepted catalog req order
    /\ exists doc,
         updateDocument true catalog req order = Some doc
         /\ (saves doc = true ->
             updateOrder true catalog req order
             = mkOutcome (Success 200 doc) doc)
         /\ Order.updateHistory doc = []
         /\ Order.status doc = Pending
         /\ Order.batchStatus doc = [("original", Pending)]
         /\ Order.hasUnseenChanges doc = false
         /\ Order.updateCount doc = 1
         /\ Order.isUpdated doc = true
         /\ (forall k,
               linesWithKey k (Order.items doc)
               = map sortLineAddons (linesWithKey k (Order.items order))).
Proof.
  intros catalog customerName specialInstructions items order req
    Hplaced Hitems.
  destruct (placeOrder_success_inv _ _ _ _ _ _ Hplaced)
    as (ls & t & Horder & Hlines & Hne & Hq & Hfound).
  assert (Hls : Order.items order = ls) by now rewrite Horder.
  assert (Hstatus : Order.status order = Pending) by now rewrite Horder.
  assert (Hacc : updateAccepted catalog req order).
  { unfold updateAccepted. rewrite Hitems, Hstatus.
    repeat split; assumption. }
  split; [exact Hacc|].
  assert (Hdoc : exists doc,
             updateDocument true catalog req order = Some doc
             /\ (saves doc = true ->
                 updateOrder true catalog req order
                 = mkOutcome (Success 200 doc) doc)).
  { destruct (updateOrder_cases true catalog req order)
      as [(_ & doc & Hdoc & Hsave & Hrun)
         | [(_ & doc & Hdoc & Hsave & Hrun) | (Hnot & _)]];
      [| |contradiction]; exists doc; (split; [exact Hdoc|]); intros Hs;
      [exact Hrun | congruence]. }
  destruct Hdoc as (doc & Hdoc & Hrun).
  exists doc. split; [exact Hdoc|]. split; [exact Hrun|].
  unfold updateDocument, staffReconcileTotal in Hdoc.
  rewrite Hitems, Hls in Hdoc.
  assert (Hold : nonRemoved ls = ls).
  { apply nonRemoved_all.
    clear -Hlines. induction Hlines as [|item l items ls (m & _ & ->) _ IH];
      constructor; [reflexivity | assumption]. }
  rewrite Hold in Hdoc.
  destruct (staffReconcile catalog staff ls items) as [[L H]|] eqn:Hs;
    [|discriminate].
  injection Hdoc as <-.
  assert (Hkey : forall k,
             submitted k items ->
             linesWithKey k L = map sortLineAddons (linesWithKey k ls)
             /\ staffKeyEvents catalog staff ls items k = []).
  { intros k Hsub.
    destruct (staff_key_summary _ _ _ _ _ _ k Hs Hsub)
      as (first & menuItem & _ & _ & Hl & Hevents).
    rewrite staffKey_unchanged in Hl, Hevents
      by (cbn [Incoming.qty]; rewrite totalQuantity_sortLineAddons;
          rewrite (placed_quantities catalog items ls k Hlines);
          unfold existingTotalQty; now rewrite Hold).
    split; assumption. }
  assert (HH : H = []).
  { apply staffReconcile_by_key in Hs. destruct Hs as (_ & -> & _).
    apply flat_map_nil. intros k Hk. apply submittedKeys_In in Hk.
    apply (Hkey k Hk). }
  subst H. rewrite Hls. rewrite Horder at 1 2 3 4 5 6.
  unfold applyUpdate.
  cbn [Order.updateHistory Order.status Order.batchStatus
         Order.hasUnseenChanges Order.updateCount Order.isUpdated
         Order.items].
  repeat (split; [reflexivity|]).
  intros k.
  destruct (in_dec Key_eq_dec k (submittedKeys items)) as [Hin | Hnin].
  - apply submittedKeys_In in Hin. apply (Hkey k Hin).
  - rewrite submittedKeys_In in Hnin.
    destruct (staffReconcile_lines _ _ _ _ _ _ k Hs) as [_ Hnone].
    rewrite (Hnone Hnin).
    rewrite linesWithKey_nil; [reflexivity|].
    intros l Hl Hk. apply Hnin. rewrite <- Hk.
    exact (placed_keys_submitted catalog items ls l Hlines Hl).
Qed.

Lemma staff_resubmission_is_silent_witness :
  let items :=
    [Sample.item Sample.burger 2; Sample.item Sample.fries 1;
     Sample.item Sample.burger 1] in
  exists order order',
    placeOrder Sample.catalog "Asha" EmptyString items = Success 201 order
    /\ updateOrder true Sample.catalog (Sample.request items) order
       = mkOutcome (Success 200 order') order'
    /\ Order.updateHistory order' = []
    /\ Order.status order' = Pending.
Proof.
  intros items.
  destruct (placeOrder Sample.catalog "Asha" EmptyString items)
    as [code order|] eqn:Hplaced; [|vm_compute in Hplaced; discriminate].
  assert (Hcode : code = 201%nat)
    by (vm_compute in Hplaced; now injection Hplaced as <- _).
  subst code.
  destruct (staff_resubmission_is_silent Sample.catalog "Asha" EmptyString
              items order (Sample.request items) Hplaced eq_refl)
    as (_ & order' & Hdoc & Hrun & Hh & Hs & _).
  exists order, order'. split; [reflexivity|].
  split; [|split; assumption].
  apply Hrun. vm_compute in Hplaced. injection Hplaced as <-.
  vm_compute in Hdoc. injection Hdoc as <-. vm_compute. reflexivity.
Defined.
